(** * fs-gate: the agricultural tool gateway (src/server.ts)

    A shallow embedding of the hybrid HTTP + MCP server, the version of
    [src/server.ts] that carries the MCP protocol handler: the two tool
    handlers ([cropPriceHandler], [searchHandler]), the handler registry
    ([toolHandlers]), the JSON-RPC dispatcher ([handleMCPRequest]) and the
    HTTP listener ([httpServer]) with its [/tools/{name}] and [/mcp]
    endpoints.  The handlers, the registry and the [/tools/] endpoint are the
    same in the HTTP-only version.

    A handler run is a tree of outbound calls ([io]): it returns, or it
    issues a call and goes on with the upstream's reply.  Each handler is
    written in its three phases: reading the inputs, building the request,
    shaping the response.

    JavaScript values are the values [JSON.parse] can produce plus
    [undefined].  A string is the list of its UTF-16 code units.  A number is
    an exact decimal [mantissa * 10 ^ exponent] (every JSON number literal is
    one); IEEE rounding, overflow to [Infinity] and the exponent notation of
    [String] for very large or very small numbers are outside the model.
    Objects keep their properties in insertion order; the reordering of
    integer-like keys is not modelled.  Property reads consult own properties
    only: none of the names the server reads is defined on a built-in
    prototype, [length] on arrays and strings apart, which is modelled. *)

From Stdlib Require Import List ZArith NArith Bool Ascii String Lia Decimal DecimalN.
Import ListNotations.

Set Implicit Arguments.
Set Warnings "-register-all,-notation-for-abbreviation".

(** ** Strings *)

Definition jstring := list N.

Definition lit (s : string) : jstring :=
  map N_of_ascii (list_ascii_of_string s).

Fixpoint jstring_eqb (a b : jstring) : bool :=
  match a, b with
  | [], [] => true
  | x :: a', y :: b' => N.eqb x y && jstring_eqb a' b'
  | _, _ => false
  end.

Fixpoint join (sep : jstring) (parts : list jstring) : jstring :=
  match parts with
  | [] => []
  | [p] => p
  | p :: rest => p ++ sep ++ join sep rest
  end.

(** [s.substring(a, b)] for non-negative integers: the code units from
    the smaller index up to the larger, both clamped to the length. *)
Definition substring (a b : nat) (s : jstring) : jstring :=
  firstn (Nat.max a b - Nat.min a b) (skipn (Nat.min a b) s).

(** [s.startsWith(p)], and the rest of [s] after the prefix. *)
Fixpoint strip_prefix (p s : jstring) : option jstring :=
  match p, s with
  | [], _ => Some s
  | x :: p', y :: s' => if N.eqb x y then strip_prefix p' s' else None
  | _ :: _, [] => None
  end.

Definition startsWith (s p : jstring) : bool :=
  match strip_prefix p s with Some _ => true | None => false end.

(** The text before and after the first occurrence of [sep] in [s]. *)
Fixpoint break_at (sep s : jstring) : option (jstring * jstring) :=
  match strip_prefix sep s with
  | Some rest => Some ([], rest)
  | None =>
      match s with
      | [] => None
      | c :: s' =>
          match break_at sep s' with
          | Some (before, rest) => Some (c :: before, rest)
          | None => None
          end
      end
  end.

Fixpoint split_fuel (fuel : nat) (sep s : jstring) : list jstring :=
  match fuel with
  | O => [s]
  | S fuel' =>
      match break_at sep s with
      | None => [s]
      | Some (before, rest) => before :: split_fuel fuel' sep rest
      end
  end.

(** [s.split(sep)] for a non-empty separator: every occurrence removes at
    least one code unit, so [length s] rounds are enough. *)
Definition split (sep s : jstring) : list jstring :=
  split_fuel (List.length s) sep s.

(** ** Numbers *)

Record number := Number { mantissa : Z; exponent : Z }.

Definition of_Z (z : Z) : number := Number z 0.
Definition of_nat (n : nat) : number := of_Z (Z.of_nat n).

Fixpoint strip_zeros (fuel : nat) (m e : Z) : number :=
  match fuel with
  | O => Number m e
  | S fuel' =>
      if (e <? 0)%Z && (m mod 10 =? 0)%Z
      then strip_zeros fuel' (m / 10)%Z (e + 1)%Z
      else Number m e
  end.

(** Integers are kept as [z * 10 ^ 0]; a fraction has no trailing zero. *)
Definition normalise (n : number) : number :=
  let (m, e) := n in
  if (m =? 0)%Z then Number 0 0
  else if (0 <=? e)%Z then Number (m * 10 ^ e)%Z 0
  else strip_zeros (Z.to_nat (- e)) m e.

Fixpoint uint_codes (d : Decimal.uint) : jstring :=
  match d with
  | Nil => []
  | D0 d => 48%N :: uint_codes d
  | D1 d => 49%N :: uint_codes d
  | D2 d => 50%N :: uint_codes d
  | D3 d => 51%N :: uint_codes d
  | D4 d => 52%N :: uint_codes d
  | D5 d => 53%N :: uint_codes d
  | D6 d => 54%N :: uint_codes d
  | D7 d => 55%N :: uint_codes d
  | D8 d => 56%N :: uint_codes d
  | D9 d => 57%N :: uint_codes d
  end.

Definition digits_of_N (n : N) : jstring := uint_codes (N.to_uint n).

(** [String(n)] for a number: the digits of an integer, and
    [int.fraction] for a fraction. *)
Definition number_to_string (n : number) : jstring :=
  let (m, e) := normalise n in
  let sign := if (m <? 0)%Z then lit "-" else [] in
  let a := Z.to_N (Z.abs m) in
  if (e =? 0)%Z then sign ++ digits_of_N a
  else
    let d := Z.to_N (- e) in
    let frac := digits_of_N (a mod 10 ^ d)%N in
    sign ++ digits_of_N (a / 10 ^ d)%N ++ lit "."
         ++ repeat 48%N (N.to_nat d - List.length frac) ++ frac.

Definition number_is_zero (n : number) : bool := (mantissa n =? 0)%Z.

(** ** Values *)

Inductive value : Type :=
| VUndefined
| VNull
| VBool (b : bool)
| VNum (n : number)
| VStr (s : jstring)
| VArr (items : list value)
| VObj (props : list (jstring * value)).

Definition VInt (z : Z) : value := VNum (of_Z z).

(** The errors the server can meet, by the place that throws them.  The text
    an engine gives each of them is a parameter of the handlers. *)
Inductive js_error : Type :=
| SyntaxError_JSON (text : jstring)
| TypeError_read (target : value) (property : jstring)
| TypeError_destructure (target : value)
| TypeError_not_a_function (callee : value) (method : jstring)
| TypeError_to_primitive (target : value)
| URIError_malformed (text : jstring)
| FetchError (reason : jstring).

(** A computation that may throw. *)
Definition exc (A : Type) : Type := (js_error + A)%type.

Definition ebind {A B} (c : exc A) (f : A -> exc B) : exc B :=
  match c with
  | inl e => inl e
  | inr a => f a
  end.

Declare Scope exc_scope.
Delimit Scope exc_scope with exc.
Notation "x <- c ;; k" := (ebind c (fun x => k))
  (at level 61, c at next level, right associativity) : exc_scope.

Fixpoint emap {A B} (f : A -> exc B) (xs : list A) : exc (list B) :=
  match xs with
  | [] => inr []
  | x :: rest =>
      (y <- f x ;;
       ys <- emap f rest ;;
       inr (y :: ys))%exc
  end.

(** Truthiness: [!!v]. *)
Definition truthy (v : value) : bool :=
  match v with
  | VUndefined | VNull => false
  | VBool b => b
  | VNum n => negb (number_is_zero n)
  | VStr s => match s with [] => false | _ => true end
  | VArr _ | VObj _ => true
  end.

Definition nullish (v : value) : bool :=
  match v with
  | VUndefined | VNull => true
  | _ => false
  end.

(** [a ?? b] and [a || b]. *)
Definition coalesce (a b : value) : value := if nullish a then b else a.
Definition or_else (a b : value) : value := if truthy a then a else b.

(** Keyed lookup in insertion order, for object properties and for [Map]s;
    a repeated key holds its last assignment, which [assoc_set] keeps in a
    single entry at the place of the first. *)
Fixpoint lookup {A} (k : jstring) (entries : list (jstring * A)) : option A :=
  match entries with
  | [] => None
  | (k', v) :: rest => if jstring_eqb k k' then Some v else lookup k rest
  end.

Fixpoint assoc_set {A} (k : jstring) (v : A) (entries : list (jstring * A))
  : list (jstring * A) :=
  match entries with
  | [] => [(k, v)]
  | (k', v') :: rest =>
      if jstring_eqb k k' then (k, v) :: rest else (k', v') :: assoc_set k v rest
  end.

Definition set_prop (k : jstring) (v : value) (props : list (jstring * value))
  : list (jstring * value) := assoc_set k v props.

Definition own (k : jstring) (props : list (jstring * value)) : value :=
  match lookup k props with Some v => v | None => VUndefined end.

(** [v.k] read without a guard: throws on [null] and [undefined]. *)
Definition get (v : value) (k : jstring) : exc value :=
  match v with
  | VUndefined | VNull => inl (TypeError_read v k)
  | VObj props => inr (own k props)
  | VArr items =>
      if jstring_eqb k (lit "length") then inr (VNum (of_nat (List.length items)))
      else inr VUndefined
  | VStr s =>
      if jstring_eqb k (lit "length") then inr (VNum (of_nat (List.length s)))
      else inr VUndefined
  | VBool _ | VNum _ => inr VUndefined
  end.

(** [const { k1, k2 } = v] reads each name after checking that [v] can be
    destructured at all. *)
Definition destructurable (v : value) : exc unit :=
  if nullish v then inl (TypeError_destructure v) else inr tt.

(** ** String conversion *)

(** [String(v)] and the conversion a template literal applies.  An array
    joins its items with a comma, [null] and [undefined] items as empty text.
    A plain object prints as [[object Object]], unless it carries an own
    [toString] property: a parsed value is never callable, [valueOf] then
    returns the object itself, and the conversion throws. *)
Fixpoint ToString (v : value) : exc jstring :=
  match v with
  | VUndefined => inr (lit "undefined")
  | VNull => inr (lit "null")
  | VBool true => inr (lit "true")
  | VBool false => inr (lit "false")
  | VNum n => inr (number_to_string n)
  | VStr s => inr s
  | VArr items =>
      (parts <- (fix each (xs : list value) : exc (list jstring) :=
                   match xs with
                   | [] => inr []
                   | x :: rest =>
                       p <- (if nullish x then inr [] else ToString x) ;;
                       ps <- each rest ;;
                       inr (p :: ps)
                   end) items ;;
       inr (join (lit ",") parts))%exc
  | VObj props =>
      match lookup (lit "toString") props with
      | Some _ => inl (TypeError_to_primitive v)
      | None => inr (lit "[object Object]")
      end
  end.

(** ** JSON.stringify *)

Definition hex_lower (d : N) : N := if (d <? 10)%N then (48 + d)%N else (87 + d)%N.
Definition hex_upper (d : N) : N := if (d <? 10)%N then (48 + d)%N else (55 + d)%N.

Definition unicode_escape (c : N) : jstring :=
  lit "\u" ++ [hex_lower (c / 4096 mod 16); hex_lower (c / 256 mod 16);
               hex_lower (c / 16 mod 16); hex_lower (c mod 16)]%N.

Definition is_high_surrogate (c : N) : bool := (55296 <=? c)%N && (c <=? 56319)%N.
Definition is_low_surrogate (c : N) : bool := (56320 <=? c)%N && (c <=? 57343)%N.

Definition quote_unit (c : N) : jstring :=
  if (c =? 8)%N then lit "\b"
  else if (c =? 9)%N then lit "\t"
  else if (c =? 10)%N then lit "\n"
  else if (c =? 12)%N then lit "\f"
  else if (c =? 13)%N then lit "\r"
  else if (c =? 34)%N then [92; 34]%N
  else if (c =? 92)%N then [92; 92]%N
  else if (c <? 32)%N then unicode_escape c
  else [c].

Fixpoint quote_units (s : jstring) : jstring :=
  match s with
  | [] => []
  | c :: rest =>
      if is_high_surrogate c then
        match rest with
        | d :: rest' =>
            if is_low_surrogate d then c :: d :: quote_units rest'
            else unicode_escape c ++ quote_units rest
        | [] => unicode_escape c
        end
      else if is_low_surrogate c then unicode_escape c ++ quote_units rest
      else quote_unit c ++ quote_units rest
  end.

(** [QuoteJSONString]. *)
Definition quote (s : jstring) : jstring := [34%N] ++ quote_units s ++ [34%N].

Definition newline : jstring := [10%N].

Definition wrap (gap stepback indent opening closing : jstring)
           (partial : list jstring) : jstring :=
  match partial with
  | [] => opening ++ closing
  | _ =>
      match gap with
      | [] => opening ++ join (lit ",") partial ++ closing
      | _ =>
          opening ++ newline ++ indent
            ++ join (lit "," ++ newline ++ indent) partial
            ++ newline ++ stepback ++ closing
      end
  end.

(** [SerializeJSONProperty]: [None] is the [undefined] that [JSON.stringify]
    returns for [undefined]; an array prints it as [null], an object leaves
    the property out. *)
Fixpoint serialize (gap indent : jstring) (v : value) : option jstring :=
  match v with
  | VUndefined => None
  | VNull => Some (lit "null")
  | VBool true => Some (lit "true")
  | VBool false => Some (lit "false")
  | VNum n => Some (number_to_string n)
  | VStr s => Some (quote s)
  | VArr items =>
      let inner := indent ++ gap in
      Some (wrap gap indent inner (lit "[") (lit "]")
              ((fix each (xs : list value) : list jstring :=
                  match xs with
                  | [] => []
                  | x :: rest =>
                      match serialize gap inner x with
                      | Some t => t
                      | None => lit "null"
                      end :: each rest
                  end) items))
  | VObj props =>
      let inner := indent ++ gap in
      let colon := match gap with [] => lit ":" | _ => lit ": " end in
      Some (wrap gap indent inner (lit "{") (lit "}")
              ((fix each (ps : list (jstring * value)) : list jstring :=
                  match ps with
                  | [] => []
                  | (k, x) :: rest =>
                      match serialize gap inner x with
                      | Some t => (quote k ++ colon ++ t) :: each rest
                      | None => each rest
                      end
                  end) props))
  end.

(** [JSON.stringify(v)] and [JSON.stringify(v, null, 2)]. *)
Definition JSON_stringify (v : value) : option jstring := serialize [] [] v.
Definition JSON_stringify_2 (v : value) : option jstring := serialize (lit "  ") [] v.

(** ** JSON.parse *)

Definition is_ws (c : N) : bool :=
  (c =? 32)%N || (c =? 9)%N || (c =? 10)%N || (c =? 13)%N.

Definition is_digit (c : N) : bool := (48 <=? c)%N && (c <=? 57)%N.

Fixpoint skip_ws (s : jstring) : jstring :=
  match s with
  | c :: rest => if is_ws c then skip_ws rest else s
  | [] => []
  end.

Definition hex_value (c : N) : option N :=
  if is_digit c then Some (c - 48)%N
  else if (97 <=? c)%N && (c <=? 102)%N then Some (c - 87)%N
  else if (65 <=? c)%N && (c <=? 70)%N then Some (c - 55)%N
  else None.

Definition hex4 (a b c d : N) : option N :=
  match hex_value a, hex_value b, hex_value c, hex_value d with
  | Some x, Some y, Some z, Some w => Some (((x * 16 + y) * 16 + z) * 16 + w)%N
  | _, _, _, _ => None
  end.

(** The code unit a two-character escape stands for. *)
Definition simple_escape (c : N) : option N :=
  if (c =? 34)%N then Some 34%N
  else if (c =? 92)%N then Some 92%N
  else if (c =? 47)%N then Some 47%N
  else if (c =? 98)%N then Some 8%N
  else if (c =? 102)%N then Some 12%N
  else if (c =? 110)%N then Some 10%N
  else if (c =? 114)%N then Some 13%N
  else if (c =? 116)%N then Some 9%N
  else None.

Definition push (c : N) (r : option (jstring * jstring)) : option (jstring * jstring) :=
  match r with
  | Some (s, rest) => Some (c :: s, rest)
  | None => None
  end.

(** The characters of a string literal after its opening quote, up to the
    closing one. *)
Fixpoint parse_chars (s : jstring) : option (jstring * jstring) :=
  match s with
  | [] => None
  | c :: r =>
      if (c =? 34)%N then Some ([], r)
      else if (c =? 92)%N then
        match r with
        | [] => None
        | e :: r1 =>
            if (e =? 117)%N then
              match r1 with
              | h1 :: h2 :: h3 :: h4 :: r2 =>
                  match hex4 h1 h2 h3 h4 with
                  | Some u => push u (parse_chars r2)
                  | None => None
                  end
              | _ => None
              end
            else
              match simple_escape e with
              | Some u => push u (parse_chars r1)
              | None => None
              end
        end
      else if (c <? 32)%N then None
      else push c (parse_chars r)
  end.

Fixpoint span_digits (s : jstring) : list N * jstring :=
  match s with
  | c :: rest =>
      if is_digit c then let (ds, r) := span_digits rest in ((c - 48)%N :: ds, r)
      else ([], s)
  | [] => ([], [])
  end.

Definition digits_value (ds : list N) : Z :=
  fold_left (fun acc d => (acc * 10 + Z.of_N d)%Z) ds 0%Z.

(** The integer part: a single [0], or digits that do not start with [0]. *)
Definition parse_int_part (s : jstring) : option (list N * jstring) :=
  match s with
  | c :: rest =>
      if (c =? 48)%N then Some ([0%N], rest)
      else if is_digit c then Some (span_digits s)
      else None
  | [] => None
  end.

Definition parse_frac_part (s : jstring) : option (list N * jstring) :=
  match s with
  | c :: rest =>
      if (c =? 46)%N then
        match span_digits rest with
        | ([], _) => None
        | (ds, r) => Some (ds, r)
        end
      else Some ([], s)
  | [] => Some ([], [])
  end.

Definition parse_exp_digits (negative : bool) (s : jstring) : option (Z * jstring) :=
  match span_digits s with
  | ([], _) => None
  | (ds, r) => Some (if negative then (- digits_value ds)%Z else digits_value ds, r)
  end.

Definition parse_exp_part (s : jstring) : option (Z * jstring) :=
  match s with
  | c :: rest =>
      if (c =? 101)%N || (c =? 69)%N then
        match rest with
        | sg :: rest' =>
            if (sg =? 43)%N then parse_exp_digits false rest'
            else if (sg =? 45)%N then parse_exp_digits true rest'
            else parse_exp_digits false rest
        | [] => None
        end
      else Some (0%Z, s)
  | [] => Some (0%Z, [])
  end.

Definition parse_number (s : jstring) : option (number * jstring) :=
  let (negative, s1) :=
    match s with
    | c :: rest => if (c =? 45)%N then (true, rest) else (false, s)
    | [] => (false, s)
    end in
  match parse_int_part s1 with
  | None => None
  | Some (int_ds, s2) =>
      match parse_frac_part s2 with
      | None => None
      | Some (frac_ds, s3) =>
          match parse_exp_part s3 with
          | None => None
          | Some (e, s4) =>
              let m := digits_value (int_ds ++ frac_ds) in
              Some (normalise
                      (Number (if negative then (- m)%Z else m)
                              (e - Z.of_nat (List.length frac_ds))%Z),
                    s4)
          end
      end
  end.

Definition parse_word (word : string) (v : value) (s : jstring)
  : option (value * jstring) :=
  match strip_prefix (lit word) s with
  | Some rest => Some (v, rest)
  | None => None
  end.

(** A recursive-descent parser for the JSON grammar.  Every call passes on a
    shorter text with one unit of fuel less, and [JSON_parse] starts it with
    twice the length of the text and two more. *)
Fixpoint parse_value (fuel : nat) (s : jstring) : option (value * jstring) :=
  match fuel with
  | O => None
  | S fuel' =>
      match skip_ws s with
      | [] => None
      | c :: r =>
          if (c =? 123)%N then
            match skip_ws r with
            | d :: r' =>
                if (d =? 125)%N then Some (VObj [], r')
                else
                  match parse_members fuel' (d :: r') with
                  | Some (members, rest) =>
                      Some (VObj (fold_left (fun acc kv => set_prop (fst kv) (snd kv) acc)
                                            members []), rest)
                  | None => None
                  end
            | [] => None
            end
          else if (c =? 91)%N then
            match skip_ws r with
            | d :: r' =>
                if (d =? 93)%N then Some (VArr [], r')
                else
                  match parse_elements fuel' (d :: r') with
                  | Some (items, rest) => Some (VArr items, rest)
                  | None => None
                  end
            | [] => None
            end
          else if (c =? 34)%N then
            match parse_chars r with
            | Some (str, rest) => Some (VStr str, rest)
            | None => None
            end
          else if (c =? 116)%N then parse_word "true" (VBool true) (c :: r)
          else if (c =? 102)%N then parse_word "false" (VBool false) (c :: r)
          else if (c =? 110)%N then parse_word "null" VNull (c :: r)
          else
            match parse_number (c :: r) with
            | Some (n, rest) => Some (VNum n, rest)
            | None => None
            end
      end
  end

with parse_elements (fuel : nat) (s : jstring) : option (list value * jstring) :=
  match fuel with
  | O => None
  | S fuel' =>
      match parse_value fuel' s with
      | None => None
      | Some (v, r) =>
          match skip_ws r with
          | c :: r' =>
              if (c =? 44)%N then
                match parse_elements fuel' r' with
                | Some (vs, rest) => Some (v :: vs, rest)
                | None => None
                end
              else if (c =? 93)%N then Some ([v], r')
              else None
          | [] => None
          end
      end
  end

with parse_members (fuel : nat) (s : jstring)
  : option (list (jstring * value) * jstring) :=
  match fuel with
  | O => None
  | S fuel' =>
      match skip_ws s with
      | q :: r0 =>
          if (q =? 34)%N then
            match parse_chars r0 with
            | None => None
            | Some (k, r1) =>
                match skip_ws r1 with
                | c :: r2 =>
                    if (c =? 58)%N then
                      match parse_value fuel' r2 with
                      | None => None
                      | Some (v, r3) =>
                          match skip_ws r3 with
                          | d :: r4 =>
                              if (d =? 44)%N then
                                match parse_members fuel' r4 with
                                | Some (ms, rest) => Some ((k, v) :: ms, rest)
                                | None => None
                                end
                              else if (d =? 125)%N then Some ([(k, v)], r4)
                              else None
                          | [] => None
                          end
                      end
                    else None
                | [] => None
                end
            end
          else None
      | [] => None
      end
  end.

(** [JSON.parse(text)]: the value, or the [SyntaxError] it throws. *)
Definition JSON_parse (text : jstring) : exc value :=
  match parse_value (2 * List.length text + 2) text with
  | Some (v, rest) =>
      match skip_ws rest with
      | [] => inr v
      | _ :: _ => inl (SyntaxError_JSON text)
      end
  | None => inl (SyntaxError_JSON text)
  end.

(** ** Percent-encoding *)

(** The code points of a string; [None] stands for a lone surrogate. *)
Fixpoint code_points (s : jstring) : list (option N) :=
  match s with
  | [] => []
  | c :: rest =>
      if is_high_surrogate c then
        match rest with
        | d :: rest' =>
            if is_low_surrogate d
            then Some (65536 + (c - 55296) * 1024 + (d - 56320))%N :: code_points rest'
            else None :: code_points rest
        | [] => [None]
        end
      else if is_low_surrogate c then None :: code_points rest
      else Some c :: code_points rest
  end.

Definition utf8 (cp : N) : list N :=
  if (cp <? 128)%N then [cp]
  else if (cp <? 2048)%N then [192 + cp / 64; 128 + cp mod 64]%N
  else if (cp <? 65536)%N
       then [224 + cp / 4096; 128 + cp / 64 mod 64; 128 + cp mod 64]%N
       else [240 + cp / 262144; 128 + cp / 4096 mod 64;
             128 + cp / 64 mod 64; 128 + cp mod 64]%N.

Definition percent (byte : N) : jstring :=
  [37; hex_upper (byte / 16); hex_upper (byte mod 16)]%N.

Definition is_alnum (c : N) : bool :=
  is_digit c || ((65 <=? c)%N && (c <=? 90)%N) || ((97 <=? c)%N && (c <=? 122)%N).

Definition one_of (codes : list N) (c : N) : bool := existsb (N.eqb c) codes.

(** [encodeURIComponent]: keeps letters, digits and [- _ . ! ~ * ' ( )];
    throws on a lone surrogate. *)
Definition uri_unreserved (c : N) : bool :=
  is_alnum c || one_of [45; 95; 46; 33; 126; 42; 39; 40; 41]%N c.

Definition encodeURIComponent (s : jstring) : exc jstring :=
  (fix each (cps : list (option N)) : exc jstring :=
     match cps with
     | [] => inr []
     | None :: _ => inl (URIError_malformed s)
     | Some cp :: rest =>
         (tail <- each rest ;;
          inr ((if uri_unreserved cp then [cp] else flat_map percent (utf8 cp)) ++ tail))%exc
     end) (code_points s).

(** The [application/x-www-form-urlencoded] serialiser: keeps letters,
    digits and [* - . _], writes a space as [+], and a lone surrogate as
    U+FFFD. *)
Definition form_byte (b : N) : jstring :=
  if (b =? 32)%N then [43%N]
  else if is_alnum b || one_of [42; 45; 46; 95]%N b then [b]
  else percent b.

Definition form_encode (s : jstring) : jstring :=
  flat_map (fun cp => flat_map form_byte
                        (utf8 (match cp with Some c => c | None => 65533%N end)))
           (code_points s).

(** ** URLSearchParams *)

Definition URLSearchParams := list (jstring * jstring).

Definition has (name : jstring) (q : URLSearchParams) : bool :=
  existsb (fun entry => jstring_eqb name (fst entry)) q.

Definition get_param (name : jstring) (q : URLSearchParams) : option jstring :=
  lookup name q.

Definition append (name v : jstring) (q : URLSearchParams) : URLSearchParams :=
  q ++ [(name, v)].

(** [set]: the first entry of that name takes the value and the others go;
    with no such entry it appends. *)
Fixpoint set_first (name v : jstring) (q : URLSearchParams) : URLSearchParams :=
  match q with
  | [] => []
  | (k, x) :: rest =>
      if jstring_eqb name k
      then (k, v) :: filter (fun entry => negb (jstring_eqb name (fst entry))) rest
      else (k, x) :: set_first name v rest
  end.

Definition set (name v : jstring) (q : URLSearchParams) : URLSearchParams :=
  if has name q then set_first name v q else append name v q.

Definition URLSearchParams_toString (q : URLSearchParams) : jstring :=
  join (lit "&")
       (map (fun entry => form_encode (fst entry) ++ lit "=" ++ form_encode (snd entry)) q).

(** ** Outbound calls *)

Record outbound := Outbound {
  out_url : jstring;
  out_method : jstring;
  out_headers : list (jstring * jstring);
  out_body : option jstring
}.

(** What [await fetch(...)] followed by [await res.text()] gives: a status
    with the body text, or the error the promise rejects with. *)
Inductive reply : Type :=
| Response (status : Z) (text : jstring)
| Rejected (e : js_error).

Definition ok (status : Z) : bool := (200 <=? status)%Z && (status <=? 299)%Z.

(** A handler run: it ends with a value, or issues one outbound call and goes
    on with the reply. *)
Inductive io (A : Type) : Type :=
| Ret (a : A)
| Fetch (rq : outbound) (k : reply -> io A).

Arguments Ret {A} a.
Arguments Fetch {A} rq k.

Fixpoint io_bind {A B} (c : io A) (f : A -> io B) : io B :=
  match c with
  | Ret a => f a
  | Fetch rq k => Fetch rq (fun r => io_bind (k r) f)
  end.

Definition io_map {A B} (f : A -> B) (c : io A) : io B :=
  io_bind c (fun a => Ret (f a)).

(** Running against an upstream: the result and the calls issued, in order. *)
Fixpoint run {A} (net : outbound -> reply) (c : io A) : A * list outbound :=
  match c with
  | Ret a => (a, [])
  | Fetch rq k => let (a, calls) := run net (k (net rq)) in (a, rq :: calls)
  end.

(** An asynchronous function: outbound calls, then a value or a throw. *)
Definition M (A : Type) : Type := io (exc A).

Definition mret {A} (a : A) : M A := Ret (inr a).
Definition throw {A} (e : js_error) : M A := Ret (inl e).
Definition lift {A} (c : exc A) : M A := Ret c.

Definition mbind {A B} (c : M A) (f : A -> M B) : M B :=
  io_bind c (fun r => match r with inl e => Ret (inl e) | inr a => f a end).

Definition try_catch {A} (c : M A) (handler : js_error -> M A) : M A :=
  io_bind c (fun r => match r with inl e => handler e | inr a => Ret (inr a) end).

Definition fetch (rq : outbound) : M (Z * jstring) :=
  Fetch rq (fun r => match r with
                     | Response status text => Ret (inr (status, text))
                     | Rejected e => Ret (inl e)
                     end).

Declare Scope io_scope.
Delimit Scope io_scope with io.
Notation "x <- c ;; k" := (mbind c (fun x => k))
  (at level 61, c at next level, right associativity) : io_scope.
Notation "' pat <- c ;; k" := (mbind c (fun x => match x with pat => k end))
  (at level 61, pat pattern, c at next level, right associativity) : io_scope.

(** ** Tool results *)

Definition Success (data : value) : value :=
  VObj [(lit "success", VBool true); (lit "data", data)].

Definition Failure (message : jstring) : value :=
  VObj [(lit "error", VStr message)].

(** ** Process configuration *)

Record environment := Environment {
  DATAGOVIN_API_KEY : option jstring;
  DATAGOVIN_RESOURCE_ID : option jstring;
  EXA_API_KEY : option jstring;
  PORT : option jstring
}.

Definition env_value (x : option jstring) : value :=
  match x with Some s => VStr s | None => VUndefined end.

(** [a > bound] where [a] is a number or [undefined] ([undefined]
    converts to [NaN], and every comparison with it is false). *)
Definition greater_than (a : value) (bound : Z) : bool :=
  match a with
  | VNum (Number m e) =>
      if (0 <=? e)%Z then (bound <? m * 10 ^ e)%Z else (bound * 10 ^ (- e) <? m)%Z
  | _ => false
  end.

(** [l + r] with a string on the right: the text of [l], then [r]. *)
Definition plus_string (l : value) (r : jstring) : exc value :=
  (s <- ToString l ;; inr (VStr (s ++ r)))%exc.

(** [text?.substring(0, 500)]. *)
Definition optional_substring (text : value) : exc value :=
  if nullish text then inr VUndefined
  else
    match text with
    | VStr s => inr (VStr (substring 0 500 s))
    | _ => inl (TypeError_not_a_function text (lit "substring"))
    end.

(** [text?.length]. *)
Definition optional_length (text : value) : exc value :=
  if nullish text then inr VUndefined else get text (lit "length").

(** The callback [searchHandler] maps over the upstream results. *)
Definition mapResult (result : value) : exc value :=
  (title <- get result (lit "title") ;;
   url <- get result (lit "url") ;;
   text <- get result (lit "text") ;;
   head <- optional_substring text ;;
   len <- optional_length text ;;
   shown <- plus_string head (if greater_than len 500 then lit "..." else lit "") ;;
   score <- get result (lit "score") ;;
   published_date <- get result (lit "published_date") ;;
   inr (VObj [(lit "title", title);
              (lit "url", url);
              (lit "text", shown);
              (lit "score", score);
              (lit "published_date", published_date)]))%exc.

(** [results.map(callback)]: only an array has the method. *)
Definition Array_map (callback : value -> exc value) (results : value) : exc value :=
  match results with
  | VArr items => (mapped <- emap callback items ;; inr (VArr mapped))%exc
  | _ => inl (TypeError_not_a_function results (lit "map"))
  end.

(** [if (v) body.k = v]. *)
Definition assign_if (k : jstring) (v : value) (props : list (jstring * value))
  : list (jstring * value) :=
  if truthy v then set_prop k v props else props.

(** [if (v) urlParams.append(name, v)]. *)
Definition append_if (name : jstring) (v : value) (q : URLSearchParams)
  : exc URLSearchParams :=
  if truthy v then (s <- ToString v ;; inr (append name s q))%exc else inr q.

Definition default_resource_id : jstring := lit "35985678-0d79-46b4-9ed6-6f13308a1d24".

(** Literals of the source, written with their keys and texts as they stand. *)
Definition str (s : string) : value := VStr (lit s).

Definition prop (k : string) (v : value) : jstring * value := (lit k, v).

Notation "k ~> v" := (prop k v) (at level 70, no associativity).

Definition obj (props : list (jstring * value)) : value := VObj props.

(** [v === "text"]. *)
Definition is_string (v : value) (s : jstring) : bool :=
  match v with
  | VStr t => jstring_eqb t s
  | _ => false
  end.


Section Server.

(** [String(err)], the text the engine gives a caught error. *)
Variable String_error : js_error -> jstring.

(** [process.env]. *)
Variable env : environment.

(** [new Date().toISOString()] at the time of the request. *)
Variable now : jstring.

(** *** Crop price tool handler *)

Record price_inputs := PriceInputs {
  state : value;
  district : value;
  commodity : value;
  limit : value;
  offset : value
}.

(** [const { state, district, commodity } = params], then [limit] and
    [offset] with their defaults. *)
Definition cropPrice_inputs (params : value) : exc price_inputs :=
  (_ <- destructurable params ;;
   state <- get params (lit "state") ;;
   district <- get params (lit "district") ;;
   commodity <- get params (lit "commodity") ;;
   params_limit <- get params (lit "limit") ;;
   let limit := coalesce params_limit (VInt 50) in
   params_offset <- get params (lit "offset") ;;
   let offset := coalesce params_offset (VInt 0) in
   inr (PriceInputs state district commodity limit offset))%exc.

(** The query the handler builds. *)
Definition cropPrice_urlParams (API_KEY : jstring) (i : price_inputs)
  : exc URLSearchParams :=
  (let urlParams : URLSearchParams := [] in
   let urlParams := set (lit "api-key") API_KEY urlParams in
   let urlParams := set (lit "format") (lit "json") urlParams in
   limit_text <- ToString (limit i) ;;
   let urlParams := set (lit "limit") limit_text urlParams in
   offset_text <- ToString (offset i) ;;
   let urlParams := set (lit "offset") offset_text urlParams in
   urlParams <- append_if (lit "filters[State]") (state i) urlParams ;;
   urlParams <- append_if (lit "filters[District]") (district i) urlParams ;;
   urlParams <- append_if (lit "filters[Commodity]") (commodity i) urlParams ;;
   inr urlParams)%exc.

Definition RESOURCE_ID : jstring :=
  match DATAGOVIN_RESOURCE_ID env with
  | Some id => id
  | None => default_resource_id
  end.

(** The URL the handler fetches. *)
Definition cropPrice_url (API_KEY : jstring) (i : price_inputs) : exc jstring :=
  (resource <- encodeURIComponent RESOURCE_ID ;;
   let base := lit "https://api.data.gov.in/resource/" ++ resource in
   urlParams <- cropPrice_urlParams API_KEY i ;;
   inr (base ++ lit "?" ++ URLSearchParams_toString urlParams))%exc.

(** What the handler returns once the upstream has answered. *)
Definition cropPrice_response (i : price_inputs) (status : Z) (text : jstring)
  : exc value :=
  if negb (ok status) then
    inr (Failure (lit "HTTP " ++ number_to_string (of_Z status)
                    ++ lit " fetching data.gov.in: " ++ text))
  else
    match JSON_parse text with
    | inl _ => inr (Failure (lit "Invalid JSON response: " ++ text))
    | inr json =>
        (json_records <- get json (lit "records") ;;
         let records := or_else json_records (VArr []) in
         json_total <- get json (lit "total") ;;
         records_length <- get records (lit "length") ;;
         let total := or_else json_total records_length in
         inr (Success
                (VObj [(lit "records", records);
                       (lit "total", total);
                       (lit "limit", limit i);
                       (lit "offset", offset i);
                       (lit "query", VObj [(lit "state", state i);
                                           (lit "district", district i);
                                           (lit "commodity", commodity i)])])))%exc
    end.

Definition server_error (err : js_error) : value :=
  Failure (lit "Server error: " ++ String_error err).

Definition cropPriceHandler (params : value) : M value :=
  try_catch
    (match DATAGOVIN_API_KEY env with
     | None | Some [] =>
         mret (Failure (lit "Configuration error: DATAGOVIN_API_KEY not set in environment."))
     | Some API_KEY =>
         (i <- lift (cropPrice_inputs params) ;;
          url <- lift (cropPrice_url API_KEY i) ;;
          '(status, text) <- fetch (Outbound url (lit "GET") [] None) ;;
          lift (cropPrice_response i status text))%io
     end)
    (fun err => mret (server_error err)).

(** *** EXA search tool handler *)

Record search_inputs := SearchInputs {
  query : value;
  num_results : value;
  include_domains : value;
  exclude_domains : value;
  start_crawl_date : value;
  end_crawl_date : value
}.

(** [const { query, num_results = 5, include_domains, ... } = params]. *)
Definition search_read (params : value) : exc search_inputs :=
  (_ <- destructurable params ;;
   query <- get params (lit "query") ;;
   params_num_results <- get params (lit "num_results") ;;
   let num_results :=
     match params_num_results with VUndefined => VInt 5 | v => v end in
   include_domains <- get params (lit "include_domains") ;;
   exclude_domains <- get params (lit "exclude_domains") ;;
   start_crawl_date <- get params (lit "start_crawl_date") ;;
   end_crawl_date <- get params (lit "end_crawl_date") ;;
   inr (SearchInputs query num_results include_domains exclude_domains
                     start_crawl_date end_crawl_date))%exc.

Definition search_requestBody (i : search_inputs) : value :=
  let requestBody :=
    [(lit "query", query i);
     (lit "num_results", num_results i);
     (lit "use_autoprompt", VBool true);
     (lit "contents", VObj [(lit "text", VBool true)])] in
  let requestBody := assign_if (lit "include_domains") (include_domains i) requestBody in
  let requestBody := assign_if (lit "exclude_domains") (exclude_domains i) requestBody in
  let requestBody := assign_if (lit "start_crawl_date") (start_crawl_date i) requestBody in
  let requestBody := assign_if (lit "end_crawl_date") (end_crawl_date i) requestBody in
  VObj requestBody.

Definition search_response (i : search_inputs) (status : Z) (text : jstring)
  : exc value :=
  if negb (ok status) then
    inr (Failure (lit "HTTP " ++ number_to_string (of_Z status)
                    ++ lit " fetching EXA API: " ++ text))
  else
    match JSON_parse text with
    | inl _ => inr (Failure (lit "Invalid JSON response from EXA: " ++ text))
    | inr json =>
        (json_results <- get json (lit "results") ;;
         let results := or_else json_results (VArr []) in
         mapped <- Array_map mapResult results ;;
         total_results <- get results (lit "length") ;;
         inr (Success
                (VObj [(lit "results", mapped);
                       (lit "total_results", total_results);
                       (lit "query", query i)])))%exc
    end.

Definition end_body (text : option jstring) : jstring :=
  match text with Some s => s | None => [] end.

Definition searchHandler (params : value) : M value :=
  try_catch
    (match EXA_API_KEY env with
     | None | Some [] =>
         mret (Failure (lit "Configuration error: EXA_API_KEY not set in environment."))
     | Some API_KEY =>
         (i <- lift (search_read params) ;;
          '(status, text) <-
            fetch (Outbound (lit "https://api.exa.ai/search") (lit "POST")
                            [(lit "Content-Type", lit "application/json");
                             (lit "x-api-key", API_KEY)]
                            (JSON_stringify (search_requestBody i))) ;;
          lift (search_response i status text))%io
     end)
    (fun err => mret (server_error err)).

(** *** The handler registry *)

Definition Map (A : Type) : Type := list (jstring * A).

Definition Map_set {A} (k : jstring) (v : A) (m : Map A) : Map A := assoc_set k v m.

(** [Map.get] compares by [SameValueZero]: only a string finds a string key. *)
Definition Map_get {A} (k : value) (m : Map A) : option A :=
  match k with
  | VStr s => lookup s m
  | _ => None
  end.

Definition Map_keys {A} (m : Map A) : value := VArr (map (fun e => VStr (fst e)) m).

Definition toolHandlers : Map (value -> M value) :=
  Map_set (lit "search") searchHandler
          (Map_set (lit "crop-price") cropPriceHandler []).

(** *** MCP tool definitions *)

Definition mcpTools : value :=
  VArr
    [obj [("name" ~> str "crop-price");
          ("description" ~>
           str "Fetch crop price data from data.gov.in with state/district/commodity filters");
          ("inputSchema" ~>
           obj [("type" ~> str "object");
                ("properties" ~>
                 obj [("state" ~>
                       obj [("type" ~> str "string");
                            ("description" ~> str "State filter (e.g., Punjab, Maharashtra)")]);
                      ("district" ~>
                       obj [("type" ~> str "string");
                            ("description" ~> str "District filter (e.g., Ludhiana, Mumbai)")]);
                      ("commodity" ~>
                       obj [("type" ~> str "string");
                            ("description" ~>
                             str "Commodity filter (e.g., Wheat, Rice, Cotton)")]);
                      ("limit" ~>
                       obj [("type" ~> str "number");
                            ("description" ~> str "Max records to return (default: 50)");
                            ("default" ~> VInt 50)]);
                      ("offset" ~>
                       obj [("type" ~> str "number");
                            ("description" ~> str "Records to skip (default: 0)");
                            ("default" ~> VInt 0)])])])];
     obj [("name" ~> str "search");
          ("description" ~>
           str "Search the web for agricultural information using EXA API");
          ("inputSchema" ~>
           obj [("type" ~> str "object");
                ("properties" ~>
                 obj [("query" ~>
                       obj [("type" ~> str "string");
                            ("description" ~>
                             str "Search query for agricultural information")]);
                      ("num_results" ~>
                       obj [("type" ~> str "number");
                            ("description" ~>
                             str "Number of results to return (default: 5)");
                            ("default" ~> VInt 5)]);
                      ("include_domains" ~>
                       obj [("type" ~> str "array");
                            ("items" ~> obj [("type" ~> str "string")]);
                            ("description" ~> str "Domains to include in search")]);
                      ("exclude_domains" ~>
                       obj [("type" ~> str "array");
                            ("items" ~> obj [("type" ~> str "string")]);
                            ("description" ~> str "Domains to exclude from search")])]);
                ("required" ~> VArr [str "query"])])]].

(** *** MCP protocol handler *)

Definition rpc_result (id result : value) : value :=
  obj [("jsonrpc" ~> str "2.0"); ("id" ~> id); ("result" ~> result)].

Definition rpc_error (id : value) (error : list (jstring * value)) : value :=
  obj [("jsonrpc" ~> str "2.0"); ("id" ~> id); ("error" ~> obj error)].

Definition text_or_undefined (t : option jstring) : value :=
  match t with Some s => VStr s | None => VUndefined end.

Definition handleMCPRequest (request : value) : M value :=
  try_catch
    (method <- lift (get request (lit "method")) ;;
     if is_string method (lit "initialize") then
       id <- lift (get request (lit "id")) ;;
       mret (rpc_result id
               (obj [("protocolVersion" ~> str "2024-11-05");
                     ("capabilities" ~> obj [("tools" ~> obj [])]);
                     ("serverInfo" ~> obj [("name" ~> str "agricultural-ai-mcp");
                                         ("version" ~> str "1.0.0")])]))
     else if is_string method (lit "tools/list") then
       id <- lift (get request (lit "id")) ;;
       mret (rpc_result id (obj [("tools" ~> mcpTools)]))
     else if is_string method (lit "tools/call") then
       params <- lift (get request (lit "params")) ;;
       _ <- lift (destructurable params) ;;
       name <- lift (get params (lit "name")) ;;
       args <- lift (get params (lit "arguments")) ;;
       match Map_get name toolHandlers with
       | None =>
           id <- lift (get request (lit "id")) ;;
           name_text <- lift (ToString name) ;;
           mret (rpc_error id
                   [("code" ~> VInt (-32601));
                    ("message" ~> VStr (lit "Tool '" ++ name_text ++ lit "' not found"));
                    ("data" ~> obj [("availableTools" ~> Map_keys toolHandlers)])])
       | Some handler =>
           result <- handler args ;;
           result_error <- lift (get result (lit "error")) ;;
           if truthy result_error then
             id <- lift (get request (lit "id")) ;;
             mret (rpc_error id [("code" ~> VInt (-32603)); ("message" ~> result_error)])
           else
             id <- lift (get request (lit "id")) ;;
             data <- lift (get result (lit "data")) ;;
             mret (rpc_result id
                     (obj [("content" ~>
                            VArr [obj [("type" ~> str "text");
                                       ("text" ~>
                                        text_or_undefined (JSON_stringify_2 data))]])]))
       end
     else
       id <- lift (get request (lit "id")) ;;
       method_again <- lift (get request (lit "method")) ;;
       method_text <- lift (ToString method_again) ;;
       mret (rpc_error id
               [("code" ~> VInt (-32601));
                ("message" ~> VStr (lit "Method '" ++ method_text ++ lit "' not found"))]))%io
    (fun error =>
       (id <- lift (get request (lit "id")) ;;
        mret (rpc_error id
                [("code" ~> VInt (-32603));
                 ("message" ~> VStr (lit "Internal error: " ++ String_error error))]))%io).

(** *** The HTTP listener *)

Record http_request := HttpRequest {
  req_method : jstring;
  req_url : jstring;
  req_body : jstring
}.

Record http_response := HttpResponse {
  status : Z;
  headers : list (jstring * jstring);
  body : jstring
}.

Definition cors : list (jstring * jstring) :=
  [(lit "Access-Control-Allow-Origin", lit "*");
   (lit "Access-Control-Allow-Methods", lit "GET, POST, OPTIONS");
   (lit "Access-Control-Allow-Headers", lit "Content-Type")].

(** [res.writeHead(code, { 'Content-Type': 'application/json' })] and
    [res.end(JSON.stringify(v))]. *)
Definition json_response (code : Z) (v : value) : http_response :=
  HttpResponse code (cors ++ [(lit "Content-Type", lit "application/json")])
               (end_body (JSON_stringify v)).

(** The end of a request callback: what it answered, or what its [catch]
    answers. *)
Definition settle {A} (c : M A) (handler : js_error -> A) : io A :=
  io_bind c (fun r => match r with inl e => Ret (handler e) | inr a => Ret a end).

Definition mcp_endpoint (body : jstring) : io http_response :=
  settle
    (mcpRequest <- lift (JSON_parse body) ;;
     mcpResponse <- handleMCPRequest mcpRequest ;;
     mret (json_response 200 mcpResponse))%io
    (fun error =>
       json_response 400
         (rpc_error (VInt 0)
            [("code" ~> VInt (-32700));
             ("message" ~> VStr (lit "Parse error: " ++ String_error error))])).

(** [body || '{}']. *)
Definition body_or_empty_object (body : jstring) : jstring :=
  match body with [] => lit "{}" | _ => body end.

Definition tool_endpoint (toolName : value) (body : jstring) : io http_response :=
  settle
    (params <- lift (JSON_parse (body_or_empty_object body)) ;;
     match Map_get toolName toolHandlers with
     | None =>
         name_text <- lift (ToString toolName) ;;
         mret (json_response 404
                 (obj [("error" ~> VStr (lit "Tool '" ++ name_text ++ lit "' not found"));
                       ("available_tools" ~> Map_keys toolHandlers)]))
     | Some handler =>
         result <- handler params ;;
         mret (json_response 200 result)
     end)%io
    (fun error =>
       json_response 400
         (obj [("error" ~> VStr (lit "Invalid request: " ++ String_error error))])).

(** [req.url.split('/tools/')[1]]. *)
Definition toolName_of (url : jstring) : value :=
  match nth_error (split (lit "/tools/") url) 1 with
  | Some name => VStr name
  | None => VUndefined
  end.

Definition PORT_value : value := or_else (env_value (PORT env)) (VInt 10000).

Definition health_document : value :=
  obj [("status" ~> str "healthy");
       ("server" ~> str "agricultural-ai-mcp");
       ("protocols" ~> VArr [str "http"; str "mcp"]);
       ("tools" ~> VArr [str "crop-price"; str "search"]);
       ("timestamp" ~> VStr now);
       ("environment" ~>
        obj [("datagovin_key_set" ~> VBool (truthy (env_value (DATAGOVIN_API_KEY env))));
             ("exa_key_set" ~> VBool (truthy (env_value (EXA_API_KEY env))));
             ("port" ~> PORT_value)]);
       ("mcp" ~>
        obj [("endpoint" ~> str "/mcp");
             ("protocol_version" ~> str "2024-11-05");
             ("capabilities" ~> VArr [str "tools"])])].

Definition root_document : value :=
  obj [("name" ~> str "Agricultural AI MCP Server");
       ("version" ~> str "1.0.0");
       ("description" ~>
        str "Hybrid server: HTTP API + MCP Protocol for Docker MCP Gateway integration");
       ("protocols" ~>
        obj [("http" ~> str "Direct HTTP API access");
             ("mcp" ~> str "Model Context Protocol via /mcp endpoint")]);
       ("tools" ~>
        VArr
          [obj [("name" ~> str "crop-price");
                ("description" ~> str "Fetch crop price data from data.gov.in");
                ("endpoint" ~> str "/tools/crop-price");
                ("method" ~> str "POST");
                ("parameters" ~>
                 obj [("state" ~>
                       str "string (optional) - State filter (e.g., Punjab, Maharashtra)");
                      ("district" ~>
                       str "string (optional) - District filter (e.g., Ludhiana, Mumbai)");
                      ("commodity" ~>
                       str "string (optional) - Commodity filter (e.g., Wheat, Rice, Cotton)");
                      ("limit" ~>
                       str "number (optional) - Max records to return (default: 50)");
                      ("offset" ~>
                       str "number (optional) - Records to skip (default: 0)")])];
           obj [("name" ~> str "search");
                ("description" ~> str "Search the web for agricultural information");
                ("endpoint" ~> str "/tools/search");
                ("method" ~> str "POST");
                ("parameters" ~>
                 obj [("query" ~> str "string (required) - Search query");
                      ("num_results" ~>
                       str "number (optional) - Number of results (default: 5)");
                      ("include_domains" ~> str "array (optional) - Domains to include");
                      ("exclude_domains" ~>
                       str "array (optional) - Domains to exclude")])]]);
       ("usage" ~>
        obj [("http" ~>
              str "POST to /tools/{tool-name} with JSON body containing tool parameters");
             ("mcp" ~> str "POST to /mcp with MCP protocol JSON-RPC requests")]);
       ("examples" ~>
        obj [("crop-price" ~>
              obj [("url" ~> str "/tools/crop-price");
                   ("method" ~> str "POST");
                   ("body" ~> obj [("state" ~> str "Punjab");
                                 ("commodity" ~> str "Wheat");
                                 ("limit" ~> VInt 10)])]);
             ("search" ~>
              obj [("url" ~> str "/tools/search");
                   ("method" ~> str "POST");
                   ("body" ~> obj [("query" ~> str "Indian agriculture news 2024");
                                 ("num_results" ~> VInt 5)])])])].

Definition httpServer (req : http_request) : io http_response :=
  if jstring_eqb (req_method req) (lit "OPTIONS") then
    Ret (HttpResponse 200 cors [])
  else if jstring_eqb (req_url req) (lit "/mcp")
          && jstring_eqb (req_method req) (lit "POST") then
    mcp_endpoint (req_body req)
  else if jstring_eqb (req_url req) (lit "/health") then
    Ret (json_response 200 health_document)
  else if jstring_eqb (req_url req) (lit "/") then
    Ret (json_response 200 root_document)
  else if startsWith (req_url req) (lit "/tools/")
          && jstring_eqb (req_method req) (lit "POST") then
    tool_endpoint (toolName_of (req_url req)) (req_body req)
  else
    Ret (json_response 404 (obj [("error" ~> str "Not found")])).

End Server.

(** ** The specification's view of a tool call

    The specification speaks of a two-variant Tool Result and of the envelope
    each front-end puts around it.  These definitions follow its words; the
    theorems below compare them with the server. *)

Inductive tool_result : Type :=
| ToolSuccess (data : value)
| ToolFailure (message : jstring).

(** Success serialises as [{success: true, data}], Failure as [{error}]. *)
Definition result_object (r : tool_result) : value :=
  match r with
  | ToolSuccess data => Success data
  | ToolFailure message => Failure message
  end.

(** REST: the result object is the response body, with status 200. *)
Definition rest_envelope (r : tool_result) : http_response :=
  json_response 200 (result_object r).

(** RPC: a failure is error [-32603] with its message; a success is a single
    text block holding the pretty-printed data. *)
Definition rpc_envelope (id : value) (r : tool_result) : value :=
  match r with
  | ToolFailure message =>
      rpc_error id [("code" ~> VInt (-32603)); ("message" ~> VStr message)]
  | ToolSuccess data =>
      rpc_result id
        (obj [("content" ~>
               VArr [obj [("type" ~> str "text");
                          ("text" ~> text_or_undefined (JSON_stringify_2 data))]])])
  end.

(** A property read that cannot throw, for values known not to be [null] or
    [undefined]. *)
Definition field (v : value) (k : string) : value :=
  match get v (lit k) with
  | inr x => x
  | inl _ => VUndefined
  end.

(** A sample engine text for caught errors, used to run the server on
    concrete requests. *)
Definition sample_String_error (e : js_error) : jstring :=
  match e with
  | SyntaxError_JSON _ => lit "SyntaxError: Unexpected token in JSON"
  | TypeError_read _ k => lit "TypeError: Cannot read properties (reading '" ++ k ++ lit "')"
  | TypeError_destructure _ => lit "TypeError: Cannot destructure property"
  | TypeError_not_a_function _ m => lit "TypeError: " ++ m ++ lit " is not a function"
  | TypeError_to_primitive _ => lit "TypeError: Cannot convert object to primitive value"
  | URIError_malformed _ => lit "URIError: URI malformed"
  | FetchError reason => lit "FetchError: " ++ reason
  end.

Definition sample_env : environment :=
  Environment (Some (lit "price-key")) None (Some (lit "exa-key")) None.

Definition no_keys : environment := Environment None None None None.

(** The failure each handler returns when its key is not configured. *)
Definition price_configuration_error : jstring :=
  lit "Configuration error: DATAGOVIN_API_KEY not set in environment.".

Definition search_configuration_error : jstring :=
  lit "Configuration error: EXA_API_KEY not set in environment.".

(** What a handler returns after its outbound call, by the reply: its
    [respond] phase, with every throw turned into a server-error failure. *)
Definition outcome (String_error : js_error -> jstring)
           (respond : Z -> jstring -> exc value) (r : reply) : value :=
  match r with
  | Rejected e => server_error String_error e
  | Response status text =>
      match respond status text with
      | inl e => server_error String_error e
      | inr v => v
      end
  end.

Definition price_request (url : jstring) : outbound :=
  Outbound url (lit "GET") [] None.

Definition search_request (API_KEY : jstring) (i : search_inputs) : outbound :=
  Outbound (lit "https://api.exa.ai/search") (lit "POST")
           [(lit "Content-Type", lit "application/json"); (lit "x-api-key", API_KEY)]
           (JSON_stringify (search_requestBody i)).

(** [q] is the query the crop-price handler builds from [params], and the
    URL of the call [rq] is the resource endpoint followed by its
    serialisation. *)
Definition outbound_query (env : environment) (params : value) (rq : outbound)
           (q : URLSearchParams) : Prop :=
  exists API_KEY i resource,
    DATAGOVIN_API_KEY env = Some API_KEY
    /\ cropPrice_inputs params = inr i
    /\ encodeURIComponent (RESOURCE_ID env) = inr resource
    /\ cropPrice_urlParams API_KEY i = inr q
    /\ out_url rq = (lit "https://api.data.gov.in/resource/" ++ resource)
                      ++ lit "?" ++ URLSearchParams_toString q.

(** A failure always carries a message. *)
Definition well_formed (r : tool_result) : Prop :=
  match r with
  | ToolSuccess _ => True
  | ToolFailure message => message <> []
  end.

(** The values that are the object of a well-formed tool result. *)
Definition shaped (v : value) : Prop :=
  exists r, v = result_object r /\ well_formed r.

(** The registered names, in registration order. *)
Definition registered_names : value := VArr [str "crop-price"; str "search"].

(** The marker the listener splits the path at. *)
Definition tools_marker : jstring := lit "/tools/".

Definition POST (url body : jstring) : http_request :=
  HttpRequest (lit "POST") url body.

(** The first outbound call of a run, and how the run goes on after it. *)
Definition first_call {A} (c : io A) : option outbound :=
  match c with
  | Fetch rq _ => Some rq
  | Ret _ => None
  end.

Definition continuation {A} (c : io A) : reply -> io A :=
  match c with
  | Fetch _ k => k
  | Ret a => fun _ => Ret a
  end.

(** ** Sample requests

    JSON texts are written with ['] standing for the double quote. *)

Definition jsontext (s : string) : jstring :=
  map (fun c => if (c =? 39)%N then 34%N else c) (lit s).

Definition sample_now : jstring := lit "2024-01-01T00:00:00.000Z".

Definition sample_args : value :=
  VObj [("state" ~> str "Punjab"); ("commodity" ~> str "Wheat"); ("limit" ~> VInt 5)].

Definition sample_body : jstring :=
  jsontext "{'state':'Punjab','commodity':'Wheat','limit':5}".

Definition sample_call : value :=
  VObj [("jsonrpc" ~> str "2.0"); ("id" ~> VInt 7); ("method" ~> str "tools/call");
        ("params" ~> VObj [("name" ~> str "crop-price"); ("arguments" ~> sample_args)])].

Definition sample_envelope : jstring :=
  jsontext "{'jsonrpc':'2.0','id':7,'method':'tools/call','params':{'name':'crop-price','arguments':{'state':'Punjab','commodity':'Wheat','limit':5}}}".

Definition sample_price_text : jstring :=
  jsontext "{'records':[{'State':'Punjab','Commodity':'Wheat','Price':'2100'}],'total':1}".

Definition sample_upstream (rq : outbound) : reply := Response 200 sample_price_text.

Definition sample_price_url : jstring :=
  lit "https://api.data.gov.in/resource/35985678-0d79-46b4-9ed6-6f13308a1d24?api-key=price-key&format=json&limit=5&offset=0&filters%5BState%5D=Punjab&filters%5BCommodity%5D=Wheat".

Definition sample_price_json : value :=
  VObj [("records" ~>
         VArr [VObj [("State" ~> str "Punjab"); ("Commodity" ~> str "Wheat");
                     ("Price" ~> str "2100")]]);
        ("total" ~> VInt 1)].

Definition sample_price_run : M value :=
  cropPriceHandler sample_String_error sample_env sample_args.

(** A request whose [state] is present and empty. *)
Definition empty_state_args : value := VObj [("state" ~> VStr [])].

Definition empty_state_url : jstring :=
  lit "https://api.data.gov.in/resource/35985678-0d79-46b4-9ed6-6f13308a1d24?api-key=price-key&format=json&limit=50&offset=0".

(** An upstream body with records and a total of zero, and one whose
    records are [null]. *)
Definition zero_total_text : jstring := jsontext "{'records':[{'a':1}],'total':0}".

Definition zero_total_json : value :=
  VObj [("records" ~> VArr [VObj [("a" ~> VInt 1)]]); ("total" ~> VInt 0)].

Definition null_records_text : jstring := jsontext "{'records':null}".

Definition null_records_json : value := VObj [("records" ~> VNull)].

(** A [tools/call] envelope without [params], and one for an unknown tool. *)
Definition bare_call : value :=
  VObj [("jsonrpc" ~> str "2.0"); ("id" ~> VInt 7); ("method" ~> str "tools/call")].

Definition bare_call_text : jstring :=
  jsontext "{'jsonrpc':'2.0','id':7,'method':'tools/call'}".

Definition unknown_call : value :=
  VObj [("jsonrpc" ~> str "2.0"); ("id" ~> VInt 7); ("method" ~> str "tools/call");
        ("params" ~> VObj [("name" ~> str "nope")])].

Definition unknown_call_text : jstring :=
  jsontext "{'jsonrpc':'2.0','id':7,'method':'tools/call','params':{'name':'nope'}}".

(** An upstream result entry with a text of 501 characters, and one with
    no text. *)
Definition long_entry : value := VObj [("text" ~> VStr (repeat 120%N 501))].

Definition untitled_entry : value := VObj [("title" ~> str "T"); ("url" ~> str "u")].

(** ** More statement-level definitions *)

(** The prefixes of the failure messages of the two handlers. *)
Definition has_prefix (prefix : string) (message : jstring) : Prop :=
  startsWith message (lit prefix) = true.

(** An upstream entry's [text] the search callback can render: a string, or
    nothing. *)
Definition usable_text (t : value) : bool :=
  match t with
  | VUndefined | VNull | VStr _ => true
  | _ => false
  end.

(** The optional parameters of the search tool. *)
Definition search_optional : list string :=
  ["include_domains"; "exclude_domains"; "start_crawl_date"; "end_crawl_date"]%string.

Definition exa_key_of (env : environment) : jstring :=
  match EXA_API_KEY env with Some k => k | None => [] end.

(** A search request, and an upstream answer with two entries. *)
Definition sample_search_args : value :=
  VObj [("query" ~> str "wheat prices"); ("include_domains" ~> VArr [str "agmarknet.gov.in"])].

Definition sample_search_run : M value :=
  searchHandler sample_String_error sample_env sample_search_args.

Definition sample_search_request : outbound :=
  search_request (lit "exa-key")
    (SearchInputs (str "wheat prices") (VInt 5) (VArr [str "agmarknet.gov.in"])
                  VUndefined VUndefined VUndefined).

Definition sample_search_text : jstring :=
  jsontext "{'results':[{'title':'T','url':'u','text':'hello','score':1},{'title':'U'}]}".

Definition sample_search_json : value :=
  VObj [("results" ~>
         VArr [VObj [("title" ~> str "T"); ("url" ~> str "u"); ("text" ~> str "hello");
                     ("score" ~> VInt 1)];
               VObj [("title" ~> str "U")]])].

Definition sample_search_upstream (rq : outbound) : reply :=
  Response 200 sample_search_text.

(** An environment whose keys are set to the empty string. *)
Definition empty_keys : environment := Environment (Some []) None (Some []) None.

(** A response envelope for the request id [id]: a result or an error,
    never both. *)
Definition envelope_for (id response : value) : Prop :=
  (exists payload, response = rpc_result id payload)
  \/ (exists error, response = rpc_error id error).

(** The three methods of the protocol. *)
Definition known_method (m : value) : bool :=
  is_string m (lit "initialize") || is_string m (lit "tools/list")
  || is_string m (lit "tools/call").

(** An endpoint whose every answer is a JSON response. *)
Definition json_answer (c : M http_response) : Prop :=
  forall net a, fst (run net c) = inr a -> exists code v, a = json_response code v.

(** Whether a key is configured, as [/health] reports it. *)
Definition configured (key : option jstring) : bool := truthy (env_value key).


(** How often a character occurs in a text. *)
Definition occurrences (c : ascii) (s : jstring) : nat :=
  count_occ N.eq_dec s (N_of_ascii c).

(** The characters that structure a URL are [#], [&], [=] and [?]; a
    code unit is safe in a query when it is none of them. *)
Definition query_safe (c : N) : Prop :=
  c <> 35%N /\ c <> 38%N /\ c <> 61%N /\ c <> 63%N.

(** ** More sample data *)

(** What the crop-price handler makes of [sample_price_text], and the
    search handler of [sample_search_text]. *)
Definition sample_price_data : value :=
  VObj [("records" ~>
         VArr [VObj [("State" ~> str "Punjab"); ("Commodity" ~> str "Wheat");
                     ("Price" ~> str "2100")]]);
        ("total" ~> VInt 1); ("limit" ~> VInt 5); ("offset" ~> VInt 0);
        ("query" ~> VObj [("state" ~> str "Punjab"); ("district" ~> VUndefined);
                          ("commodity" ~> str "Wheat")])].

Definition sample_search_data : value :=
  VObj [("results" ~>
         VArr [VObj [("title" ~> str "T"); ("url" ~> str "u"); ("text" ~> str "hello");
                     ("score" ~> VInt 1); ("published_date" ~> VUndefined)];
               VObj [("title" ~> str "U"); ("url" ~> VUndefined);
                     ("text" ~> str "undefined"); ("score" ~> VUndefined);
                     ("published_date" ~> VUndefined)]]);
        ("total_results" ~> VInt 2);
        ("query" ~> str "wheat prices")].

(** An upstream that is busy, and one whose calls are rejected. *)
Definition busy_upstream (rq : outbound) : reply := Response 503 (lit "busy").

Definition unreachable : js_error := FetchError (lit "fetch failed").

(** Upstream results with a [null] entry. *)
Definition null_entry_text : jstring := jsontext "{'results':[{'title':'T'},null]}".

Definition null_entry_json : value :=
  VObj [("results" ~> VArr [VObj [("title" ~> str "T")]; VNull])].

(** Requests to the dispatcher: an unknown method, the list of tools, and a
    call of the search tool without arguments. *)
Definition ping_request : value :=
  VObj [("jsonrpc" ~> str "2.0"); ("id" ~> VInt 3); ("method" ~> str "ping")].

Definition list_request : value :=
  VObj [("jsonrpc" ~> str "2.0"); ("id" ~> VInt 1); ("method" ~> str "tools/list")].

Definition argless_params : value := VObj [("name" ~> str "search")].

Definition argless_call : value :=
  VObj [("jsonrpc" ~> str "2.0"); ("id" ~> VInt 7); ("method" ~> str "tools/call");
        ("params" ~> argless_params)].

(** A [GET] of a tool's path. *)
Definition get_search : http_request := HttpRequest (lit "GET") (lit "/tools/search") [].

(** An upstream entry the search callback renders: not [null] or
    [undefined], with a [text] that is a string or missing. *)
Definition renderable (entry : value) : bool :=
  negb (nullish entry) && usable_text (field entry "text").

(** Upstream results with a text of 501 characters and an entry without a
    text. *)
Definition long_search_text : jstring :=
  jsontext "{'results':[{'text':'" ++ repeat 120%N 501
    ++ jsontext "'},{'title':'T','url':'u'}]}".

Definition long_search_json : value :=
  VObj [("results" ~> VArr [long_entry; untitled_entry])].

(** An environment with other keys than [sample_env]. *)
Definition other_keys : environment :=
  Environment (Some (lit "another-price-key")) None (Some (lit "another-exa-key")) None.

(** * Properties *)

Unset Implicit Arguments.

(** ** Strings and lists *)

Lemma jstring_eqb_refl (a : jstring) : jstring_eqb a a = true.
Proof.
  induction a as [|x a IH]; simpl; [reflexivity|].
  now rewrite N.eqb_refl, IH.
Qed.

Lemma jstring_eqb_eq (a b : jstring) : jstring_eqb a b = true <-> a = b.
Proof.
  split.
  - revert b; induction a as [|x a IH]; intros [|y b] H; simpl in H;
      try discriminate; [reflexivity|].
    apply andb_true_iff in H as [Hx Hab].
    apply N.eqb_eq in Hx. apply IH in Hab. now subst.
  - intros ->. apply jstring_eqb_refl.
Qed.

Lemma strip_prefix_app (p s : jstring) : strip_prefix p (p ++ s) = Some s.
Proof.
  induction p as [|x p IH]; simpl; [reflexivity|].
  now rewrite N.eqb_refl.
Qed.

(** ** Runs *)

Lemma run_bind {A B} (net : outbound -> reply) (c : io A) (f : A -> io B) :
  run net (io_bind c f)
  = (fst (run net (f (fst (run net c)))),
     snd (run net c) ++ snd (run net (f (fst (run net c))))).
Proof.
  induction c as [a|rq k IH]; simpl.
  - now destruct (run net (f a)).
  - rewrite IH. destruct (run net (k (net rq))) as [a calls]. reflexivity.
Qed.

(** ** The parser *)

Lemma parse_word_defined (w : string) (v0 : value) (s : jstring) (v : value)
      (r : jstring) :
  v0 <> VUndefined -> parse_word w v0 s = Some (v, r) -> v <> VUndefined.
Proof.
  unfold parse_word. destruct (strip_prefix _ _); [|discriminate].
  intros H [= <- _]. exact H.
Qed.

Lemma parse_value_defined (fuel : nat) (s : jstring) (v : value) (r : jstring) :
  parse_value fuel s = Some (v, r) -> v <> VUndefined.
Proof.
  destruct fuel as [|fuel]; [discriminate|]. cbn [parse_value].
  destruct (skip_ws s) as [|c t]; [discriminate|].
  repeat match goal with
         | |- context [if ?b then _ else _] => destruct b
         | |- context [match skip_ws ?x with _ => _ end] => destruct (skip_ws x)
         | |- context [match parse_members ?f ?x with _ => _ end] =>
             destruct (parse_members f x) as [[? ?]|]
         | |- context [match parse_elements ?f ?x with _ => _ end] =>
             destruct (parse_elements f x) as [[? ?]|]
         | |- context [match parse_chars ?x with _ => _ end] =>
             destruct (parse_chars x) as [[? ?]|]
         | |- context [match parse_number ?x with _ => _ end] =>
             destruct (parse_number x) as [[? ?]|]
         end;
    try discriminate;
    try (intros [= <- _]; discriminate);
    apply parse_word_defined; discriminate.
Qed.

(** [JSON.parse] never returns [undefined]. *)
Lemma JSON_parse_defined (text : jstring) (v : value) :
  JSON_parse text = inr v -> v <> VUndefined.
Proof.
  unfold JSON_parse.
  destruct (parse_value _ text) as [[w r]|] eqn:E; [|discriminate].
  destruct (skip_ws r); [|discriminate].
  intros [= <-]. exact (parse_value_defined _ _ _ _ E).
Qed.

Lemma JSON_parse_not_null (text : jstring) (v : value) :
  JSON_parse text = inr v -> v <> VNull -> nullish v = false.
Proof.
  intros P N. pose proof (JSON_parse_defined _ _ P) as D.
  destruct v; try reflexivity; contradiction.
Qed.

(** ** The search result callback *)

Lemma Z_of_nat_gt_500 (n : nat) :
  greater_than (VNum (of_nat n)) 500 = (500 <? n)%nat.
Proof.
  unfold greater_than, of_nat, of_Z. cbn [Z.leb Z.compare].
  rewrite Z.pow_0_r, Z.mul_1_r.
  destruct (Nat.ltb_spec 500 n) as [H|H].
  - apply Z.ltb_lt. lia.
  - apply Z.ltb_ge. lia.
Qed.

Lemma mapResult_object (props : list (jstring * value)) :
  mapResult (VObj props)
  = (head <- optional_substring (own (lit "text") props) ;;
     len <- optional_length (own (lit "text") props) ;;
     shown <- plus_string head (if greater_than len 500 then lit "..." else lit "") ;;
     inr (VObj [(lit "title", own (lit "title") props);
                (lit "url", own (lit "url") props);
                (lit "text", shown);
                (lit "score", own (lit "score") props);
                (lit "published_date", own (lit "published_date") props)]))%exc.
Proof.
  unfold mapResult, get, ebind.
  destruct (optional_substring _); [reflexivity|].
  destruct (optional_length _); [reflexivity|].
  destruct (plus_string _ _); reflexivity.
Qed.

Lemma text_of_mapped (a b c d e : value) :
  get (VObj [(lit "title", a); (lit "url", b); (lit "text", c);
             (lit "score", d); (lit "published_date", e)]) (lit "text") = inr c.
Proof. reflexivity. Qed.

Lemma text_is_own (result : value) (s : jstring) :
  get result (lit "text") = inr (VStr s) ->
  exists props, result = VObj props /\ own (lit "text") props = VStr s.
Proof.
  destruct result as [| |b|n|t|items|props]; cbn; intros H; try discriminate.
  exists props. split; [reflexivity|]. now injection H.
Qed.

(** The callback on an entry whose [text] is a string: the first 500 code
    units, then the marker when the text is longer. *)
Lemma mapResult_on_text (result : value) (s : jstring) :
  get result (lit "text") = inr (VStr s) ->
  exists mapped shown,
    mapResult result = inr mapped
    /\ get mapped (lit "text") = inr (VStr shown)
    /\ shown = substring 0 500 s ++ (if (500 <? List.length s)%nat then lit "..." else [])
    /\ (List.length s <= 500 -> shown = s)
    /\ (500 < List.length s -> shown = firstn 500 s ++ lit "..."
                               /\ List.length shown = 503).
Proof.
  intros H. destruct (text_is_own _ _ H) as (props & -> & Htext).
  rewrite mapResult_object, Htext.
  cbn [optional_substring optional_length nullish ebind get].
  change (jstring_eqb (lit "length") (lit "length")) with true. cbn iota.
  cbn [ebind].
  rewrite Z_of_nat_gt_500.
  unfold plus_string. cbn [ToString ebind].
  eexists _, _. split; [reflexivity|]. split; [apply text_of_mapped|].
  split; [destruct (500 <? _)%nat; reflexivity|].
  change (substring 0 500 s) with (firstn 500 s). split.
  - intros Hle. destruct (Nat.ltb_spec 500 (List.length s)); [lia|].
    change (lit "") with (@nil N). rewrite app_nil_r. now apply firstn_all2.
  - intros Hlt. destruct (Nat.ltb_spec 500 (List.length s)); [|lia].
    split; [reflexivity|].
    rewrite length_app, length_firstn. cbn [List.length lit map list_ascii_of_string].
    lia.
Qed.

Lemma mapResult_without_text (result : value) :
  get result (lit "text") = inr VUndefined ->
  mapResult result
  = inr (VObj [(lit "title", field result "title");
               (lit "url", field result "url");
               (lit "text", VStr (lit "undefined"));
               (lit "score", field result "score");
               (lit "published_date", field result "published_date")]).
Proof.
  intros H. unfold mapResult, field.
  destruct result as [| |b|n|t|items|props]; try discriminate H;
    try reflexivity.
  unfold get in H. injection H as H.
  cbn [get ebind]. rewrite H. reflexivity.
Qed.

(** The callback on an entry without a [text]. *)
Lemma mapResult_on_absent_text (result : value) :
  get result (lit "text") = inr VUndefined ->
  exists mapped,
    mapResult result = inr mapped
    /\ get mapped (lit "text") = inr (VStr (lit "undefined"))
    /\ List.length (lit "undefined") = 9
    /\ get mapped (lit "text") <> inr VUndefined
    /\ get mapped (lit "text") <> inr VNull
    /\ get mapped (lit "text") <> inr (VStr []).
Proof.
  intros H. rewrite (mapResult_without_text _ H).
  eexists. split; [reflexivity|].
  rewrite text_of_mapped.
  repeat split; try reflexivity; discriminate.
Qed.

(** ** Handlers *)

Section Handlers.

Variable String_error : js_error -> jstring.
Variable env : environment.

Local Notation price := (cropPriceHandler String_error env).
Local Notation search := (searchHandler String_error env).

(** C5. With the price key absent the crop-price handler, and with the
    search key absent the search handler, returns its configuration-error
    failure at once: the run is a plain return, and against every upstream
    it issues no outbound call. *)
Theorem missing_key_fails_before_any_fetch (params : value) :
  (DATAGOVIN_API_KEY env = None ->
   price params = Ret (inr (Failure price_configuration_error))
   /\ startsWith price_configuration_error (lit "Configuration error:") = true
   /\ forall net, snd (run net (price params)) = [])
  /\
  (EXA_API_KEY env = None ->
   search params = Ret (inr (Failure search_configuration_error))
   /\ startsWith search_configuration_error (lit "Configuration error:") = true
   /\ forall net, snd (run net (search params)) = []).
Proof.
  unfold cropPriceHandler, searchHandler.
  split; intros ->; cbn [try_catch mret io_bind];
    (split; [reflexivity|]); (split; [reflexivity|]); intros net; reflexivity.
Qed.

(** *** Normal forms of the two handlers *)

Lemma cropPriceHandler_cases (params : value) :
  match DATAGOVIN_API_KEY env with
  | None | Some [] => price params = Ret (inr (Failure price_configuration_error))
  | Some API_KEY =>
      match cropPrice_inputs params with
      | inl e => price params = Ret (inr (server_error String_error e))
      | inr i =>
          match cropPrice_url env API_KEY i with
          | inl e => price params = Ret (inr (server_error String_error e))
          | inr url =>
              exists k,
                price params = Fetch (price_request url) k
                /\ forall r, k r = Ret (inr (outcome String_error (cropPrice_response i) r))
          end
      end
  end.
Proof.
  unfold cropPriceHandler.
  destruct (DATAGOVIN_API_KEY env) as [[|c key]|]; try reflexivity.
  cbn [try_catch mbind lift io_bind].
  destruct (cropPrice_inputs params) as [e|i]; [reflexivity|].
  destruct (cropPrice_url env (c :: key) i) as [e|url]; [reflexivity|].
  cbn [fetch io_bind]. eexists. split; [reflexivity|].
  intros [status text|e]; cbn [io_bind outcome]; [|reflexivity].
  destruct (cropPrice_response i status text); reflexivity.
Qed.

Lemma searchHandler_cases (params : value) :
  match EXA_API_KEY env with
  | None | Some [] => search params = Ret (inr (Failure search_configuration_error))
  | Some API_KEY =>
      match search_read params with
      | inl e => search params = Ret (inr (server_error String_error e))
      | inr i =>
          exists k,
            search params = Fetch (search_request API_KEY i) k
            /\ forall r, k r = Ret (inr (outcome String_error (search_response i) r))
      end
  end.
Proof.
  unfold searchHandler.
  destruct (EXA_API_KEY env) as [[|c key]|]; try reflexivity.
  cbn [try_catch mbind lift io_bind].
  destruct (search_read params) as [e|i]; [reflexivity|].
  cbn [fetch io_bind]. eexists. split; [reflexivity|].
  intros [status text|e]; cbn [io_bind outcome]; [|reflexivity].
  destruct (search_response i status text); reflexivity.
Qed.

End Handlers.

(** ** The crop-price handler's inputs, query and response *)

Lemma cropPrice_inputs_ok (params : value) :
  nullish params = false ->
  cropPrice_inputs params
  = inr (PriceInputs (field params "state") (field params "district")
                     (field params "commodity")
                     (coalesce (field params "limit") (VInt 50))
                     (coalesce (field params "offset") (VInt 0))).
Proof.
  destruct params; intros H; try discriminate H; reflexivity.
Qed.

Lemma cropPrice_inputs_inv (params : value) (i : price_inputs) :
  cropPrice_inputs params = inr i ->
  nullish params = false
  /\ i = PriceInputs (field params "state") (field params "district")
                     (field params "commodity")
                     (coalesce (field params "limit") (VInt 50))
                     (coalesce (field params "offset") (VInt 0)).
Proof.
  intros H. destruct (nullish params) eqn:N.
  - destruct params; discriminate.
  - rewrite (cropPrice_inputs_ok _ N) in H. split; [reflexivity|]. now injection H.
Qed.

(** The entry a filter contributes to the query. *)
Lemma append_if_inv (name : jstring) (v : value) (q q' : URLSearchParams) :
  append_if name v q = inr q' ->
  (truthy v = false /\ q' = q)
  \/ (truthy v = true /\ exists t, ToString v = inr t /\ q' = q ++ [(name, t)]).
Proof.
  unfold append_if. destruct (truthy v).
  - destruct (ToString v) as [e|t]; cbn; [discriminate|].
    intros [= <-]. right. split; [reflexivity|]. now exists t.
  - intros [= <-]. now left.
Qed.

Lemma cropPrice_urlParams_inv (API_KEY : jstring) (i : price_inputs) (q : URLSearchParams) :
  cropPrice_urlParams API_KEY i = inr q ->
  exists limit_text offset_text q1 q2,
    ToString (limit i) = inr limit_text
    /\ ToString (offset i) = inr offset_text
    /\ append_if (lit "filters[State]") (state i)
                 [(lit "api-key", API_KEY); (lit "format", lit "json");
                  (lit "limit", limit_text); (lit "offset", offset_text)] = inr q1
    /\ append_if (lit "filters[District]") (district i) q1 = inr q2
    /\ append_if (lit "filters[Commodity]") (commodity i) q2 = inr q.
Proof.
  unfold cropPrice_urlParams.
  destruct (ToString (limit i)) as [e|lt] eqn:EL; [discriminate|].
  destruct (ToString (offset i)) as [e|ot] eqn:EO; [discriminate|].
  cbn [ebind].
  change (set (lit "offset") ot
            (set (lit "limit") lt
               (set (lit "format") (lit "json") (set (lit "api-key") API_KEY []))))
    with [(lit "api-key", API_KEY); (lit "format", lit "json");
          (lit "limit", lt); (lit "offset", ot)].
  destruct (append_if (lit "filters[State]") _ _) as [e|q1] eqn:E1; [discriminate|].
  cbn [ebind].
  destruct (append_if (lit "filters[District]") _ _) as [e|q2] eqn:E2; [discriminate|].
  cbn [ebind].
  destruct (append_if (lit "filters[Commodity]") _ _) as [e|q3] eqn:E3; [discriminate|].
  cbn [ebind]. intros [= <-].
  exists lt, ot, q1, q2. repeat split; assumption.
Qed.

Lemma has_append_if (name n : jstring) (v : value) (q q' : URLSearchParams) :
  append_if n v q = inr q' ->
  has name q' = has name q || (truthy v && jstring_eqb name n).
Proof.
  intros H. destruct (append_if_inv _ _ _ _ H) as [[-> ->]|[-> (t & _ & ->)]].
  - now rewrite orb_false_r.
  - unfold has. rewrite existsb_app. cbn. now rewrite orb_false_r.
Qed.

Lemma lookup_app_found {A} (name : jstring) (q r : list (jstring * A)) (x : A) :
  lookup name q = Some x -> lookup name (q ++ r) = Some x.
Proof.
  induction q as [|[k y] q IH]; cbn; [discriminate|].
  destruct (jstring_eqb name k); auto.
Qed.

Lemma get_param_append_if (name n : jstring) (v : value) (q q' : URLSearchParams)
      (t : jstring) :
  append_if n v q = inr q' ->
  get_param name q = Some t -> get_param name q' = Some t.
Proof.
  intros H G. destruct (append_if_inv _ _ _ _ H) as [[_ ->]|[_ (s & _ & ->)]];
    [assumption|]. now apply lookup_app_found.
Qed.

Section PriceHandler.

Variable String_error : js_error -> jstring.
Variable env : environment.

Local Notation price := (cropPriceHandler String_error env).

(** When the handler issues its call, the inputs were read, the URL was
    built from them, and the continuation is the response phase. *)
Lemma price_fetch_inv (params : value) (rq : outbound) (k : reply -> M value) :
  price params = Fetch rq k ->
  exists API_KEY i resource q,
    DATAGOVIN_API_KEY env = Some API_KEY
    /\ cropPrice_inputs params = inr i
    /\ encodeURIComponent (RESOURCE_ID env) = inr resource
    /\ cropPrice_urlParams API_KEY i = inr q
    /\ rq = price_request ((lit "https://api.data.gov.in/resource/" ++ resource)
                             ++ lit "?" ++ URLSearchParams_toString q)
    /\ forall r, k r = Ret (inr (outcome String_error (cropPrice_response i) r)).
Proof.
  intros H. pose proof (cropPriceHandler_cases String_error env params) as C.
  destruct (DATAGOVIN_API_KEY env) as [[|c key]|];
    try (rewrite C in H; discriminate H).
  destruct (cropPrice_inputs params) as [e|i] eqn:I;
    [rewrite C in H; discriminate H|].
  destruct (cropPrice_url env (c :: key) i) as [e|url] eqn:U;
    [rewrite C in H; discriminate H|].
  destruct C as (k0 & E & Hk). rewrite E in H. injection H as <- <-.
  unfold cropPrice_url in U.
  destruct (encodeURIComponent (RESOURCE_ID env)) as [e|resource] eqn:R; [discriminate|].
  cbn [ebind] in U.
  destruct (cropPrice_urlParams (c :: key) i) as [e|q] eqn:Q; [discriminate|].
  cbn [ebind] in U. injection U as <-.
  exists (c :: key), i, resource, q. repeat split; auto.
Qed.

(** The handler does issue its call once the key is set, the inputs are
    read and the URL is built. *)
Lemma cropPriceHandler_fetches (params : value) (c : N) (key : jstring)
      (i : price_inputs) (url : jstring) :
  DATAGOVIN_API_KEY env = Some (c :: key) ->
  cropPrice_inputs params = inr i ->
  cropPrice_url env (c :: key) i = inr url ->
  exists k, price params = Fetch (price_request url) k.
Proof.
  intros K I U. pose proof (cropPriceHandler_cases String_error env params) as C.
  rewrite K, I, U in C. destruct C as (k & E & _). now exists k.
Qed.

(** C2, as the code has it.  The outbound query holds a [filters[State]]
    (respectively [filters[District]], [filters[Commodity]]) entry exactly
    when the corresponding input is truthy: an absent field is left out, and
    so is one present with the empty string, [null], [false] or [0]. *)
Theorem filters_sent_iff_input_truthy
        (params : value) (rq : outbound) (k : reply -> M value) :
  price params = Fetch rq k ->
  exists q,
    outbound_query env params rq q
    /\ has (lit "filters[State]") q = truthy (field params "state")
    /\ has (lit "filters[District]") q = truthy (field params "district")
    /\ has (lit "filters[Commodity]") q = truthy (field params "commodity")
    /\ (field params "state" = VStr [] -> has (lit "filters[State]") q = false)
    /\ (field params "state" = VUndefined -> has (lit "filters[State]") q = false).
Proof.
  intros H.
  destruct (price_fetch_inv _ _ _ H) as (key & i & resource & q & K & I & R & Q & -> & _).
  exists q. split; [now exists key, i, resource|].
  apply cropPrice_inputs_inv in I as [_ ->].
  apply cropPrice_urlParams_inv in Q as (lt & ot & q1 & q2 & _ & _ & A1 & A2 & A3).
  cbn [state district commodity] in A1, A2, A3.
  assert (S : has (lit "filters[State]") q = truthy (field params "state")).
  { rewrite (has_append_if _ _ _ _ _ A3), (has_append_if _ _ _ _ _ A2),
      (has_append_if _ _ _ _ _ A1).
    destruct (truthy (field params "state")), (truthy (field params "district")),
      (truthy (field params "commodity")); reflexivity. }
  split; [exact S|]. split; [|split; [|split]].
  - rewrite (has_append_if _ _ _ _ _ A3), (has_append_if _ _ _ _ _ A2),
      (has_append_if _ _ _ _ _ A1).
    destruct (truthy (field params "state")), (truthy (field params "district")),
      (truthy (field params "commodity")); reflexivity.
  - rewrite (has_append_if _ _ _ _ _ A3), (has_append_if _ _ _ _ _ A2),
      (has_append_if _ _ _ _ _ A1).
    destruct (truthy (field params "state")), (truthy (field params "district")),
      (truthy (field params "commodity")); reflexivity.
  - intros E. rewrite S, E. reflexivity.
  - intros E. rewrite S, E. reflexivity.
Qed.

Lemma price_success_inv (i : price_inputs) (r : reply) (data : value) :
  outcome String_error (cropPrice_response i) r = Success data ->
  field data "limit" = limit i /\ field data "offset" = offset i.
Proof.
  unfold outcome. destruct r as [status text|e]; [|discriminate].
  unfold cropPrice_response.
  destruct (negb (ok status)); [discriminate|].
  destruct (JSON_parse text) as [e|json]; [discriminate|].
  destruct (get json (lit "records")) as [e|records]; [discriminate|].
  cbn [ebind].
  destruct (get json (lit "total")) as [e|total]; [discriminate|].
  cbn [ebind].
  destruct (get _ (lit "length")) as [e|len]; [discriminate|].
  cbn [ebind]. intros [= <-]. split; reflexivity.
Qed.

Lemma get_field (v : value) (k : string) :
  nullish v = false -> get v (lit k) = inr (field v k).
Proof.
  unfold field. destruct v; intros N; try discriminate N; cbn [get];
    try reflexivity; destruct (jstring_eqb _ _); reflexivity.
Qed.

Lemma or_else_not_nullish (a b : value) :
  nullish b = false -> nullish (or_else a b) = false.
Proof.
  unfold or_else. destruct a as [| |[]|n|[|c s]|items|props]; cbn; auto.
  destruct (number_is_zero n); auto.
Qed.

Lemma cropPrice_response_success (i : price_inputs) (status : Z) (text : jstring)
      (json : value) :
  ok status = true ->
  JSON_parse text = inr json ->
  nullish json = false ->
  let records := or_else (field json "records") (VArr []) in
  let total := or_else (field json "total") (field records "length") in
  cropPrice_response i status text
  = inr (Success
           (VObj [(lit "records", records);
                  (lit "total", total);
                  (lit "limit", limit i);
                  (lit "offset", offset i);
                  (lit "query", VObj [(lit "state", state i);
                                      (lit "district", district i);
                                      (lit "commodity", commodity i)])])).
Proof.
  intros Hok Hparse Hjson records total. unfold cropPrice_response.
  rewrite Hok, Hparse. cbn [negb].
  rewrite !(get_field json) by assumption. cbn [ebind].
  rewrite (get_field (or_else (field json "records") (VArr [])) "length")
    by (now apply or_else_not_nullish).
  reflexivity.
Qed.

(** C8. Whenever the handler issues its outbound call, the query holds a
    [limit] and an [offset] entry: the text of the caller's value when the
    caller set one, [50] and [0] when the caller left it unset.  Every upstream
    answer with a success status whose body parses to a JSON value other than
    [null] then makes the handler return a Success that echoes the same two
    values, and no Success carries others. *)
Theorem limit_and_offset_always_sent
        (params : value) (rq : outbound) (k : reply -> M value) :
  price params = Fetch rq k ->
  let the_limit := coalesce (field params "limit") (VInt 50) in
  let the_offset := coalesce (field params "offset") (VInt 0) in
  exists q limit_text offset_text,
    outbound_query env params rq q
    /\ ToString the_limit = inr limit_text
    /\ ToString the_offset = inr offset_text
    /\ get_param (lit "limit") q = Some limit_text
    /\ get_param (lit "offset") q = Some offset_text
    /\ (nullish (field params "limit") = false -> the_limit = field params "limit")
    /\ (nullish (field params "offset") = false -> the_offset = field params "offset")
    /\ (nullish (field params "limit") = true -> limit_text = lit "50")
    /\ (nullish (field params "offset") = true -> offset_text = lit "0")
    /\ (forall status text json,
          ok status = true ->
          JSON_parse text = inr json ->
          json <> VNull ->
          exists data,
            k (Response status text) = Ret (inr (Success data))
            /\ field data "limit" = the_limit
            /\ field data "offset" = the_offset)
    /\ forall r data,
        k r = Ret (inr (Success data)) ->
        field data "limit" = the_limit /\ field data "offset" = the_offset.
Proof.
  intros H the_limit the_offset.
  destruct (price_fetch_inv _ _ _ H)
    as (key & i & resource & q & Key & I & R & Q & -> & K).
  assert (OQ : outbound_query env params
                 (price_request ((lit "https://api.data.gov.in/resource/" ++ resource)
                                   ++ lit "?" ++ URLSearchParams_toString q)) q)
    by (now exists key, i, resource).
  apply cropPrice_inputs_inv in I as [_ ->].
  apply cropPrice_urlParams_inv in Q as (lt & ot & q1 & q2 & L & O & A1 & A2 & A3).
  cbn [limit offset] in L, O, K.
  exists q, lt, ot.
  split; [exact OQ|]. split; [exact L|]. split; [exact O|].
  split; [|split].
  - apply (get_param_append_if _ _ _ _ _ _ A3), (get_param_append_if _ _ _ _ _ _ A2),
      (get_param_append_if _ _ _ _ _ _ A1). reflexivity.
  - apply (get_param_append_if _ _ _ _ _ _ A3), (get_param_append_if _ _ _ _ _ _ A2),
      (get_param_append_if _ _ _ _ _ _ A1). reflexivity.
  - subst the_limit the_offset. unfold coalesce in *.
    split; [intros ->; reflexivity|]. split; [intros ->; reflexivity|].
    split; [intros N; rewrite N in L; now injection L as <-|].
    split; [intros N; rewrite N in O; now injection O as <-|].
    split.
    + intros status text json Hok Hparse Hnull.
      pose proof (JSON_parse_not_null _ _ Hparse Hnull) as Hjson.
      rewrite K. unfold outcome.
      rewrite (cropPrice_response_success _ status text json Hok Hparse Hjson).
      eexists. split; [reflexivity|]. split; reflexivity.
    + intros r data E. rewrite K in E. injection E as E.
      apply price_success_inv in E. exact E.
Qed.

(** C3, as the code has it.  For an upstream answer with a success status
    whose body parses to a JSON value other than [null], the handler returns
    Success; its [records] are the upstream [records] when that value is
    truthy and the empty sequence otherwise, and its [total] is the upstream
    [total] when that value is truthy and the length of the records
    otherwise: the count of the records when they are a sequence. *)
Theorem records_and_total_default_when_falsy
        (params : value) (rq : outbound) (k : reply -> M value)
        (status : Z) (text : jstring) (json : value) :
  price params = Fetch rq k ->
  ok status = true ->
  JSON_parse text = inr json ->
  json <> VNull ->
  exists data,
    k (Response status text) = Ret (inr (Success data))
    /\ field data "records" = or_else (field json "records") (VArr [])
    /\ field data "total" = or_else (field json "total")
                                    (field (field data "records") "length")
    /\ (truthy (field json "records") = false -> field data "records" = VArr [])
    /\ (truthy (field json "records") = true ->
        field data "records" = field json "records")
    /\ (truthy (field json "total") = true -> field data "total" = field json "total")
    /\ (truthy (field json "total") = false ->
        forall items, field data "records" = VArr items ->
                      field data "total" = VNum (of_nat (List.length items))).
Proof.
  intros H Hok Hparse Hnull.
  pose proof (JSON_parse_not_null _ _ Hparse Hnull) as Hjson.
  destruct (price_fetch_inv _ _ _ H) as (key & i & resource & q & _ & _ & _ & _ & _ & K).
  rewrite K. unfold outcome.
  rewrite (cropPrice_response_success i status text json Hok Hparse Hjson).
  eexists. split; [reflexivity|].
  set (records := or_else (field json "records") (VArr [])).
  assert (R : field (VObj
             [(lit "records", records);
              (lit "total", or_else (field json "total") (field records "length"));
              (lit "limit", limit i); (lit "offset", offset i);
              (lit "query", VObj [(lit "state", state i); (lit "district", district i);
                                  (lit "commodity", commodity i)])]) "records"
              = records) by reflexivity.
  assert (T : field (VObj
             [(lit "records", records);
              (lit "total", or_else (field json "total") (field records "length"));
              (lit "limit", limit i); (lit "offset", offset i);
              (lit "query", VObj [(lit "state", state i); (lit "district", district i);
                                  (lit "commodity", commodity i)])]) "total"
              = or_else (field json "total") (field records "length")) by reflexivity.
  rewrite R, T. subst records. unfold or_else.
  split; [reflexivity|]. split; [reflexivity|].
  split; [intros ->; reflexivity|]. split; [intros ->; reflexivity|].
  split; [intros ->; reflexivity|].
  intros -> items ->. reflexivity.
Qed.

End PriceHandler.

(** ** Tool results of the handlers *)

Section ToolResults.

Variable String_error : js_error -> jstring.
Variable env : environment.

Lemma shaped_failure (message : jstring) :
  message <> [] -> shaped (Failure message).
Proof. intros H. now exists (ToolFailure message). Qed.

Lemma shaped_configuration_errors :
  shaped (Failure price_configuration_error)
  /\ shaped (Failure search_configuration_error).
Proof. split; apply shaped_failure; cbv; discriminate. Qed.

Lemma shaped_success (data : value) : shaped (Success data).
Proof. now exists (ToolSuccess data). Qed.

Lemma shaped_server_error (e : js_error) : shaped (server_error String_error e).
Proof. apply shaped_failure. discriminate. Qed.

Lemma cropPrice_response_shaped (i : price_inputs) (status : Z) (text : jstring)
      (v : value) :
  cropPrice_response i status text = inr v -> shaped v.
Proof.
  unfold cropPrice_response.
  destruct (negb (ok status)); [intros [= <-]; apply shaped_failure; discriminate|].
  destruct (JSON_parse text) as [e|json]; [intros [= <-]; apply shaped_failure; discriminate|].
  destruct (get json (lit "records")) as [e|records]; [discriminate|]. cbn [ebind].
  destruct (get json (lit "total")) as [e|total]; [discriminate|]. cbn [ebind].
  destruct (get _ (lit "length")) as [e|len]; [discriminate|]. cbn [ebind].
  intros [= <-]. apply shaped_success.
Qed.

Lemma search_response_shaped (i : search_inputs) (status : Z) (text : jstring)
      (v : value) :
  search_response i status text = inr v -> shaped v.
Proof.
  unfold search_response.
  destruct (negb (ok status)); [intros [= <-]; apply shaped_failure; discriminate|].
  destruct (JSON_parse text) as [e|json]; [intros [= <-]; apply shaped_failure; discriminate|].
  destruct (get json (lit "results")) as [e|results]; [discriminate|]. cbn [ebind].
  destruct (Array_map mapResult _) as [e|mapped]; [discriminate|]. cbn [ebind].
  destruct (get _ (lit "length")) as [e|len]; [discriminate|]. cbn [ebind].
  intros [= <-]. apply shaped_success.
Qed.

Lemma outcome_shaped (respond : Z -> jstring -> exc value) (r : reply) :
  (forall status text v, respond status text = inr v -> shaped v) ->
  shaped (outcome String_error respond r).
Proof.
  intros H. destruct r as [status text|e]; cbn [outcome];
    [|apply shaped_server_error].
  destruct (respond status text) as [e|v] eqn:E;
    [apply shaped_server_error|now apply (H status text)].
Qed.

(** Against every upstream a handler run ends, and ends with a tool result. *)
Lemma cropPriceHandler_returns (net : outbound -> reply) (params : value) :
  exists r calls,
    run net (cropPriceHandler String_error env params) = (inr (result_object r), calls)
    /\ well_formed r.
Proof.
  pose proof (cropPriceHandler_cases String_error env params) as C.
  assert (F : forall v, shaped v ->
              cropPriceHandler String_error env params = Ret (inr v) ->
              exists r calls,
                run net (cropPriceHandler String_error env params)
                = (inr (result_object r), calls) /\ well_formed r).
  { intros v (r & -> & W) E. exists r, []. rewrite E. now split. }
  destruct (DATAGOVIN_API_KEY env) as [[|c key]|];
    [apply (F _ (proj1 shaped_configuration_errors) C)|
    |apply (F _ (proj1 shaped_configuration_errors) C)].
  destruct (cropPrice_inputs params) as [e|i];
    [apply (F _ (shaped_server_error e) C)|].
  destruct (cropPrice_url env (c :: key) i) as [e|url];
    [apply (F _ (shaped_server_error e) C)|].
  destruct C as (k & E & K). rewrite E. cbn [run]. rewrite K. cbn [run].
  destruct (outcome_shaped (cropPrice_response i) (net (price_request url))
                           (cropPrice_response_shaped i)) as (r & -> & W).
  exists r, [price_request url]. now split.
Qed.

Lemma searchHandler_returns (net : outbound -> reply) (params : value) :
  exists r calls,
    run net (searchHandler String_error env params) = (inr (result_object r), calls)
    /\ well_formed r.
Proof.
  pose proof (searchHandler_cases String_error env params) as C.
  assert (F : forall v, shaped v ->
              searchHandler String_error env params = Ret (inr v) ->
              exists r calls,
                run net (searchHandler String_error env params)
                = (inr (result_object r), calls) /\ well_formed r).
  { intros v (r & -> & W) E. exists r, []. rewrite E. now split. }
  destruct (EXA_API_KEY env) as [[|c key]|];
    [apply (F _ (proj2 shaped_configuration_errors) C)|
    |apply (F _ (proj2 shaped_configuration_errors) C)].
  destruct (search_read params) as [e|i];
    [apply (F _ (shaped_server_error e) C)|].
  destruct C as (k & E & K). rewrite E. cbn [run]. rewrite K. cbn [run].
  destruct (outcome_shaped (search_response i) (net (search_request (c :: key) i))
                           (search_response_shaped i)) as (r & -> & W).
  exists r, [search_request (c :: key) i]. now split.
Qed.

(** A Success of the search handler holds the upstream entries mapped one
    by one, in their order, and their count. *)
Lemma search_response_results (i : search_inputs) (status : Z) (text : jstring)
      (data : value) :
  search_response i status text = inr (Success data) ->
  exists json entries mapped,
    JSON_parse text = inr json
    /\ or_else (field json "results") (VArr []) = VArr entries
    /\ emap mapResult entries = inr mapped
    /\ data = VObj [(lit "results", VArr mapped);
                    (lit "total_results", VNum (of_nat (List.length entries)));
                    (lit "query", query i)].
Proof.
  unfold search_response.
  destruct (negb (ok status)); [discriminate|].
  destruct (JSON_parse text) as [e|json] eqn:P; [discriminate|].
  destruct (get json (lit "results")) as [e|results] eqn:G; [discriminate|].
  cbn [ebind].
  assert (F : field json "results" = results) by (unfold field; now rewrite G).
  destruct (or_else results (VArr [])) as [| |b|n|t|entries|props] eqn:O;
    try discriminate.
  cbn [Array_map ebind].
  destruct (emap mapResult entries) as [e|mapped] eqn:Emap; [discriminate|].
  cbn [ebind]. intros [= <-].
  exists json, entries, mapped. rewrite F, O. repeat split; try reflexivity; assumption.
Qed.

(** *** The registry *)

Lemma toolHandlers_entries :
  toolHandlers String_error env
  = [(lit "crop-price", cropPriceHandler String_error env);
     (lit "search", searchHandler String_error env)].
Proof. reflexivity. Qed.

Lemma Map_keys_toolHandlers :
  Map_keys (toolHandlers String_error env) = registered_names.
Proof. reflexivity. Qed.

Lemma registered_cases (name : jstring) (handler : value -> M value) :
  Map_get (VStr name) (toolHandlers String_error env) = Some handler ->
  (name = lit "crop-price" /\ handler = cropPriceHandler String_error env)
  \/ (name = lit "search" /\ handler = searchHandler String_error env).
Proof.
  rewrite toolHandlers_entries. cbn [Map_get lookup].
  destruct (jstring_eqb name (lit "crop-price")) eqn:E1.
  - intros [= <-]. left. now apply jstring_eqb_eq in E1.
  - destruct (jstring_eqb name (lit "search")) eqn:E2; [|discriminate].
    intros [= <-]. right. now apply jstring_eqb_eq in E2.
Qed.

Lemma registered_returns (name : jstring) (handler : value -> M value)
      (net : outbound -> reply) (args : value) :
  Map_get (VStr name) (toolHandlers String_error env) = Some handler ->
  exists r calls,
    run net (handler args) = (inr (result_object r), calls) /\ well_formed r.
Proof.
  intros H. destruct (registered_cases _ _ H) as [[_ ->]|[_ ->]].
  - apply cropPriceHandler_returns.
  - apply searchHandler_returns.
Qed.

End ToolResults.

(** ** The two front-ends *)

Lemma break_at_unfold (sep s : jstring) :
  break_at sep s
  = match strip_prefix sep s with
    | Some rest => Some ([], rest)
    | None =>
        match s with
        | [] => None
        | c :: s' =>
            match break_at sep s' with
            | Some (before, rest) => Some (c :: before, rest)
            | None => None
            end
        end
    end.
Proof. destruct s; reflexivity. Qed.

(** The tool name the listener reads from [/tools/{name}]: the text up to
    the next [/tools/], all of it when there is none. *)
Lemma toolName_of_path (name : jstring) :
  toolName_of (tools_marker ++ name)
  = VStr (match break_at tools_marker name with
          | Some (before, _) => before
          | None => name
          end).
Proof.
  unfold toolName_of, split, tools_marker. rewrite length_app.
  change (List.length (lit "/tools/")) with 7.
  cbn [Nat.add split_fuel].
  rewrite (break_at_unfold (lit "/tools/") (lit "/tools/" ++ name)), strip_prefix_app.
  cbn [split_fuel nth_error].
  destruct (break_at (lit "/tools/") name) as [[before rest]|]; reflexivity.
Qed.

Lemma get_ok_not_nullish (v : value) (k : jstring) (x : value) :
  get v k = inr x -> nullish v = false.
Proof. destruct v; cbn; intros H; try discriminate H; reflexivity. Qed.

Lemma JSON_parse_nonempty (body : jstring) (v : value) :
  JSON_parse body = inr v -> body_or_empty_object body = body.
Proof. destruct body; [discriminate|reflexivity]. Qed.

Lemma run_settle_mbind {A B} (net : outbound -> reply) (h : M A) (f : A -> B)
      (g : js_error -> B) (a : A) (calls : list outbound) :
  run net h = (inr a, calls) ->
  run net (settle (mbind h (fun x => mret (f x))) g) = (f a, calls).
Proof.
  intros H. unfold settle, mbind, mret. rewrite !run_bind, H.
  cbn. now rewrite !app_nil_r.
Qed.

Section FrontEnds.

Variable String_error : js_error -> jstring.
Variable env : environment.
Variable now : jstring.

Local Notation server := (httpServer String_error env now).
Local Notation registry := (toolHandlers String_error env).

Lemma route_tools (name body : jstring) :
  server (POST (tools_marker ++ name) body)
  = tool_endpoint String_error env (toolName_of (tools_marker ++ name)) body.
Proof. reflexivity. Qed.

Lemma route_mcp (body : jstring) :
  server (POST (lit "/mcp") body) = mcp_endpoint String_error env body.
Proof. reflexivity. Qed.

Lemma tool_endpoint_run (net : outbound -> reply) (name : jstring)
      (handler : value -> M value) (body : jstring) (args result : value)
      (calls : list outbound) :
  Map_get (VStr name) registry = Some handler ->
  JSON_parse (body_or_empty_object body) = inr args ->
  run net (handler args) = (inr result, calls) ->
  run net (tool_endpoint String_error env (VStr name) body)
  = (json_response 200 result, calls).
Proof.
  intros Hget Hparse Hrun. unfold tool_endpoint. rewrite Hparse.
  cbn [mbind lift io_bind]. rewrite Hget.
  now apply run_settle_mbind.
Qed.

Lemma tool_endpoint_unknown (name body : jstring) (args : value) :
  Map_get (VStr name) registry = None ->
  JSON_parse (body_or_empty_object body) = inr args ->
  tool_endpoint String_error env (VStr name) body
  = Ret (json_response 404
           (obj [("error" ~> VStr (lit "Tool '" ++ name ++ lit "' not found"));
                 ("available_tools" ~> registered_names)])).
Proof.
  intros Hget Hparse. unfold tool_endpoint. rewrite Hparse.
  cbn [mbind lift io_bind]. rewrite Hget. reflexivity.
Qed.

Lemma tool_endpoint_malformed (toolName : value) (body : jstring) (e : js_error) :
  JSON_parse (body_or_empty_object body) = inl e ->
  tool_endpoint String_error env toolName body
  = Ret (json_response 400
           (obj [("error" ~> VStr (lit "Invalid request: " ++ String_error e))])).
Proof.
  intros Hparse. unfold tool_endpoint. rewrite Hparse. reflexivity.
Qed.

Lemma mcp_endpoint_malformed (body : jstring) (e : js_error) :
  JSON_parse body = inl e ->
  mcp_endpoint String_error env body
  = Ret (json_response 400
           (rpc_error (VInt 0)
              [("code" ~> VInt (-32700));
               ("message" ~> VStr (lit "Parse error: " ++ String_error e))])).
Proof.
  intros Hparse. unfold mcp_endpoint. rewrite Hparse. reflexivity.
Qed.

Lemma mcp_endpoint_run (net : outbound -> reply) (body : jstring)
      (request response : value) (calls : list outbound) :
  JSON_parse body = inr request ->
  run net (handleMCPRequest String_error env request) = (inr response, calls) ->
  run net (mcp_endpoint String_error env body) = (json_response 200 response, calls).
Proof.
  intros Hparse Hrun. unfold mcp_endpoint. rewrite Hparse.
  cbn [mbind lift io_bind]. now apply run_settle_mbind.
Qed.

(** *** [tools/call] *)

Lemma error_of_result (r : tool_result) :
  well_formed r ->
  get (result_object r) (lit "error")
  = inr (match r with ToolFailure m => VStr m | ToolSuccess _ => VUndefined end)
  /\ truthy (match r with ToolFailure m => VStr m | ToolSuccess _ => VUndefined end)
     = match r with ToolFailure _ => true | ToolSuccess _ => false end.
Proof.
  destruct r as [data|[|c m]]; cbn [well_formed]; intros W;
    try (split; reflexivity).
  now contradiction W.
Qed.

Lemma handleMCPRequest_call (net : outbound -> reply) (request params args : value)
      (name : jstring) (handler : value -> M value) (r : tool_result)
      (calls : list outbound) :
  get request (lit "method") = inr (str "tools/call") ->
  get request (lit "params") = inr params ->
  get params (lit "name") = inr (VStr name) ->
  get params (lit "arguments") = inr args ->
  Map_get (VStr name) registry = Some handler ->
  run net (handler args) = (inr (result_object r), calls) ->
  well_formed r ->
  run net (handleMCPRequest String_error env request)
  = (inr (rpc_envelope (field request "id") r), calls).
Proof.
  intros Hmethod Hparams Hname Hargs Hget Hrun W.
  pose proof (get_ok_not_nullish _ _ _ Hmethod) as Nrequest.
  pose proof (get_ok_not_nullish _ _ _ Hname) as Nparams.
  unfold handleMCPRequest. rewrite Hmethod.
  cbn [mbind lift io_bind try_catch].
  change (is_string (str "tools/call") (lit "initialize")) with false.
  change (is_string (str "tools/call") (lit "tools/list")) with false.
  change (is_string (str "tools/call") (lit "tools/call")) with true.
  cbn iota. rewrite Hparams. cbn [io_bind].
  unfold destructurable. rewrite Nparams. cbn [io_bind].
  rewrite Hname. cbn [io_bind]. rewrite Hargs. cbn [io_bind].
  rewrite Hget. unfold mbind. rewrite !run_bind, Hrun. cbn [fst snd].
  destruct (error_of_result r W) as [E T]. rewrite E. cbn beta iota.
  rewrite T, (get_field request "id" Nrequest).
  destruct r as [data|message]; cbn beta iota.
  - change (get (result_object (ToolSuccess data)) (lit "data"))
      with (inr data : exc value).
    cbn [mret run fst snd]. now rewrite !app_nil_r.
  - cbn [mret run fst snd]. now rewrite !app_nil_r.
Qed.

(** C1. A registered tool called with the same arguments through
    [POST /tools/{name}] and through [tools/call] runs the same handler on the
    same arguments: against every upstream both issue the handler's outbound
    calls and both answer with status 200, the REST body being the handler's
    result object and the RPC body its envelope, the pretty-printed data of a
    success as one text block, the message of a failure as error [-32603]. *)
Theorem rest_and_rpc_agree
        (net : outbound -> reply) (name : jstring) (handler : value -> M value)
        (args : value) (body envelope : jstring) (request params : value) :
  Map_get (VStr name) registry = Some handler ->
  JSON_parse body = inr args ->
  JSON_parse envelope = inr request ->
  get request (lit "method") = inr (str "tools/call") ->
  get request (lit "params") = inr params ->
  get params (lit "name") = inr (VStr name) ->
  get params (lit "arguments") = inr args ->
  exists r calls,
    run net (handler args) = (inr (result_object r), calls)
    /\ well_formed r
    /\ run net (server (POST (tools_marker ++ name) body)) = (rest_envelope r, calls)
    /\ run net (server (POST (lit "/mcp") envelope))
       = (json_response 200 (rpc_envelope (field request "id") r), calls).
Proof.
  intros Hget Hbody Henvelope Hmethod Hparams Hname Hargs.
  destruct (registered_returns String_error env name handler net args Hget)
    as (r & calls & Hrun & W).
  exists r, calls. split; [exact Hrun|]. split; [exact W|]. split.
  - rewrite route_tools.
    assert (T : toolName_of (tools_marker ++ name) = VStr name).
    { destruct (registered_cases _ _ _ _ Hget) as [[-> _]|[-> _]]; reflexivity. }
    rewrite T. apply (tool_endpoint_run net name handler body args); auto.
    now rewrite (JSON_parse_nonempty _ _ Hbody).
  - rewrite route_mcp. apply (mcp_endpoint_run net envelope request); auto.
    now apply (handleMCPRequest_call net request params args name handler).
Qed.

Lemma handleMCPRequest_unknown (request params : value) (name : jstring) :
  get request (lit "method") = inr (str "tools/call") ->
  get request (lit "params") = inr params ->
  get params (lit "name") = inr (VStr name) ->
  Map_get (VStr name) registry = None ->
  handleMCPRequest String_error env request
  = Ret (inr (rpc_error (field request "id")
                [("code" ~> VInt (-32601));
                 ("message" ~> VStr (lit "Tool '" ++ name ++ lit "' not found"));
                 ("data" ~> obj [("availableTools" ~> registered_names)])])).
Proof.
  intros Hmethod Hparams Hname Hget.
  pose proof (get_ok_not_nullish _ _ _ Hmethod) as Nrequest.
  pose proof (get_ok_not_nullish _ _ _ Hname) as Nparams.
  unfold handleMCPRequest. rewrite Hmethod.
  cbn [mbind lift io_bind try_catch].
  change (is_string (str "tools/call") (lit "initialize")) with false.
  change (is_string (str "tools/call") (lit "tools/list")) with false.
  change (is_string (str "tools/call") (lit "tools/call")) with true.
  cbn iota. rewrite Hparams. cbn [io_bind].
  unfold destructurable. rewrite Nparams. cbn [io_bind].
  rewrite Hname. cbn [io_bind].
  rewrite (get_field params "arguments" Nparams). cbn [io_bind].
  rewrite Hget, (get_field request "id" Nrequest). reflexivity.
Qed.

(** C6, as the code has it.  For a name that is not registered: a
    [POST /tools/{name}] whose body is empty or parses, the name holding no
    further [/tools/], is answered with status 404 and a body whose
    [available_tools] lists [crop-price] and [search]; a [tools/call] with
    that name is answered with error [-32601] whose data lists the same
    names.  Both are ordinary responses of the listener. *)
Theorem unknown_tool_is_reported (name : jstring) :
  Map_get (VStr name) registry = None ->
  (forall body args,
      break_at tools_marker name = None ->
      JSON_parse (body_or_empty_object body) = inr args ->
      server (POST (tools_marker ++ name) body)
      = Ret (json_response 404
               (obj [("error" ~> VStr (lit "Tool '" ++ name ++ lit "' not found"));
                     ("available_tools" ~> VArr [str "crop-price"; str "search"])])))
  /\
  (forall envelope request params,
      JSON_parse envelope = inr request ->
      get request (lit "method") = inr (str "tools/call") ->
      get request (lit "params") = inr params ->
      get params (lit "name") = inr (VStr name) ->
      server (POST (lit "/mcp") envelope)
      = Ret (json_response 200
               (rpc_error (field request "id")
                  [("code" ~> VInt (-32601));
                   ("message" ~> VStr (lit "Tool '" ++ name ++ lit "' not found"));
                   ("data" ~>
                    obj [("availableTools" ~> VArr [str "crop-price"; str "search"])])]))).
Proof.
  intros Hget. split.
  - intros body args Hname Hparse.
    rewrite route_tools, toolName_of_path, Hname.
    now apply (tool_endpoint_unknown name body args).
  - intros envelope request params Hparse Hmethod Hparams Hname.
    rewrite route_mcp. unfold mcp_endpoint. rewrite Hparse.
    cbn [mbind lift io_bind].
    rewrite (handleMCPRequest_unknown request params name) by assumption.
    reflexivity.
Qed.

(** *** Malformed and empty bodies *)

Lemma tool_endpoint_status (net : outbound -> reply) (name body : jstring)
      (args : value) :
  JSON_parse (body_or_empty_object body) = inr args ->
  status (fst (run net (tool_endpoint String_error env (VStr name) body))) = 200%Z
  \/ status (fst (run net (tool_endpoint String_error env (VStr name) body))) = 404%Z.
Proof.
  intros Hparse.
  destruct (Map_get (VStr name) registry) as [handler|] eqn:Hget.
  - destruct (registered_returns String_error env name handler net args Hget)
      as (r & calls & Hrun & _).
    rewrite (tool_endpoint_run net name handler body args _ calls Hget Hparse Hrun).
    now left.
  - rewrite (tool_endpoint_unknown name body args Hget Hparse). now right.
Qed.

(** C7. A body that does not parse as JSON gets status 400: from
    [POST /tools/{name}] with a body holding an [error] string, from
    [POST /mcp] with an envelope of error code [-32700] and id [0].  An empty
    body to [/tools/{name}] is read as the empty mapping [{}]: the request is
    handled as if [{}] had been sent, and its status is not 400. *)
Theorem malformed_body_is_rejected (name body : jstring) (e : js_error) :
  JSON_parse body = inl e ->
  (body <> [] ->
   server (POST (tools_marker ++ name) body)
   = Ret (json_response 400
            (obj [("error" ~> VStr (lit "Invalid request: " ++ String_error e))])))
  /\ server (POST (lit "/mcp") body)
     = Ret (json_response 400
              (rpc_error (VInt 0)
                 [("code" ~> VInt (-32700));
                  ("message" ~> VStr (lit "Parse error: " ++ String_error e))]))
  /\ JSON_parse (body_or_empty_object []) = inr (VObj [])
  /\ server (POST (tools_marker ++ name) [])
     = server (POST (tools_marker ++ name) (lit "{}"))
  /\ forall net,
      status (fst (run net (server (POST (tools_marker ++ name) [])))) <> 400%Z.
Proof.
  intros Hparse. split; [|split; [|split; [|split]]].
  - intros Hbody. rewrite route_tools.
    apply tool_endpoint_malformed.
    destruct body; [now contradiction Hbody|exact Hparse].
  - rewrite route_mcp. now apply mcp_endpoint_malformed.
  - reflexivity.
  - reflexivity.
  - intros net. rewrite route_tools, toolName_of_path.
    set (toolName := match break_at tools_marker name with
                     | Some (before, _) => before
                     | None => name
                     end).
    destruct (tool_endpoint_status net toolName [] (VObj []) eq_refl) as [-> | ->];
      discriminate.
Qed.

(** C10. A [tools/call] envelope without [params] is answered with status
    200 and error [-32603], the dispatcher's catch-all around the failed
    destructuring, with the id of the request; so not with [-32601], not with
    [-32700], and not with status 400. *)
Theorem call_without_params_is_internal_error (envelope : jstring) (request : value) :
  JSON_parse envelope = inr request ->
  get request (lit "method") = inr (str "tools/call") ->
  get request (lit "params") = inr VUndefined ->
  let answer :=
    rpc_error (field request "id")
      [("code" ~> VInt (-32603));
       ("message" ~>
        VStr (lit "Internal error: "
                ++ String_error (TypeError_destructure VUndefined)))] in
  handleMCPRequest String_error env request = Ret (inr answer)
  /\ server (POST (lit "/mcp") envelope) = Ret (json_response 200 answer)
  /\ status (json_response 200 answer) = 200%Z
  /\ field (field answer "error") "code" = VInt (-32603)
  /\ field answer "id" = field request "id".
Proof.
  intros Hparse Hmethod Hparams answer.
  pose proof (get_ok_not_nullish _ _ _ Hmethod) as Nrequest.
  assert (H : handleMCPRequest String_error env request = Ret (inr answer)).
  { unfold handleMCPRequest. rewrite Hmethod.
    cbn [mbind lift io_bind try_catch].
    change (is_string (str "tools/call") (lit "initialize")) with false.
    change (is_string (str "tools/call") (lit "tools/list")) with false.
    change (is_string (str "tools/call") (lit "tools/call")) with true.
    cbn iota. rewrite Hparams. cbn [io_bind destructurable nullish].
    rewrite (get_field request "id" Nrequest). reflexivity. }
  split; [exact H|]. split; [|repeat split].
  rewrite route_mcp. unfold mcp_endpoint. rewrite Hparse.
  cbn [mbind lift io_bind]. rewrite H. reflexivity.
Qed.

End FrontEnds.

(** * The theorems on concrete requests *)

Lemma rest_and_rpc_agree_witness :
  let handler := cropPriceHandler sample_String_error sample_env in
  Map_get (str "crop-price") (toolHandlers sample_String_error sample_env) = Some handler
  /\ JSON_parse sample_body = inr sample_args
  /\ JSON_parse sample_envelope = inr sample_call
  /\ exists r calls,
      run sample_upstream (handler sample_args) = (inr (result_object r), calls)
      /\ well_formed r
      /\ run sample_upstream
             (httpServer sample_String_error sample_env sample_now
                         (POST (tools_marker ++ lit "crop-price") sample_body))
         = (rest_envelope r, calls)
      /\ run sample_upstream
             (httpServer sample_String_error sample_env sample_now
                         (POST (lit "/mcp") sample_envelope))
         = (json_response 200 (rpc_envelope (field sample_call "id") r), calls).
Proof.
  intros handler.
  assert (H1 : Map_get (str "crop-price") (toolHandlers sample_String_error sample_env)
               = Some handler) by reflexivity.
  assert (H2 : JSON_parse sample_body = inr sample_args) by (vm_compute; reflexivity).
  assert (H3 : JSON_parse sample_envelope = inr sample_call) by (vm_compute; reflexivity).
  split; [exact H1|]. split; [exact H2|]. split; [exact H3|].
  apply (rest_and_rpc_agree sample_String_error sample_env sample_now sample_upstream
           (lit "crop-price") handler sample_args sample_body sample_envelope
           sample_call (field sample_call "params") H1 H2 H3);
    reflexivity.
Defined.

Lemma sample_price_run_fetches :
  sample_price_run
  = Fetch (price_request sample_price_url) (continuation sample_price_run).
Proof. vm_compute. reflexivity. Qed.

Lemma filters_sent_iff_input_truthy_witness :
  sample_price_run
  = Fetch (price_request sample_price_url) (continuation sample_price_run)
  /\ exists q,
      outbound_query sample_env sample_args (price_request sample_price_url) q
      /\ has (lit "filters[State]") q = truthy (field sample_args "state")
      /\ has (lit "filters[District]") q = truthy (field sample_args "district")
      /\ has (lit "filters[Commodity]") q = truthy (field sample_args "commodity")
      /\ (field sample_args "state" = VStr [] -> has (lit "filters[State]") q = false)
      /\ (field sample_args "state" = VUndefined ->
          has (lit "filters[State]") q = false).
Proof.
  split; [exact sample_price_run_fetches|].
  exact (filters_sent_iff_input_truthy sample_String_error sample_env sample_args
           (price_request sample_price_url) (continuation sample_price_run)
           sample_price_run_fetches).
Defined.

Lemma records_and_total_default_when_falsy_witness :
  sample_price_run
  = Fetch (price_request sample_price_url) (continuation sample_price_run)
  /\ ok 200 = true
  /\ JSON_parse sample_price_text = inr sample_price_json
  /\ sample_price_json <> VNull
  /\ exists data,
      continuation sample_price_run (Response 200 sample_price_text)
      = Ret (inr (Success data))
      /\ field data "records" = or_else (field sample_price_json "records") (VArr [])
      /\ field data "total" = or_else (field sample_price_json "total")
                                      (field (field data "records") "length")
      /\ (truthy (field sample_price_json "records") = false ->
          field data "records" = VArr [])
      /\ (truthy (field sample_price_json "records") = true ->
          field data "records" = field sample_price_json "records")
      /\ (truthy (field sample_price_json "total") = true ->
          field data "total" = field sample_price_json "total")
      /\ (truthy (field sample_price_json "total") = false ->
          forall items, field data "records" = VArr items ->
                        field data "total" = VNum (of_nat (List.length items))).
Proof.
  assert (P : JSON_parse sample_price_text = inr sample_price_json)
    by (vm_compute; reflexivity).
  assert (N : sample_price_json <> VNull) by discriminate.
  split; [exact sample_price_run_fetches|]. split; [reflexivity|].
  split; [exact P|]. split; [exact N|].
  exact (records_and_total_default_when_falsy sample_String_error sample_env
           sample_args (price_request sample_price_url)
           (continuation sample_price_run) 200 sample_price_text sample_price_json
           sample_price_run_fetches eq_refl P N).
Defined.

Lemma limit_and_offset_always_sent_witness :
  sample_price_run
  = Fetch (price_request sample_price_url) (continuation sample_price_run)
  /\ (ok 200 = true
      /\ JSON_parse sample_price_text = inr sample_price_json
      /\ sample_price_json <> VNull)
  /\ (exists data,
        continuation sample_price_run (Response 200 sample_price_text)
        = Ret (inr (Success data))
        /\ field data "limit" = VInt 5
        /\ field data "offset" = VInt 0)
  /\ let the_limit := coalesce (field sample_args "limit") (VInt 50) in
     let the_offset := coalesce (field sample_args "offset") (VInt 0) in
     exists q limit_text offset_text,
       outbound_query sample_env sample_args (price_request sample_price_url) q
       /\ ToString the_limit = inr limit_text
       /\ ToString the_offset = inr offset_text
       /\ get_param (lit "limit") q = Some limit_text
       /\ get_param (lit "offset") q = Some offset_text
       /\ (nullish (field sample_args "limit") = false ->
           the_limit = field sample_args "limit")
       /\ (nullish (field sample_args "offset") = false ->
           the_offset = field sample_args "offset")
       /\ (nullish (field sample_args "limit") = true -> limit_text = lit "50")
       /\ (nullish (field sample_args "offset") = true -> offset_text = lit "0")
       /\ (forall status text json,
             ok status = true ->
             JSON_parse text = inr json ->
             json <> VNull ->
             exists data,
               continuation sample_price_run (Response status text)
               = Ret (inr (Success data))
               /\ field data "limit" = the_limit
               /\ field data "offset" = the_offset)
       /\ forall r data,
           continuation sample_price_run r = Ret (inr (Success data)) ->
           field data "limit" = the_limit /\ field data "offset" = the_offset.
Proof.
  assert (P : JSON_parse sample_price_text = inr sample_price_json)
    by (vm_compute; reflexivity).
  assert (N : sample_price_json <> VNull) by discriminate.
  pose proof (limit_and_offset_always_sent sample_String_error sample_env sample_args
                (price_request sample_price_url) (continuation sample_price_run)
                sample_price_run_fetches) as T.
  split; [exact sample_price_run_fetches|].
  split; [split; [reflexivity|split; [exact P|exact N]]|].
  split; [|exact T].
  destruct T as (q & lt & ot & _ & _ & _ & _ & _ & _ & _ & _ & _ & Echo & _).
  exact (Echo 200%Z sample_price_text sample_price_json eq_refl P N).
Defined.

Lemma missing_key_fails_before_any_fetch_witness :
  DATAGOVIN_API_KEY no_keys = None
  /\ EXA_API_KEY no_keys = None
  /\ (cropPriceHandler sample_String_error no_keys sample_args
      = Ret (inr (Failure price_configuration_error))
      /\ startsWith price_configuration_error (lit "Configuration error:") = true
      /\ forall net,
          snd (run net (cropPriceHandler sample_String_error no_keys sample_args)) = [])
  /\ (searchHandler sample_String_error no_keys sample_args
      = Ret (inr (Failure search_configuration_error))
      /\ startsWith search_configuration_error (lit "Configuration error:") = true
      /\ forall net,
          snd (run net (searchHandler sample_String_error no_keys sample_args)) = []).
Proof.
  split; [reflexivity|]. split; [reflexivity|].
  destruct (missing_key_fails_before_any_fetch sample_String_error no_keys sample_args)
    as [P S].
  split; [exact (P eq_refl)|exact (S eq_refl)].
Defined.

Lemma unknown_tool_is_reported_witness :
  Map_get (str "nope") (toolHandlers sample_String_error sample_env) = None
  /\ break_at tools_marker (lit "nope") = None
  /\ JSON_parse (body_or_empty_object sample_body) = inr sample_args
  /\ JSON_parse unknown_call_text = inr unknown_call
  /\ httpServer sample_String_error sample_env sample_now
                (POST (tools_marker ++ lit "nope") sample_body)
     = Ret (json_response 404
              (obj [("error" ~> VStr (lit "Tool '" ++ lit "nope" ++ lit "' not found"));
                    ("available_tools" ~> VArr [str "crop-price"; str "search"])]))
  /\ httpServer sample_String_error sample_env sample_now
                (POST (lit "/mcp") unknown_call_text)
     = Ret (json_response 200
              (rpc_error (field unknown_call "id")
                 [("code" ~> VInt (-32601));
                  ("message" ~> VStr (lit "Tool '" ++ lit "nope" ++ lit "' not found"));
                  ("data" ~>
                   obj [("availableTools" ~> VArr [str "crop-price"; str "search"])])])).
Proof.
  assert (P : JSON_parse (body_or_empty_object sample_body) = inr sample_args)
    by (vm_compute; reflexivity).
  assert (Q : JSON_parse unknown_call_text = inr unknown_call)
    by (vm_compute; reflexivity).
  destruct (unknown_tool_is_reported sample_String_error sample_env sample_now
              (lit "nope") eq_refl) as [Rest Rpc].
  split; [reflexivity|]. split; [reflexivity|]. split; [exact P|]. split; [exact Q|].
  split.
  - exact (Rest sample_body sample_args eq_refl P).
  - exact (Rpc unknown_call_text unknown_call (field unknown_call "params")
               Q eq_refl eq_refl eq_refl).
Defined.

Lemma malformed_body_is_rejected_witness :
  JSON_parse (lit "{") = inl (SyntaxError_JSON (lit "{"))
  /\ lit "{" <> []
  /\ httpServer sample_String_error sample_env sample_now
                (POST (tools_marker ++ lit "crop-price") (lit "{"))
     = Ret (json_response 400
              (obj [("error" ~>
                     VStr (lit "Invalid request: "
                             ++ sample_String_error (SyntaxError_JSON (lit "{"))))]))
  /\ httpServer sample_String_error sample_env sample_now (POST (lit "/mcp") (lit "{"))
     = Ret (json_response 400
              (rpc_error (VInt 0)
                 [("code" ~> VInt (-32700));
                  ("message" ~>
                   VStr (lit "Parse error: "
                           ++ sample_String_error (SyntaxError_JSON (lit "{"))))]))
  /\ JSON_parse (body_or_empty_object []) = inr (VObj [])
  /\ httpServer sample_String_error sample_env sample_now
                (POST (tools_marker ++ lit "crop-price") [])
     = httpServer sample_String_error sample_env sample_now
                  (POST (tools_marker ++ lit "crop-price") (lit "{}"))
  /\ forall net,
      status (fst (run net (httpServer sample_String_error sample_env sample_now
                                       (POST (tools_marker ++ lit "crop-price") []))))
      <> 400%Z.
Proof.
  assert (P : JSON_parse (lit "{") = inl (SyntaxError_JSON (lit "{")))
    by (vm_compute; reflexivity).
  assert (N : lit "{" <> []) by discriminate.
  destruct (malformed_body_is_rejected sample_String_error sample_env sample_now
              (lit "crop-price") (lit "{") (SyntaxError_JSON (lit "{")) P)
    as (Tools & Others).
  split; [exact P|]. split; [exact N|]. split; [exact (Tools N)|exact Others].
Defined.

Lemma call_without_params_is_internal_error_witness :
  JSON_parse bare_call_text = inr bare_call
  /\ get bare_call (lit "method") = inr (str "tools/call")
  /\ get bare_call (lit "params") = inr VUndefined
  /\ let answer :=
       rpc_error (field bare_call "id")
         [("code" ~> VInt (-32603));
          ("message" ~>
           VStr (lit "Internal error: "
                   ++ sample_String_error (TypeError_destructure VUndefined)))] in
     handleMCPRequest sample_String_error sample_env bare_call = Ret (inr answer)
     /\ httpServer sample_String_error sample_env sample_now
                   (POST (lit "/mcp") bare_call_text)
        = Ret (json_response 200 answer)
     /\ status (json_response 200 answer) = 200%Z
     /\ field (field answer "error") "code" = VInt (-32603)
     /\ field answer "id" = field bare_call "id".
Proof.
  assert (P : JSON_parse bare_call_text = inr bare_call) by (vm_compute; reflexivity).
  split; [exact P|]. split; [reflexivity|]. split; [reflexivity|].
  exact (call_without_params_is_internal_error sample_String_error sample_env sample_now
           bare_call_text bare_call P eq_refl eq_refl).
Defined.

(** * Where the code departs from the specification *)

(** C2 fails for a field that is present and empty: the request
    [{state: ''}] holds [state], and the outbound query has no
    [filters[State]] entry. *)
Lemma empty_state_is_omitted :
  JSON_parse (jsontext "{'state':''}") = inr empty_state_args
  /\ lookup (lit "state") [("state" ~> VStr [])] = Some (VStr [])
  /\ first_call (cropPriceHandler sample_String_error sample_env empty_state_args)
     = Some (price_request empty_state_url)
  /\ cropPrice_urlParams (lit "price-key")
                         (PriceInputs (VStr []) VUndefined VUndefined (VInt 50) (VInt 0))
     = inr [(lit "api-key", lit "price-key"); (lit "format", lit "json");
            (lit "limit", lit "50"); (lit "offset", lit "0")]
  /\ has (lit "filters[State]")
         [(lit "api-key", lit "price-key"); (lit "format", lit "json");
          (lit "limit", lit "50"); (lit "offset", lit "0")] = false.
Proof. repeat split; vm_compute; reflexivity. Qed.

(** C3 fails for a total of zero next to records, which comes back as the
    count of the records, and for records that are present and [null], which
    come back as the empty sequence; and a body that parses to [null] gets a
    failure, not a Success. *)
Lemma zero_total_is_replaced_by_count :
  JSON_parse zero_total_text = inr zero_total_json
  /\ field zero_total_json "total" = VInt 0
  /\ (exists data,
        continuation sample_price_run (Response 200 zero_total_text)
        = Ret (inr (Success data))
        /\ field data "total" = VInt 1
        /\ field data "total" <> field zero_total_json "total")
  /\ JSON_parse null_records_text = inr null_records_json
  /\ lookup (lit "records") [("records" ~> VNull)] = Some VNull
  /\ (exists data,
        continuation sample_price_run (Response 200 null_records_text)
        = Ret (inr (Success data))
        /\ field data "records" = VArr [])
  /\ JSON_parse (lit "null") = inr VNull
  /\ continuation sample_price_run (Response 200 (lit "null"))
     = Ret (inr (server_error sample_String_error
                              (TypeError_read VNull (lit "records")))).
Proof.
  split; [vm_compute; reflexivity|]. split; [reflexivity|].
  split.
  { eexists. split; [vm_compute; reflexivity|]. split; [reflexivity|discriminate]. }
  split; [vm_compute; reflexivity|]. split; [reflexivity|].
  split.
  { eexists. split; [vm_compute; reflexivity|]. reflexivity. }
  split; vm_compute; reflexivity.
Qed.

(** C6 fails for an unknown name sent with a body that does not parse, which
    gets status 400; and a path [/tools/search/tools/x] is read as the tool
    [search], so that the unregistered name [search/tools/x] is handled. *)
Lemma unknown_tool_with_malformed_body_is_400 :
  Map_get (str "nope") (toolHandlers sample_String_error sample_env) = None
  /\ httpServer sample_String_error sample_env sample_now
                (POST (tools_marker ++ lit "nope") (lit "{"))
     = Ret (json_response 400
              (obj [("error" ~>
                     VStr (lit "Invalid request: "
                             ++ sample_String_error (SyntaxError_JSON (lit "{"))))]))
  /\ status (json_response 400 (obj [])) <> 404%Z
  /\ Map_get (str "search/tools/x") (toolHandlers sample_String_error no_keys) = None
  /\ httpServer sample_String_error no_keys sample_now
                (POST (tools_marker ++ lit "search/tools/x") (lit "{}"))
     = Ret (json_response 200 (Failure search_configuration_error)).
Proof.
  split; [reflexivity|]. split; [vm_compute; reflexivity|].
  split; [discriminate|]. split; [reflexivity|]. vm_compute; reflexivity.
Qed.

(** * Scenarios *)

(** [POST /tools/crop-price] with state, commodity and limit, against an
    upstream that returns one record and a total of one. *)
Lemma crop_price_scenario :
  let (response, calls) :=
    run sample_upstream
        (httpServer sample_String_error sample_env sample_now
                    (POST (lit "/tools/crop-price") sample_body)) in
  status response = 200%Z
  /\ body response
     = jsontext "{'success':true,'data':{'records':[{'State':'Punjab','Commodity':'Wheat','Price':'2100'}],'total':1,'limit':5,'offset':0,'query':{'state':'Punjab','commodity':'Wheat'}}}"
  /\ map out_url calls = [sample_price_url].
Proof. vm_compute. repeat split; reflexivity. Qed.

(** [tools/list] returns the two descriptors, [crop-price] and [search]. *)
Lemma tools_list_scenario :
  handleMCPRequest sample_String_error sample_env
                   (VObj [("id" ~> VInt 1); ("method" ~> str "tools/list")])
  = Ret (inr (rpc_result (VInt 1) (obj [("tools" ~> mcpTools)])))
  /\ match mcpTools with
     | VArr descriptors => map (fun d => field d "name") descriptors
     | _ => []
     end = [str "crop-price"; str "search"].
Proof. split; reflexivity. Qed.

(** * More of the handlers *)

Lemma startsWith_app (prefix rest : jstring) : startsWith (prefix ++ rest) prefix = true.
Proof. unfold startsWith. now rewrite strip_prefix_app. Qed.

Lemma run_settle {A} (net : outbound -> reply) (c : M A) (g : js_error -> A) :
  run net (settle c g)
  = (match fst (run net c) with inl e => g e | inr a => a end, snd (run net c)).
Proof.
  unfold settle. rewrite run_bind.
  destruct (run net c) as [[e|a] calls]; cbn; now rewrite app_nil_r.
Qed.

Section HandlerRuns.

Variable String_error : js_error -> jstring.
Variable env : environment.

Local Notation price := (cropPriceHandler String_error env).
Local Notation search := (searchHandler String_error env).

(** A run of the crop-price handler: it fails at once, or it issues its one
    call and returns what the response phase makes of the reply. *)
Lemma price_run (net : outbound -> reply) (params : value) :
  (run net (price params) = (inr (Failure price_configuration_error), [])
   /\ (DATAGOVIN_API_KEY env = None \/ DATAGOVIN_API_KEY env = Some []))
  \/ (exists e, run net (price params) = (inr (server_error String_error e), []))
  \/ (exists rq k i,
        price params = Fetch rq k
        /\ cropPrice_inputs params = inr i
        /\ run net (price params)
           = (inr (outcome String_error (cropPrice_response i) (net rq)), [rq])).
Proof.
  pose proof (cropPriceHandler_cases String_error env params) as C.
  destruct (DATAGOVIN_API_KEY env) as [[|c key]|].
  - left. rewrite C. split; [reflexivity|now right].
  - destruct (cropPrice_inputs params) as [e|i] eqn:I.
    + right. left. exists e. now rewrite C.
    + destruct (cropPrice_url env (c :: key) i) as [e|url].
      * right. left. exists e. now rewrite C.
      * right. right. destruct C as (k & E & K).
        exists (price_request url), k, i. split; [exact E|]. split; [reflexivity|].
        rewrite E. cbn [run]. rewrite K. reflexivity.
  - left. rewrite C. split; [reflexivity|now left].
Qed.

Lemma search_run (net : outbound -> reply) (params : value) :
  (run net (search params) = (inr (Failure search_configuration_error), [])
   /\ (EXA_API_KEY env = None \/ EXA_API_KEY env = Some []))
  \/ (exists e, run net (search params) = (inr (server_error String_error e), []))
  \/ (exists rq k i,
        search params = Fetch rq k
        /\ search_read params = inr i
        /\ run net (search params)
           = (inr (outcome String_error (search_response i) (net rq)), [rq])).
Proof.
  pose proof (searchHandler_cases String_error env params) as C.
  destruct (EXA_API_KEY env) as [[|c key]|].
  - left. rewrite C. split; [reflexivity|now right].
  - destruct (search_read params) as [e|i] eqn:I.
    + right. left. exists e. now rewrite C.
    + right. right. destruct C as (k & E & K).
      exists (search_request (c :: key) i), k, i. split; [exact E|].
      split; [reflexivity|]. rewrite E. cbn [run]. rewrite K. reflexivity.
  - left. rewrite C. split; [reflexivity|now left].
Qed.

Lemma search_fetch_inv (params : value) (rq : outbound) (k : reply -> M value) :
  search params = Fetch rq k ->
  exists API_KEY i,
    EXA_API_KEY env = Some API_KEY
    /\ API_KEY <> []
    /\ search_read params = inr i
    /\ rq = search_request API_KEY i
    /\ forall r, k r = Ret (inr (outcome String_error (search_response i) r)).
Proof.
  intros H. pose proof (searchHandler_cases String_error env params) as C.
  destruct (EXA_API_KEY env) as [[|c key]|];
    try (rewrite C in H; discriminate H).
  destruct (search_read params) as [e|i] eqn:I;
    [rewrite C in H; discriminate H|].
  destruct C as (k0 & E & K). rewrite E in H. injection H as <- <-.
  exists (c :: key), i. repeat split; auto. discriminate.
Qed.

Lemma price_continuation (params : value) (rq : outbound) (k : reply -> M value) :
  price params = Fetch rq k ->
  exists i,
    cropPrice_inputs params = inr i
    /\ forall r, k r = Ret (inr (outcome String_error (cropPrice_response i) r)).
Proof.
  intros H.
  destruct (price_fetch_inv String_error env _ _ _ H)
    as (key & i & resource & q & _ & I & _ & _ & _ & K).
  now exists i.
Qed.

(** X1. A reply with a status outside 200..299 makes either handler return
    the failure [HTTP <status> fetching ...: <body>], whatever the body: it
    is not parsed. *)
Theorem upstream_status_is_reported
        (params : value) (rq : outbound) (k : reply -> M value)
        (status : Z) (text : jstring) :
  ok status = false ->
  (price params = Fetch rq k ->
   k (Response status text)
   = Ret (inr (Failure (lit "HTTP " ++ number_to_string (of_Z status)
                          ++ lit " fetching data.gov.in: " ++ text))))
  /\ (search params = Fetch rq k ->
      k (Response status text)
      = Ret (inr (Failure (lit "HTTP " ++ number_to_string (of_Z status)
                             ++ lit " fetching EXA API: " ++ text)))).
Proof.
  intros Hok. split; intros H.
  - destruct (price_continuation _ _ _ H) as (i & _ & K). rewrite K.
    unfold outcome, cropPrice_response. now rewrite Hok.
  - destruct (search_fetch_inv _ _ _ H) as (key & i & _ & _ & _ & _ & K). rewrite K.
    unfold outcome, search_response. now rewrite Hok.
Qed.

(** X2. A reply with a success status whose body does not parse as JSON
    makes either handler return the failure [Invalid JSON response...: <body>]
    with the raw body. *)
Theorem upstream_garbage_is_reported
        (params : value) (rq : outbound) (k : reply -> M value)
        (status : Z) (text : jstring) (e : js_error) :
  ok status = true ->
  JSON_parse text = inl e ->
  (price params = Fetch rq k ->
   k (Response status text)
   = Ret (inr (Failure (lit "Invalid JSON response: " ++ text))))
  /\ (search params = Fetch rq k ->
      k (Response status text)
      = Ret (inr (Failure (lit "Invalid JSON response from EXA: " ++ text)))).
Proof.
  intros Hok Hparse. split; intros H.
  - destruct (price_continuation _ _ _ H) as (i & _ & K). rewrite K.
    unfold outcome, cropPrice_response. now rewrite Hok, Hparse.
  - destruct (search_fetch_inv _ _ _ H) as (key & i & _ & _ & _ & _ & K). rewrite K.
    unfold outcome, search_response. now rewrite Hok, Hparse.
Qed.

Lemma handlers_run_shape (net : outbound -> reply) (params : value) :
  (exists r calls,
      run net (price params) = (inr (result_object r), calls)
      /\ well_formed r /\ List.length calls <= 1)
  /\ (exists r calls,
         run net (search params) = (inr (result_object r), calls)
         /\ well_formed r /\ List.length calls <= 1).
Proof.
  split.
  - destruct (price_run net params) as [[E _]|[(e & E)|(rq & k & i & _ & _ & E)]].
    + destruct (proj1 shaped_configuration_errors) as (r & R & W).
      exists r, []. rewrite E, R. repeat split; auto.
    + destruct (shaped_server_error String_error e) as (r & R & W).
      exists r, []. rewrite E, R. repeat split; auto.
    + destruct (outcome_shaped String_error (cropPrice_response i) (net rq)
                               (cropPrice_response_shaped i)) as (r & R & W).
      exists r, [rq]. rewrite E, R. repeat split; auto.
  - destruct (search_run net params) as [[E _]|[(e & E)|(rq & k & i & _ & _ & E)]].
    + destruct (proj2 shaped_configuration_errors) as (r & R & W).
      exists r, []. rewrite E, R. repeat split; auto.
    + destruct (shaped_server_error String_error e) as (r & R & W).
      exists r, []. rewrite E, R. repeat split; auto.
    + destruct (outcome_shaped String_error (search_response i) (net rq)
                               (search_response_shaped i)) as (r & R & W).
      exists r, [rq]. rewrite E, R. repeat split; auto.
Qed.

(** X3. Against every upstream, also one whose calls are rejected, either
    handler returns: it never throws, its result is a Success or a Failure
    with a non-empty message, and it has issued at most one outbound call. *)
Theorem handlers_return_after_at_most_one_call
        (net : outbound -> reply) (params : value) :
  (exists r calls,
      run net (price params) = (inr (result_object r), calls)
      /\ well_formed r /\ List.length calls <= 1)
  /\ (exists r calls,
         run net (search params) = (inr (result_object r), calls)
         /\ well_formed r /\ List.length calls <= 1).
Proof. exact (handlers_run_shape net params). Qed.

(** X4. A rejected call (the network fails, or the body cannot be read)
    becomes the failure [Server error: <error>] of either handler. *)
Theorem rejected_call_is_a_server_error
        (params : value) (rq : outbound) (k : reply -> M value) (e : js_error) :
  (price params = Fetch rq k \/ search params = Fetch rq k) ->
  k (Rejected e) = Ret (inr (Failure (lit "Server error: " ++ String_error e))).
Proof.
  intros [H|H].
  - destruct (price_continuation _ _ _ H) as (i & _ & K). now rewrite K.
  - destruct (search_fetch_inv _ _ _ H) as (key & i & _ & _ & _ & _ & K). now rewrite K.
Qed.

(** X5. A key set to the empty string counts as missing: the handler
    returns its configuration error and issues no call. *)
Theorem empty_key_is_missing (params : value) :
  (DATAGOVIN_API_KEY env = Some [] ->
   price params = Ret (inr (Failure price_configuration_error)))
  /\ (EXA_API_KEY env = Some [] ->
      search params = Ret (inr (Failure search_configuration_error))).
Proof.
  split; intros K.
  - pose proof (cropPriceHandler_cases String_error env params) as C.
    now rewrite K in C.
  - pose proof (searchHandler_cases String_error env params) as C.
    now rewrite K in C.
Qed.

(** X6. With its key set, a handler called with [null] or [undefined]
    instead of a mapping returns a server-error failure for the failed
    destructuring, and issues no call. *)
Theorem nullish_params_fail_without_call (params : value) (c : N) (key : jstring) :
  nullish params = true ->
  (DATAGOVIN_API_KEY env = Some (c :: key) ->
   price params
   = Ret (inr (Failure (lit "Server error: "
                          ++ String_error (TypeError_destructure params)))))
  /\ (EXA_API_KEY env = Some (c :: key) ->
      search params
      = Ret (inr (Failure (lit "Server error: "
                             ++ String_error (TypeError_destructure params))))).
Proof.
  intros N. split; intros K.
  - pose proof (cropPriceHandler_cases String_error env params) as C.
    rewrite K in C. unfold cropPrice_inputs, destructurable in C.
    rewrite N in C. exact C.
  - pose proof (searchHandler_cases String_error env params) as C.
    rewrite K in C. unfold search_read, destructurable in C.
    rewrite N in C. exact C.
Qed.

Lemma price_outcome_success (i : price_inputs) (r : reply) (data : value) :
  outcome String_error (cropPrice_response i) r = Success data ->
  exists status text json,
    r = Response status text /\ ok status = true /\ JSON_parse text = inr json
    /\ field data "query"
       = VObj [(lit "state", state i); (lit "district", district i);
               (lit "commodity", commodity i)].
Proof.
  unfold outcome. destruct r as [status text|e]; [|discriminate].
  unfold cropPrice_response.
  destruct (ok status) eqn:Hok; cbn [negb]; [|discriminate].
  destruct (JSON_parse text) as [e|json] eqn:P; [discriminate|].
  destruct (get json (lit "records")) as [e|records]; [discriminate|]. cbn [ebind].
  destruct (get json (lit "total")) as [e|total]; [discriminate|]. cbn [ebind].
  destruct (get _ (lit "length")) as [e|len]; [discriminate|]. cbn [ebind].
  intros [= <-]. exists status, text, json. repeat split; auto.
Qed.

Lemma search_outcome_success (i : search_inputs) (r : reply) (data : value) :
  outcome String_error (search_response i) r = Success data ->
  exists status text,
    r = Response status text /\ ok status = true
    /\ search_response i status text = inr (Success data).
Proof.
  unfold outcome. destruct r as [status text|e]; [|discriminate].
  destruct (search_response i status text) as [e|v] eqn:E; [discriminate|].
  intros ->. exists status, text. repeat split; auto.
  unfold search_response in E. destruct (ok status); [reflexivity|].
  cbn [negb] in E. discriminate E.
Qed.

(** X7. A Success is never made up: when a handler returns one it has
    issued exactly one call, and the upstream has answered that call with a
    success status and a body that parses as JSON; the call of the crop-price
    handler is a [GET] of the data.gov.in resource, that of the search
    handler a [POST] to the EXA endpoint. *)
Theorem success_comes_from_upstream
        (net : outbound -> reply) (params data : value) (calls : list outbound) :
  (run net (price params) = (inr (Success data), calls) ->
   exists rq status text json,
     calls = [rq]
     /\ net rq = Response status text
     /\ ok status = true
     /\ JSON_parse text = inr json
     /\ out_method rq = lit "GET"
     /\ has_prefix "https://api.data.gov.in/resource/" (out_url rq))
  /\ (run net (search params) = (inr (Success data), calls) ->
      exists rq status text json,
        calls = [rq]
        /\ net rq = Response status text
        /\ ok status = true
        /\ JSON_parse text = inr json
        /\ out_method rq = lit "POST"
        /\ out_url rq = lit "https://api.exa.ai/search").
Proof.
  split; intros H.
  - destruct (price_run net params) as [[E _]|[(e & E)|(rq & k & i & F & _ & E)]];
      rewrite E in H; try discriminate H.
    injection H as H Hc. subst calls.
    destruct (price_outcome_success _ _ _ H) as (status & text & json & R & Hok & P & _).
    exists rq, status, text, json.
    destruct (price_fetch_inv String_error env _ _ _ F)
      as (key & i' & resource & q & _ & _ & _ & _ & Rq & _).
    repeat split; auto; rewrite Rq; [reflexivity|].
    unfold has_prefix, price_request. cbn [out_url].
    rewrite <- app_assoc. apply startsWith_app.
  - destruct (search_run net params) as [[E _]|[(e & E)|(rq & k & i & F & _ & E)]];
      rewrite E in H; try discriminate H.
    injection H as H Hc. subst calls.
    destruct (search_outcome_success _ _ _ H) as (status & text & R & Hok & S).
    unfold search_response in S. rewrite Hok in S. cbn [negb] in S.
    destruct (JSON_parse text) as [e|json] eqn:P; [discriminate S|].
    exists rq, status, text, json.
    destruct (search_fetch_inv _ _ _ F) as (key & i' & _ & _ & _ & Rq & _).
    repeat split; auto; rewrite Rq; reflexivity.
Qed.

Lemma price_outcome_failure (i : price_inputs) (r : reply) (m : jstring) :
  outcome String_error (cropPrice_response i) r = Failure m ->
  has_prefix "Server error: " m \/ has_prefix "HTTP " m
  \/ has_prefix "Invalid JSON response: " m.
Proof.
  unfold outcome. destruct r as [status text|e].
  - destruct (cropPrice_response i status text) as [e|v] eqn:E.
    + intros [= <-]. left. reflexivity.
    + intros ->. unfold cropPrice_response in E.
      destruct (negb (ok status)); [injection E as <-; right; left; reflexivity|].
      destruct (JSON_parse text) as [e|json];
        [injection E as <-; right; right; reflexivity|].
      destruct (get json (lit "records")) as [e|records]; [discriminate|].
      cbn [ebind] in E.
      destruct (get json (lit "total")) as [e|total]; [discriminate|].
      cbn [ebind] in E.
      destruct (get _ (lit "length")) as [e|len]; discriminate.
  - intros [= <-]. left. reflexivity.
Qed.

Lemma search_outcome_failure (i : search_inputs) (r : reply) (m : jstring) :
  outcome String_error (search_response i) r = Failure m ->
  has_prefix "Server error: " m \/ has_prefix "HTTP " m
  \/ has_prefix "Invalid JSON response from EXA: " m.
Proof.
  unfold outcome. destruct r as [status text|e].
  - destruct (search_response i status text) as [e|v] eqn:E.
    + intros [= <-]. left. reflexivity.
    + intros ->. unfold search_response in E.
      destruct (negb (ok status)); [injection E as <-; right; left; reflexivity|].
      destruct (JSON_parse text) as [e|json];
        [injection E as <-; right; right; reflexivity|].
      destruct (get json (lit "results")) as [e|results]; [discriminate|].
      cbn [ebind] in E.
      destruct (Array_map mapResult _) as [e|mapped]; [discriminate|].
      cbn [ebind] in E.
      destruct (get _ (lit "length")) as [e|len]; discriminate.
  - intros [= <-]. left. reflexivity.
Qed.

(** X8. Every failure of a handler is of one of four kinds, told by the
    start of its message: the configuration error, returned before any call;
    a server error; an upstream status [HTTP ...] or an invalid upstream
    body, both returned after the one call. *)
Theorem failures_are_of_four_kinds
        (net : outbound -> reply) (params : value) (m : jstring)
        (calls : list outbound) :
  (run net (price params) = (inr (Failure m), calls) ->
   (m = price_configuration_error /\ calls = [])
   \/ has_prefix "Server error: " m
   \/ (has_prefix "HTTP " m /\ List.length calls = 1)
   \/ (has_prefix "Invalid JSON response: " m /\ List.length calls = 1))
  /\ (run net (search params) = (inr (Failure m), calls) ->
      (m = search_configuration_error /\ calls = [])
      \/ has_prefix "Server error: " m
      \/ (has_prefix "HTTP " m /\ List.length calls = 1)
      \/ (has_prefix "Invalid JSON response from EXA: " m /\ List.length calls = 1)).
Proof.
  split; intros H.
  - destruct (price_run net params) as [[E _]|[(e & E)|(rq & k & i & _ & _ & E)]];
      rewrite E in H.
    + left. injection H as <- <-. now split.
    + right. left. injection H as <- <-. reflexivity.
    + injection H as H Hc. subst calls.
      destruct (price_outcome_failure _ _ _ H) as [P|[P|P]]; auto.
  - destruct (search_run net params) as [[E _]|[(e & E)|(rq & k & i & _ & _ & E)]];
      rewrite E in H.
    + left. injection H as <- <-. now split.
    + right. left. injection H as <- <-. reflexivity.
    + injection H as H Hc. subst calls.
      destruct (search_outcome_failure _ _ _ H) as [P|[P|P]]; auto.
Qed.

End HandlerRuns.

(** ** Keyed lists *)

Lemma jstring_eqb_sym (a b : jstring) : jstring_eqb a b = jstring_eqb b a.
Proof.
  destruct (jstring_eqb a b) eqn:E.
  - apply jstring_eqb_eq in E as ->. symmetry. apply jstring_eqb_refl.
  - destruct (jstring_eqb b a) eqn:E'; [|reflexivity].
    apply jstring_eqb_eq in E' as ->. now rewrite jstring_eqb_refl in E.
Qed.

(** What was set last under a key is what a lookup finds, and setting one
    key leaves the others as they were. *)
Lemma lookup_assoc_set {A} (k k' : jstring) (v : A) (entries : list (jstring * A)) :
  lookup k (assoc_set k' v entries)
  = if jstring_eqb k k' then Some v else lookup k entries.
Proof.
  induction entries as [|[k0 v0] entries IH]; cbn.
  - reflexivity.
  - destruct (jstring_eqb k' k0) eqn:E0; cbn.
    + apply jstring_eqb_eq in E0 as <-.
      destruct (jstring_eqb k k'); reflexivity.
    + rewrite IH. destruct (jstring_eqb k k0) eqn:E1; [|reflexivity].
      destruct (jstring_eqb k k') eqn:E; [|reflexivity].
      apply jstring_eqb_eq in E as ->. congruence.
Qed.

Lemma lookup_assign_if (k k' : jstring) (v : value) (props : list (jstring * value)) :
  lookup k (assign_if k' v props)
  = if truthy v && jstring_eqb k k' then Some v else lookup k props.
Proof.
  unfold assign_if, set_prop. destruct (truthy v); [|reflexivity].
  apply lookup_assoc_set.
Qed.

Lemma emap_Forall2 {A B} (f : A -> exc B) (xs : list A) (ys : list B) :
  emap f xs = inr ys -> Forall2 (fun x y => f x = inr y) xs ys.
Proof.
  revert ys. induction xs as [|x xs IH]; cbn; intros ys H.
  - injection H as <-. constructor.
  - destruct (f x) as [e|y] eqn:E; [discriminate|]. cbn [ebind] in H.
    destruct (emap f xs) as [e|ys'] eqn:E'; [discriminate|]. cbn [ebind] in H.
    injection H as <-. constructor; auto.
Qed.

Lemma emap_fails {A B} (f : A -> exc B) (xs : list A) (x : A) (e : js_error) :
  In x xs -> f x = inl e -> exists e', emap f xs = inl e'.
Proof.
  induction xs as [|y xs IH]; cbn; [contradiction|].
  intros [->|H] F.
  - rewrite F. now exists e.
  - destruct (f y) as [e0|b]; [now exists e0|]. cbn [ebind].
    destruct (IH H F) as (e' & ->). now exists e'.
Qed.

(** ** The search callback *)

Lemma mapResult_renders_iff (result : value) :
  (exists mapped, mapResult result = inr mapped)
  <-> nullish result = false /\ usable_text (field result "text") = true.
Proof.
  destruct (nullish result) eqn:N.
  - split; [|intros [D _]; discriminate D].
    intros (m & H). destruct result; discriminate.
  - unfold mapResult. rewrite !(get_field result) by assumption. cbn [ebind].
    destruct (field result "text") as [| |b|n|s|items|props]; cbn; split;
      try (intros _; split; reflexivity);
      try (intros (m & H); discriminate H);
      try (intros [_ D]; discriminate D);
      intros _; eexists; reflexivity.
Qed.

(** X9. The search callback renders an upstream entry exactly when the
    entry is not [null] and its [text] is a string or is missing; on any
    other entry (a [null] entry, a numeric or structured [text]) it throws. *)
Theorem mapResult_succeeds_iff (result : value) :
  (exists mapped, mapResult result = inr mapped)
  <-> nullish result = false /\ usable_text (field result "text") = true.
Proof. exact (mapResult_renders_iff result). Qed.

Lemma field_of_get (v : value) (k : string) (x : value) :
  get v (lit k) = inr x -> field v k = x.
Proof. unfold field. now intros ->. Qed.

Lemma search_read_inv (params : value) (i : search_inputs) :
  search_read params = inr i ->
  nullish params = false
  /\ i = SearchInputs (field params "query")
                      (match field params "num_results" with
                       | VUndefined => VInt 5
                       | v => v
                       end)
                      (field params "include_domains")
                      (field params "exclude_domains")
                      (field params "start_crawl_date")
                      (field params "end_crawl_date").
Proof.
  unfold search_read, destructurable. destruct (nullish params) eqn:N;
    [discriminate|]. cbn [ebind].
  rewrite !(get_field params) by assumption. cbn [ebind].
  intros [= <-]. split; [reflexivity|].
  destruct (field params "num_results"); reflexivity.
Qed.

Lemma cropPrice_urlParams_names (API_KEY : jstring) (i : price_inputs)
      (q : URLSearchParams) :
  cropPrice_urlParams API_KEY i = inr q ->
  map fst q
  = [lit "api-key"; lit "format"; lit "limit"; lit "offset"]
      ++ (if truthy (state i) then [lit "filters[State]"] else [])
      ++ (if truthy (district i) then [lit "filters[District]"] else [])
      ++ (if truthy (commodity i) then [lit "filters[Commodity]"] else [])
  /\ get_param (lit "api-key") q = Some API_KEY
  /\ get_param (lit "format") q = Some (lit "json").
Proof.
  intros Q.
  apply cropPrice_urlParams_inv in Q as (lt & ot & q1 & q2 & _ & _ & A1 & A2 & A3).
  split; [|split].
  - destruct (append_if_inv _ _ _ _ A1) as [[-> ->]|[-> (t1 & _ & ->)]];
      destruct (append_if_inv _ _ _ _ A2) as [[-> ->]|[-> (t2 & _ & ->)]];
      destruct (append_if_inv _ _ _ _ A3) as [[-> ->]|[-> (t3 & _ & ->)]];
      rewrite ?map_app; reflexivity.
  - apply (get_param_append_if _ _ _ _ _ _ A3), (get_param_append_if _ _ _ _ _ _ A2),
      (get_param_append_if _ _ _ _ _ _ A1). reflexivity.
  - apply (get_param_append_if _ _ _ _ _ _ A3), (get_param_append_if _ _ _ _ _ _ A2),
      (get_param_append_if _ _ _ _ _ _ A1). reflexivity.
Qed.

Ltac distinct_names :=
  repeat (constructor;
          [cbn [In]; intros D;
           repeat (destruct D as [D|D]; [discriminate D|]); exact D|]);
  constructor.

Section Requests.

Variable String_error : js_error -> jstring.
Variable env : environment.

Local Notation price := (cropPriceHandler String_error env).
Local Notation search := (searchHandler String_error env).

(** X10. The query of the crop-price call is laid out in a fixed order:
    [api-key] with the configured key, [format=json], [limit], [offset], then
    the filters that are sent, State before District before Commodity; and
    no name occurs twice. *)
Theorem price_query_layout
        (params : value) (rq : outbound) (k : reply -> M value) :
  price params = Fetch rq k ->
  exists q,
    outbound_query env params rq q
    /\ map fst q
       = [lit "api-key"; lit "format"; lit "limit"; lit "offset"]
           ++ (if truthy (field params "state") then [lit "filters[State]"] else [])
           ++ (if truthy (field params "district") then [lit "filters[District]"] else [])
           ++ (if truthy (field params "commodity")
               then [lit "filters[Commodity]"] else [])
    /\ get_param (lit "api-key") q = DATAGOVIN_API_KEY env
    /\ get_param (lit "format") q = Some (lit "json")
    /\ NoDup (map fst q)
    /\ out_method rq = lit "GET"
    /\ out_body rq = None.
Proof.
  intros H.
  destruct (price_fetch_inv String_error env _ _ _ H)
    as (key & i & resource & q & K & I & R & Q & -> & _).
  exists q. split; [now exists key, i, resource|].
  destruct (cropPrice_urlParams_names _ _ _ Q) as (Names & Key & Format).
  apply cropPrice_inputs_inv in I as [_ ->]. cbn [state district commodity] in Names.
  split; [exact Names|]. split; [now rewrite K|]. split; [exact Format|].
  split; [|split; reflexivity].
  rewrite Names.
  destruct (truthy (field params "state")), (truthy (field params "district")),
    (truthy (field params "commodity")); cbv; distinct_names.
Qed.

(** X11. A Success of the crop-price handler echoes the three filter
    inputs as they were received, also those that were not sent because
    they are falsy. *)
Theorem price_success_echoes_query
        (params : value) (rq : outbound) (k : reply -> M value)
        (r : reply) (data : value) :
  price params = Fetch rq k ->
  k r = Ret (inr (Success data)) ->
  field data "query"
  = VObj [(lit "state", field params "state");
          (lit "district", field params "district");
          (lit "commodity", field params "commodity")].
Proof.
  intros H E.
  destruct (price_continuation String_error env _ _ _ H) as (i & I & K).
  rewrite K in E. injection E as E.
  destruct (price_outcome_success String_error _ _ _ E) as (_ & _ & _ & _ & _ & _ & Q).
  apply cropPrice_inputs_inv in I as [_ ->]. exact Q.
Qed.

(** X12. The search call is one [POST] to the EXA endpoint carrying the
    configured key in [x-api-key]; its body is the JSON of an object with
    the query, the fixed flags [use_autoprompt] and [contents.text], and each
    optional parameter exactly when its input is truthy. *)
Theorem search_request_layout
        (params : value) (rq : outbound) (k : reply -> M value) :
  search params = Fetch rq k ->
  exists props,
    out_url rq = lit "https://api.exa.ai/search"
    /\ out_method rq = lit "POST"
    /\ out_headers rq = [(lit "Content-Type", lit "application/json");
                         (lit "x-api-key", exa_key_of env)]
    /\ out_body rq = JSON_stringify (VObj props)
    /\ lookup (lit "query") props = Some (field params "query")
    /\ lookup (lit "use_autoprompt") props = Some (VBool true)
    /\ lookup (lit "contents") props = Some (VObj [(lit "text", VBool true)])
    /\ forall name,
        In name search_optional ->
        lookup (lit name) props
        = if truthy (field params name) then Some (field params name) else None.
Proof.
  intros H.
  destruct (search_fetch_inv String_error env _ _ _ H) as (key & i & K & _ & I & -> & _).
  apply search_read_inv in I as [_ ->].
  unfold search_request, search_requestBody, exa_key_of. rewrite K.
  cbn [query num_results include_domains exclude_domains start_crawl_date
       end_crawl_date out_url out_method out_headers out_body].
  eexists. split; [reflexivity|]. split; [reflexivity|]. split; [reflexivity|].
  split; [reflexivity|].
  split; [|split; [|split]].
  - rewrite !lookup_assign_if.
    destruct (truthy (field params "include_domains")),
      (truthy (field params "exclude_domains")),
      (truthy (field params "start_crawl_date")),
      (truthy (field params "end_crawl_date")); reflexivity.
  - rewrite !lookup_assign_if.
    destruct (truthy (field params "include_domains")),
      (truthy (field params "exclude_domains")),
      (truthy (field params "start_crawl_date")),
      (truthy (field params "end_crawl_date")); reflexivity.
  - rewrite !lookup_assign_if.
    destruct (truthy (field params "include_domains")),
      (truthy (field params "exclude_domains")),
      (truthy (field params "start_crawl_date")),
      (truthy (field params "end_crawl_date")); reflexivity.
  - intros name [<-|[<-|[<-|[<-|[]]]]]; rewrite !lookup_assign_if;
      destruct (truthy (field params "include_domains")),
        (truthy (field params "exclude_domains")),
        (truthy (field params "start_crawl_date")),
        (truthy (field params "end_crawl_date")); reflexivity.
Qed.

(** X13. [num_results] is sent as received, and as [5] only when it is
    absent: a [null], unlike an absent field, is passed on as [null]. *)
Theorem num_results_defaults_only_when_absent
        (params : value) (rq : outbound) (k : reply -> M value) :
  search params = Fetch rq k ->
  exists props,
    out_body rq = JSON_stringify (VObj props)
    /\ (field params "num_results" = VUndefined ->
        lookup (lit "num_results") props = Some (VInt 5))
    /\ (field params "num_results" <> VUndefined ->
        lookup (lit "num_results") props = Some (field params "num_results"))
    /\ (field params "num_results" = VNull ->
        lookup (lit "num_results") props = Some VNull).
Proof.
  intros H.
  destruct (search_fetch_inv String_error env _ _ _ H) as (key & i & K & _ & I & -> & _).
  apply search_read_inv in I as [_ ->].
  unfold search_request, search_requestBody.
  cbn [query num_results include_domains exclude_domains start_crawl_date
       end_crawl_date out_body].
  eexists. split; [reflexivity|].
  assert (L : forall v, lookup (lit "num_results")
                (assign_if (lit "end_crawl_date") (field params "end_crawl_date")
                   (assign_if (lit "start_crawl_date") (field params "start_crawl_date")
                      (assign_if (lit "exclude_domains") (field params "exclude_domains")
                         (assign_if (lit "include_domains")
                            (field params "include_domains")
                            [(lit "query", field params "query");
                             (lit "num_results", v);
                             (lit "use_autoprompt", VBool true);
                             (lit "contents", VObj [(lit "text", VBool true)])]))))
              = Some v).
  { intros v. rewrite !lookup_assign_if.
    destruct (truthy (field params "include_domains")),
      (truthy (field params "exclude_domains")),
      (truthy (field params "start_crawl_date")),
      (truthy (field params "end_crawl_date")); reflexivity. }
  rewrite L. split; [now intros ->|]. split; [|now intros ->].
  intros D. destruct (field params "num_results"); try reflexivity. now contradiction D.
Qed.

End Requests.

Section SearchResults.

Variable String_error : js_error -> jstring.
Variable env : environment.

Local Notation search := (searchHandler String_error env).

Lemma search_continuation (params : value) (rq : outbound) (k : reply -> M value) :
  search params = Fetch rq k ->
  exists i,
    query i = field params "query"
    /\ forall r, k r = Ret (inr (outcome String_error (search_response i) r)).
Proof.
  intros H.
  destruct (search_fetch_inv String_error env _ _ _ H) as (key & i & _ & _ & I & _ & K).
  exists i. split; [|exact K]. now apply search_read_inv in I as [_ ->].
Qed.

(** X14. A Success of the search handler holds one mapped entry for each
    upstream entry, in the upstream order, each the callback's rendering of
    its entry; [total_results] is the number of upstream entries, and the
    caller's query is echoed. *)
Theorem search_success_maps_every_entry
        (params : value) (rq : outbound) (k : reply -> M value)
        (r : reply) (data : value) :
  search params = Fetch rq k ->
  k r = Ret (inr (Success data)) ->
  exists status text json entries mapped,
    r = Response status text
    /\ JSON_parse text = inr json
    /\ or_else (field json "results") (VArr []) = VArr entries
    /\ field data "results" = VArr mapped
    /\ Forall2 (fun entry shown => mapResult entry = inr shown) entries mapped
    /\ List.length mapped = List.length entries
    /\ field data "total_results" = VNum (of_nat (List.length entries))
    /\ field data "query" = field params "query".
Proof.
  intros H E.
  destruct (search_continuation _ _ _ H) as (i & Q & K).
  rewrite K in E. injection E as E.
  destruct (search_outcome_success String_error _ _ _ E) as (status & text & R & _ & S).
  destruct (search_response_results _ _ _ _ S)
    as (json & entries & mapped & P & O & M & ->).
  apply emap_Forall2 in M.
  exists status, text, json, entries, mapped.
  split; [exact R|]. split; [exact P|]. split; [exact O|]. split; [reflexivity|].
  split; [exact M|]. split; [symmetry; exact (Forall2_length M)|].
  split; [reflexivity|]. exact Q.
Qed.

(** X15. One entry the callback cannot render fails the whole search: if
    the upstream results hold a [null] entry, or an entry whose [text] is
    neither a string nor missing, the handler returns a server-error failure
    and none of the other entries. *)
Theorem one_bad_entry_fails_the_search
        (params : value) (rq : outbound) (k : reply -> M value)
        (status : Z) (text : jstring) (json : value)
        (entries : list value) (entry : value) :
  search params = Fetch rq k ->
  ok status = true ->
  JSON_parse text = inr json ->
  field json "results" = VArr entries ->
  In entry entries ->
  nullish entry = true \/ usable_text (field entry "text") = false ->
  exists e,
    k (Response status text)
    = Ret (inr (Failure (lit "Server error: " ++ String_error e))).
Proof.
  intros H Hok P R I Bad.
  destruct (search_continuation _ _ _ H) as (i & _ & K). rewrite K.
  assert (G : get json (lit "results") = inr (VArr entries)).
  { unfold field in R. destruct (get json (lit "results")); [discriminate R|].
    now rewrite R. }
  assert (F : exists e, mapResult entry = inl e).
  { destruct (mapResult entry) as [e|m] eqn:E; [now exists e|].
    destruct (proj1 (mapResult_renders_iff entry) (ex_intro _ m E)) as [N U].
    destruct Bad as [B|B]; congruence. }
  destruct F as (e & F).
  destruct (emap_fails mapResult entries entry e I F) as (e' & E').
  exists e'. unfold outcome, search_response. rewrite Hok, P, G.
  cbn [negb ebind or_else truthy Array_map]. now rewrite E'.
Qed.

(** X16. Upstream results that are missing or falsy give a Success with
    no results and a count of zero; results that are truthy and not a
    sequence give a server-error failure. *)
Theorem search_results_must_be_a_sequence
        (params : value) (rq : outbound) (k : reply -> M value)
        (status : Z) (text : jstring) (json : value) :
  search params = Fetch rq k ->
  ok status = true ->
  JSON_parse text = inr json ->
  json <> VNull ->
  (truthy (field json "results") = false ->
   k (Response status text)
   = Ret (inr (Success (VObj [(lit "results", VArr []);
                              (lit "total_results", VInt 0);
                              (lit "query", field params "query")]))))
  /\ (truthy (field json "results") = true ->
      (forall entries, field json "results" <> VArr entries) ->
      k (Response status text)
      = Ret (inr (Failure
                    (lit "Server error: "
                       ++ String_error
                            (TypeError_not_a_function (field json "results")
                                                      (lit "map")))))).
Proof.
  intros H Hok P N.
  destruct (search_continuation _ _ _ H) as (i & Q & K). rewrite K.
  pose proof (JSON_parse_not_null _ _ P N) as Nj.
  unfold outcome, search_response. rewrite Hok, P, (get_field json "results" Nj).
  cbn [negb ebind]. unfold or_else. split; intros T.
  - rewrite T. cbn [Array_map emap ebind get]. rewrite Q. reflexivity.
  - intros NA. rewrite T.
    destruct (field json "results") as [| |b|n|s|items|props]; try reflexivity.
    now contradiction (NA items).
Qed.

(** *** The text of a mapped entry *)

Lemma Forall2_nth_error {A B} (R : A -> B -> Prop) (xs : list A) (ys : list B)
      (n : nat) (x : A) :
  Forall2 R xs ys -> nth_error xs n = Some x ->
  exists y, nth_error ys n = Some y /\ R x y.
Proof.
  intros F. revert n. induction F as [|x0 y0 xs ys R0 F IH]; intros [|n]; cbn;
    try discriminate.
  - intros [= <-]. now exists y0.
  - apply IH.
Qed.

Lemma emap_renderable (entries : list value) :
  forallb renderable entries = true ->
  exists mapped, emap mapResult entries = inr mapped.
Proof.
  induction entries as [|entry entries IH]; cbn [forallb emap]; [now exists []|].
  intros H. apply andb_true_iff in H as [Hr Hrest].
  unfold renderable in Hr. apply andb_true_iff in Hr as [Hn Hu].
  apply negb_true_iff in Hn.
  destruct (proj2 (mapResult_renders_iff entry) (conj Hn Hu)) as (m & ->).
  destruct (IH Hrest) as (mapped & ->). cbn [ebind]. now eexists.
Qed.

(** What the handler makes of an upstream answer all of whose entries the
    callback renders. *)
Lemma search_renders (params : value) (rq : outbound) (k : reply -> M value)
      (status : Z) (text : jstring) (json : value) (entries : list value) :
  search params = Fetch rq k ->
  ok status = true ->
  JSON_parse text = inr json ->
  field json "results" = VArr entries ->
  forallb renderable entries = true ->
  exists mapped,
    k (Response status text)
    = Ret (inr (Success
                  (VObj [(lit "results", VArr mapped);
                         (lit "total_results", VNum (of_nat (List.length entries)));
                         (lit "query", field params "query")])))
    /\ Forall2 (fun entry shown => mapResult entry = inr shown) entries mapped.
Proof.
  intros H Hok P R Hr.
  destruct (search_continuation _ _ _ H) as (i & Q & K). rewrite K.
  assert (G : get json (lit "results") = inr (VArr entries)).
  { unfold field in R. destruct (get json (lit "results")); [discriminate R|].
    now rewrite R. }
  destruct (emap_renderable entries Hr) as (mapped & E).
  exists mapped. split; [|exact (emap_Forall2 _ _ _ E)].
  unfold outcome, search_response. rewrite Hok, P, G.
  cbn [negb ebind or_else truthy Array_map]. rewrite E. cbn [ebind get].
  change (jstring_eqb (lit "length") (lit "length")) with true. cbn iota.
  now rewrite Q.
Qed.

(** C4. For an upstream answer with a success status whose results the
    callback renders, the search handler returns a Success with one mapped
    entry for each upstream entry, at the same place; for an upstream entry
    whose [text] is a string, the mapped entry's [text] is its first 500
    characters, followed by the marker [...] exactly when the original is
    longer than 500: a text of at most 500 characters, so one of exactly 500,
    comes back unmodified. *)
Theorem search_truncates_text
        (params : value) (rq : outbound) (k : reply -> M value)
        (status : Z) (text : jstring) (json : value) (entries : list value) :
  search params = Fetch rq k ->
  ok status = true ->
  JSON_parse text = inr json ->
  field json "results" = VArr entries ->
  forallb renderable entries = true ->
  exists mapped,
    k (Response status text)
    = Ret (inr (Success
                  (VObj [(lit "results", VArr mapped);
                         (lit "total_results", VNum (of_nat (List.length entries)));
                         (lit "query", field params "query")])))
    /\ List.length mapped = List.length entries
    /\ forall n entry s,
        nth_error entries n = Some entry ->
        get entry (lit "text") = inr (VStr s) ->
        exists shown_entry shown,
          nth_error mapped n = Some shown_entry
          /\ get shown_entry (lit "text") = inr (VStr shown)
          /\ shown = substring 0 500 s
                       ++ (if (500 <? List.length s)%nat then lit "..." else [])
          /\ (List.length s <= 500 -> shown = s)
          /\ (500 < List.length s -> shown = firstn 500 s ++ lit "..."
                                     /\ List.length shown = 503).
Proof.
  intros H Hok P R Hr.
  destruct (search_renders params rq k status text json entries H Hok P R Hr)
    as (mapped & E & F).
  exists mapped. split; [exact E|]. split; [symmetry; exact (Forall2_length F)|].
  intros n entry s Hn Ht.
  destruct (Forall2_nth_error _ _ _ n entry F Hn) as (shown_entry & Hm & M).
  destruct (mapResult_on_text entry s Ht) as (mapped_entry & shown & M' & T).
  rewrite M in M'. injection M' as <-.
  now exists shown_entry, shown.
Qed.

(** C9. In the same Success, the mapped entry of an upstream entry with no
    [text] field carries the text [undefined], nine characters long: it is a
    string, not an absent, null or empty field. *)
Theorem search_absent_text_is_undefined_string
        (params : value) (rq : outbound) (k : reply -> M value)
        (status : Z) (text : jstring) (json : value) (entries : list value) :
  search params = Fetch rq k ->
  ok status = true ->
  JSON_parse text = inr json ->
  field json "results" = VArr entries ->
  forallb renderable entries = true ->
  exists mapped,
    k (Response status text)
    = Ret (inr (Success
                  (VObj [(lit "results", VArr mapped);
                         (lit "total_results", VNum (of_nat (List.length entries)));
                         (lit "query", field params "query")])))
    /\ forall n entry,
        nth_error entries n = Some entry ->
        get entry (lit "text") = inr VUndefined ->
        exists shown_entry,
          nth_error mapped n = Some shown_entry
          /\ get shown_entry (lit "text") = inr (VStr (lit "undefined"))
          /\ List.length (lit "undefined") = 9
          /\ get shown_entry (lit "text") <> inr VUndefined
          /\ get shown_entry (lit "text") <> inr VNull
          /\ get shown_entry (lit "text") <> inr (VStr []).
Proof.
  intros H Hok P R Hr.
  destruct (search_renders params rq k status text json entries H Hok P R Hr)
    as (mapped & E & F).
  exists mapped. split; [exact E|].
  intros n entry Hn Ht.
  destruct (Forall2_nth_error _ _ _ n entry F Hn) as (shown_entry & Hm & M).
  destruct (mapResult_on_absent_text entry Ht) as (mapped_entry & M' & T).
  rewrite M in M'. injection M' as <-.
  now exists shown_entry.
Qed.

End SearchResults.

(** * More of the dispatcher *)

Section Dispatcher.

Variable String_error : js_error -> jstring.
Variable env : environment.
Variable now : jstring.

Local Notation rpc := (handleMCPRequest String_error env).
Local Notation server := (httpServer String_error env now).
Local Notation registry := (toolHandlers String_error env).

Lemma registered_run (name : jstring) (handler : value -> M value)
      (net : outbound -> reply) (args : value) :
  Map_get (VStr name) registry = Some handler ->
  exists r calls,
    run net (handler args) = (inr (result_object r), calls)
    /\ well_formed r /\ List.length calls <= 1.
Proof.
  intros H.
  destruct (handlers_run_shape String_error env net args) as [P S].
  destruct (registered_cases String_error env _ _ H) as [[_ ->]|[_ ->]]; assumption.
Qed.

(** X17. Only [tools/call] reaches a tool: for a request with any other
    method, or none, the dispatcher answers without an outbound call. *)
Theorem only_tools_call_fetches (request : value) :
  (forall m, get request (lit "method") = inr m ->
             is_string m (lit "tools/call") = false) ->
  exists answer, rpc request = Ret answer.
Proof.
  intros H. unfold handleMCPRequest.
  destruct (get request (lit "method")) as [e|m] eqn:G.
  - cbn [mbind lift io_bind try_catch].
    destruct (get request (lit "id")); eexists; reflexivity.
  - pose proof (get_ok_not_nullish _ _ _ G) as N.
    cbn [mbind lift io_bind try_catch]. rewrite (H m eq_refl).
    rewrite !(get_field request "id" N).
    destruct (is_string m (lit "initialize")); [eexists; reflexivity|].
    destruct (is_string m (lit "tools/list")); [eexists; reflexivity|].
    cbn [io_bind]. destruct (ToString m); eexists; reflexivity.
Qed.

(** X18. A method that is none of [initialize], [tools/list] and
    [tools/call] is answered with error [-32601] naming the method as text,
    [undefined] for a request without one, and with the id of the request. *)
Theorem unknown_method_is_reported (request m : value) (shown : jstring) :
  get request (lit "method") = inr m ->
  known_method m = false ->
  ToString m = inr shown ->
  rpc request
  = Ret (inr (rpc_error (field request "id")
                [("code" ~> VInt (-32601));
                 ("message" ~> VStr (lit "Method '" ++ shown ++ lit "' not found"))])).
Proof.
  intros G K T. pose proof (get_ok_not_nullish _ _ _ G) as N.
  unfold known_method in K.
  apply orb_false_iff in K as [K K3]. apply orb_false_iff in K as [K1 K2].
  unfold handleMCPRequest. rewrite G.
  cbn [mbind lift io_bind try_catch]. rewrite K1, K2, K3.
  rewrite (get_field request "id" N). cbn [io_bind].
  rewrite T. reflexivity.
Qed.

(** X19. A request that parses to [null] is answered like a body that
    does not parse: the dispatcher's own catch fails on reading its id, and
    [/mcp] answers status 400 with error [-32700] and id [0]. *)
Theorem null_request_is_a_parse_error (body : jstring) :
  JSON_parse body = inr VNull ->
  server (POST (lit "/mcp") body)
  = Ret (json_response 400
           (rpc_error (VInt 0)
              [("code" ~> VInt (-32700));
               ("message" ~>
                VStr (lit "Parse error: "
                        ++ String_error (TypeError_read VNull (lit "id"))))])).
Proof.
  intros P. rewrite (route_mcp String_error env now). unfold mcp_endpoint.
  rewrite P. reflexivity.
Qed.

Lemma rpc_call_run (net : outbound -> reply) (request : value) :
  nullish request = false ->
  get request (lit "method") = inr (str "tools/call") ->
  exists answer calls,
    run net (rpc request) = (inr answer, calls)
    /\ envelope_for (field request "id") answer
    /\ List.length calls <= 1.
Proof.
  intros N G.
  assert (Internal : forall e,
             envelope_for (field request "id")
               (rpc_error (field request "id")
                  [("code" ~> VInt (-32603));
                   ("message" ~> VStr (lit "Internal error: " ++ String_error e))]))
    by (intros e; right; eexists; reflexivity).
  unfold handleMCPRequest. rewrite G.
  cbn [mbind lift io_bind try_catch].
  change (is_string (str "tools/call") (lit "initialize")) with false.
  change (is_string (str "tools/call") (lit "tools/list")) with false.
  change (is_string (str "tools/call") (lit "tools/call")) with true.
  cbn iota. rewrite (get_field request "params" N). cbn [io_bind].
  unfold destructurable.
  destruct (nullish (field request "params")) eqn:Np; cbn [io_bind].
  { rewrite (get_field request "id" N). eexists _, []. repeat split; auto. }
  rewrite !(get_field (field request "params")) by assumption. cbn [io_bind].
  destruct (Map_get (field (field request "params") "name") registry)
    as [handler|] eqn:Hget.
  - destruct (field (field request "params") "name") as [| |b|n|name|items|props];
      try discriminate Hget.
    destruct (registered_run name handler net
                (field (field request "params") "arguments") Hget)
      as (r & calls & Hrun & W & L).
    unfold mbind. rewrite !run_bind, Hrun. cbn [fst snd].
    destruct (error_of_result r W) as [E T]. rewrite E. cbn beta iota.
    rewrite T, (get_field request "id" N).
    destruct r as [data|message]; cbn beta iota.
    + change (get (result_object (ToolSuccess data)) (lit "data"))
        with (inr data : exc value).
      cbn [mret run fst snd]. rewrite !app_nil_r.
      eexists _, calls. split; [reflexivity|]. split; [|exact L].
      left. eexists. reflexivity.
    + cbn [mret run fst snd]. rewrite !app_nil_r.
      eexists _, calls. split; [reflexivity|]. split; [|exact L].
      right. eexists. reflexivity.
  - rewrite !(get_field request "id" N). cbn [io_bind].
    destruct (ToString (field (field request "params") "name")); cbn [io_bind].
    + eexists _, []. repeat split; auto.
    + eexists _, []. split; [reflexivity|]. split; [|auto].
      right. eexists. reflexivity.
Qed.

(** X20. Every request other than [null] gets an envelope: against every
    upstream the dispatcher returns, after at most one outbound call, a
    response that carries the id of the request and either a result or an
    error, and [/mcp] sends it with status 200. *)
Theorem every_request_gets_an_envelope
        (net : outbound -> reply) (body : jstring) (request : value) :
  JSON_parse body = inr request ->
  request <> VNull ->
  exists answer calls,
    run net (rpc request) = (inr answer, calls)
    /\ envelope_for (field request "id") answer
    /\ field answer "jsonrpc" = str "2.0"
    /\ field answer "id" = field request "id"
    /\ List.length calls <= 1
    /\ run net (server (POST (lit "/mcp") body)) = (json_response 200 answer, calls).
Proof.
  intros P Nn. pose proof (JSON_parse_not_null _ _ P Nn) as N.
  assert (R : exists answer calls,
             run net (rpc request) = (inr answer, calls)
             /\ envelope_for (field request "id") answer
             /\ List.length calls <= 1).
  { destruct (is_string (field request "method") (lit "tools/call")) eqn:C.
    - apply rpc_call_run; [exact N|].
      rewrite (get_field request "method" N).
      destruct (field request "method") as [| |b|n|s|items|props];
        try discriminate C.
      cbn [is_string] in C. apply jstring_eqb_eq in C as ->. reflexivity.
    - unfold handleMCPRequest. rewrite (get_field request "method" N).
      cbn [mbind lift io_bind try_catch]. rewrite C.
      rewrite !(get_field request "id" N).
      destruct (is_string (field request "method") (lit "initialize"));
        [eexists _, []; split; [reflexivity|]; split; [left; eexists; reflexivity|auto]|].
      destruct (is_string (field request "method") (lit "tools/list"));
        [eexists _, []; split; [reflexivity|]; split; [left; eexists; reflexivity|auto]|].
      cbn [io_bind].
      destruct (ToString (field request "method")); cbn [io_bind].
      + eexists _, []. split; [reflexivity|]. split; [right; eexists; reflexivity|auto].
      + eexists _, []. split; [reflexivity|]. split; [right; eexists; reflexivity|auto]. }
  destruct R as (answer & calls & Hrun & E & L).
  exists answer, calls. split; [exact Hrun|]. split; [exact E|].
  split; [destruct E as [(p & ->)|(p & ->)]; reflexivity|].
  split; [destruct E as [(p & ->)|(p & ->)]; reflexivity|].
  split; [exact L|].
  rewrite (route_mcp String_error env now).
  now apply (mcp_endpoint_run String_error env net body request).
Qed.

Lemma nullish_args_fail (name : jstring) (handler : value -> M value) (args : value) :
  Map_get (VStr name) registry = Some handler ->
  nullish args = true ->
  exists message,
    handler args = Ret (inr (Failure message))
    /\ message <> []
    /\ (has_prefix "Configuration error: " message
        \/ message = lit "Server error: "
                       ++ String_error (TypeError_destructure args)).
Proof.
  intros H N.
  destruct (registered_cases String_error env _ _ H) as [[_ ->]|[_ ->]].
  - pose proof (cropPriceHandler_cases String_error env args) as C.
    unfold cropPrice_inputs, destructurable in C. rewrite N in C. cbn [ebind] in C.
    destruct (DATAGOVIN_API_KEY env) as [[|c key]|]; eexists;
      (split; [exact C|]); (split; [discriminate|]);
      try (left; reflexivity); right; reflexivity.
  - pose proof (searchHandler_cases String_error env args) as C.
    unfold search_read, destructurable in C. rewrite N in C. cbn [ebind] in C.
    destruct (EXA_API_KEY env) as [[|c key]|]; eexists;
      (split; [exact C|]); (split; [discriminate|]);
      try (left; reflexivity); right; reflexivity.
Qed.

(** X21. A [tools/call] for a registered tool that carries no [arguments],
    or [null], never reaches the upstream: the handler fails on its missing
    key or on destructuring the arguments, and the answer is error [-32603]
    with that message. *)
Theorem call_without_arguments_is_an_error
        (request params args : value) (name : jstring) (handler : value -> M value) :
  get request (lit "method") = inr (str "tools/call") ->
  get request (lit "params") = inr params ->
  get params (lit "name") = inr (VStr name) ->
  get params (lit "arguments") = inr args ->
  Map_get (VStr name) registry = Some handler ->
  nullish args = true ->
  exists message,
    rpc request
    = Ret (inr (rpc_error (field request "id")
                  [("code" ~> VInt (-32603)); ("message" ~> VStr message)]))
    /\ (has_prefix "Configuration error: " message
        \/ message = lit "Server error: "
                       ++ String_error (TypeError_destructure args)).
Proof.
  intros Hmethod Hparams Hname Hargs Hget N.
  pose proof (get_ok_not_nullish _ _ _ Hmethod) as Nrequest.
  pose proof (get_ok_not_nullish _ _ _ Hname) as Nparams.
  destruct (nullish_args_fail name handler args Hget N) as (message & E & Ne & Kind).
  exists message. split; [|exact Kind].
  unfold handleMCPRequest. rewrite Hmethod.
  cbn [mbind lift io_bind try_catch].
  change (is_string (str "tools/call") (lit "initialize")) with false.
  change (is_string (str "tools/call") (lit "tools/list")) with false.
  change (is_string (str "tools/call") (lit "tools/call")) with true.
  cbn iota. rewrite Hparams. cbn [io_bind].
  unfold destructurable. rewrite Nparams. cbn [io_bind].
  rewrite Hname. cbn [io_bind]. rewrite Hargs. cbn [io_bind].
  rewrite Hget, E. cbn [io_bind].
  change (get (Failure message) (lit "error")) with (inr (VStr message) : exc value).
  cbn [io_bind]. destruct message as [|c message]; [now contradiction Ne|].
  cbn [truthy]. rewrite (get_field request "id" Nrequest). reflexivity.
Qed.

(** * More of the listener *)

(** X22. Only a [POST] reaches a tool or the dispatcher: a request with
    any other method is answered at once, with status 200 (preflight, health,
    root) or 404, and without an outbound call; so a [GET] of
    [/tools/{name}] or of [/mcp] is a 404. *)
Theorem only_post_reaches_the_tools (req : http_request) :
  jstring_eqb (req_method req) (lit "POST") = false ->
  exists response,
    server req = Ret response
    /\ (status response = 200%Z \/ status response = 404%Z)
    /\ (jstring_eqb (req_method req) (lit "OPTIONS") = false ->
        jstring_eqb (req_url req) (lit "/health") = false ->
        jstring_eqb (req_url req) (lit "/") = false ->
        response = json_response 404 (obj [("error" ~> str "Not found")])).
Proof.
  intros H. unfold httpServer. rewrite H, !andb_false_r.
  destruct (jstring_eqb (req_method req) (lit "OPTIONS"));
    [eexists; split; [reflexivity|]; split; [now left|discriminate]|].
  destruct (jstring_eqb (req_url req) (lit "/health"));
    [eexists; split; [reflexivity|]; split; [now left|discriminate]|].
  destruct (jstring_eqb (req_url req) (lit "/"));
    [eexists; split; [reflexivity|]; split; [now left|discriminate]|].
  eexists. split; [reflexivity|]. split; [now right|reflexivity].
Qed.

Lemma json_answer_ret (code : Z) (v : value) : json_answer (mret (json_response code v)).
Proof. intros net a [= <-]. now exists code, v. Qed.

Lemma json_answer_bind {A} (c : M A) (f : A -> M http_response) :
  (forall a, json_answer (f a)) -> json_answer (mbind c f).
Proof.
  intros H net a. unfold mbind. rewrite run_bind. cbn [fst].
  destruct (fst (run net c)) as [e|x]; [discriminate|]. apply H.
Qed.

Lemma tool_endpoint_json (toolName : value) (body : jstring) (net : outbound -> reply) :
  exists code v,
    fst (run net (tool_endpoint String_error env toolName body)) = json_response code v.
Proof.
  unfold tool_endpoint. rewrite run_settle. cbn [fst].
  match goal with
  | |- context [fst (run net ?c)] =>
      assert (J : json_answer c);
      [|destruct (fst (run net c)) as [e|a] eqn:E;
        [eexists _, _; reflexivity|exact (J net a E)]]
  end.
  apply json_answer_bind. intros params.
  destruct (Map_get toolName registry) as [handler|].
  - apply json_answer_bind. intros result. apply json_answer_ret.
  - apply json_answer_bind. intros shown. apply json_answer_ret.
Qed.

Lemma mcp_endpoint_json (body : jstring) (net : outbound -> reply) :
  exists code v,
    fst (run net (mcp_endpoint String_error env body)) = json_response code v.
Proof.
  unfold mcp_endpoint. rewrite run_settle. cbn [fst].
  match goal with
  | |- context [fst (run net ?c)] =>
      assert (J : json_answer c);
      [|destruct (fst (run net c)) as [e|a] eqn:E;
        [eexists _, _; reflexivity|exact (J net a E)]]
  end.
  apply json_answer_bind. intros request.
  apply json_answer_bind. intros response. apply json_answer_ret.
Qed.

(** X23. Every response of the listener, whatever the request and the
    upstream, carries the three CORS headers first; and every response but
    the preflight's is declared as JSON. *)
Theorem every_response_has_cors (net : outbound -> reply) (req : http_request) :
  exists rest,
    headers (fst (run net (server req))) = cors ++ rest
    /\ (jstring_eqb (req_method req) (lit "OPTIONS") = false ->
        rest = [(lit "Content-Type", lit "application/json")])
    /\ (jstring_eqb (req_method req) (lit "OPTIONS") = true ->
        rest = [] /\ body (fst (run net (server req))) = []).
Proof.
  unfold httpServer.
  destruct (jstring_eqb (req_method req) (lit "OPTIONS")).
  { exists []. cbn [run fst headers body]. rewrite app_nil_r.
    split; [reflexivity|]. split; [discriminate|]. now split. }
  exists [(lit "Content-Type", lit "application/json")].
  split; [|split; [reflexivity|discriminate]].
  destruct (_ && _).
  { destruct (mcp_endpoint_json (req_body req) net) as (code & v & ->). reflexivity. }
  destruct (jstring_eqb (req_url req) (lit "/health")); [reflexivity|].
  destruct (jstring_eqb (req_url req) (lit "/")); [reflexivity|].
  destruct (_ && _); [|reflexivity].
  destruct (tool_endpoint_json (toolName_of (req_url req)) (req_body req) net)
    as (code & v & ->).
  reflexivity.
Qed.


(** X25. The registry holds exactly [crop-price] and [search]: a lookup
    succeeds for these two strings, as they are spelled, and for no other
    value. *)
Theorem registry_holds_two_names (key : value) :
  (exists handler, Map_get key registry = Some handler)
  <-> key = str "crop-price" \/ key = str "search".
Proof.
  split.
  - intros (handler & H).
    destruct key as [| |b|n|name|items|props]; try discriminate H.
    destruct (registered_cases String_error env _ _ H) as [[-> _]|[-> _]]; auto.
  - intros [->| ->]; eexists; reflexivity.
Qed.

End Dispatcher.

(** X26. [/health] answers every method but the preflight with status
    200, and shows of the keys only whether they are set: two environments
    that agree on which keys are set, and on the port, give the same
    document. *)
Theorem health_shows_presence_only
        (String_error : js_error -> jstring) (env env' : environment)
        (now method body : jstring) :
  jstring_eqb method (lit "OPTIONS") = false ->
  configured (DATAGOVIN_API_KEY env) = configured (DATAGOVIN_API_KEY env') ->
  configured (EXA_API_KEY env) = configured (EXA_API_KEY env') ->
  PORT env = PORT env' ->
  httpServer String_error env now (HttpRequest method (lit "/health") body)
  = Ret (json_response 200 (health_document env now))
  /\ health_document env now = health_document env' now
  /\ field (field (health_document env now) "environment") "datagovin_key_set"
     = VBool (configured (DATAGOVIN_API_KEY env))
  /\ field (field (health_document env now) "environment") "exa_key_set"
     = VBool (configured (EXA_API_KEY env)).
Proof.
  intros M D E P. split; [|split; [|split; reflexivity]].
  - unfold httpServer. cbn [req_method req_url req_body]. rewrite M.
    reflexivity.
  - unfold health_document, PORT_value. unfold configured in D, E.
    now rewrite D, E, P.
Qed.

(** * The path and the query text *)

Lemma strip_prefix_inv (p s rest : jstring) :
  strip_prefix p s = Some rest -> s = p ++ rest.
Proof.
  revert s. induction p as [|x p IH]; intros [|y s]; cbn; try discriminate.
  - now intros [= <-].
  - now intros [= <-].
  - destruct (N.eqb_spec x y) as [->|]; [|discriminate].
    intros H. now rewrite (IH _ H).
Qed.

Lemma strip_prefix_app_none (p a x : jstring) :
  strip_prefix p (a ++ x) = None -> strip_prefix p a = None.
Proof.
  revert a. induction p as [|c p IH]; intros [|y a]; cbn; try discriminate; auto.
  destruct (N.eqb c y); auto.
Qed.

(** [break_at] finds the first occurrence: the text before it holds none. *)
Lemma break_at_inv (sep s before rest : jstring) :
  sep <> [] ->
  break_at sep s = Some (before, rest) ->
  s = before ++ sep ++ rest /\ break_at sep before = None.
Proof.
  intros Hsep. revert before rest.
  induction s as [|c s IH]; intros before rest; rewrite break_at_unfold.
  - destruct (strip_prefix sep []) as [r|] eqn:E; [|discriminate].
    destruct sep; [contradiction|discriminate E].
  - destruct (strip_prefix sep (c :: s)) as [r|] eqn:E.
    + intros [= <- <-]. split; [exact (strip_prefix_inv _ _ _ E)|].
      destruct sep; [contradiction|reflexivity].
    + destruct (break_at sep s) as [[b r]|]; [|discriminate].
      intros [= <- <-]. destruct (IH b r eq_refl) as [-> Hb]. split; [reflexivity|].
      rewrite break_at_unfold, Hb.
      change (c :: b ++ sep ++ r) with ((c :: b) ++ sep ++ r) in E.
      now rewrite (strip_prefix_app_none _ _ _ E).
Qed.

(** X27. The tool name the listener reads from a path [/tools/...] is the
    text between that marker and the next [/tools/], or the end of the path:
    it never holds the marker itself, and a query string or a trailing slash
    is part of the name. *)
Theorem toolName_is_the_first_segment (rest : jstring) :
  exists name tail,
    toolName_of (tools_marker ++ rest) = VStr name
    /\ rest = name ++ tail
    /\ (tail = [] \/ startsWith tail tools_marker = true)
    /\ break_at tools_marker name = None.
Proof.
  rewrite toolName_of_path.
  destruct (break_at tools_marker rest) as [[before after]|] eqn:E.
  - destruct (break_at_inv tools_marker rest before after ltac:(discriminate) E)
      as [-> Hb].
    exists before, (tools_marker ++ after). split; [reflexivity|].
    split; [reflexivity|]. split; [right; apply startsWith_app|exact Hb].
  - exists rest, []. rewrite app_nil_r. repeat split; auto.
Qed.


Lemma occurrences_app (c : ascii) (s t : jstring) :
  occurrences c (s ++ t) = occurrences c s + occurrences c t.
Proof. apply count_occ_app. Qed.

Lemma occurrences_safe (c : ascii) (s : jstring) :
  ~ query_safe (N_of_ascii c) -> Forall query_safe s -> occurrences c s = 0.
Proof.
  intros Hc Hs. apply count_occ_not_In. intros Hin.
  rewrite Forall_forall in Hs. exact (Hc (Hs _ Hin)).
Qed.

Lemma alnum_safe (c : N) : is_alnum c = true -> query_safe c.
Proof.
  unfold is_alnum, is_digit, query_safe. intros H.
  repeat split; intros ->; discriminate H.
Qed.

Lemma hex_upper_safe (d : N) : query_safe (hex_upper d).
Proof.
  unfold hex_upper, query_safe. destruct (N.ltb_spec d 10); lia.
Qed.

Lemma percent_safe (b : N) : Forall query_safe (percent b).
Proof.
  unfold percent. repeat constructor; try apply hex_upper_safe; discriminate.
Qed.

Lemma Forall_flat_map_safe {A : Type} (f : A -> jstring) (l : list A) :
  (forall a, Forall query_safe (f a)) -> Forall query_safe (flat_map f l).
Proof.
  intros H. induction l as [|a l IH]; cbn; [constructor|].
  apply Forall_app. split; [apply H|exact IH].
Qed.

Lemma form_byte_safe (b : N) : Forall query_safe (form_byte b).
Proof.
  unfold form_byte. destruct (b =? 32)%N.
  - repeat constructor; discriminate.
  - destruct (is_alnum b || one_of [42; 45; 46; 95]%N b) eqn:E.
    + constructor; [|constructor].
      unfold query_safe. repeat split; intros ->; discriminate E.
    + apply percent_safe.
Qed.

Lemma form_encode_safe (s : jstring) : Forall query_safe (form_encode s).
Proof.
  unfold form_encode. apply Forall_flat_map_safe. intros cp.
  apply Forall_flat_map_safe. apply form_byte_safe.
Qed.

Lemma encodeURIComponent_safe (s out : jstring) :
  encodeURIComponent s = inr out -> Forall query_safe out.
Proof.
  unfold encodeURIComponent. generalize (code_points s) as cps.
  intros cps. revert out. induction cps as [|[cp|] cps IH]; intros out.
  - intros [= <-]. constructor.
  - destruct ((fix each (cps : list (option N)) : exc jstring :=
                 match cps with
                 | [] => inr []
                 | None :: _ => inl (URIError_malformed s)
                 | Some cp :: rest =>
                     (tail <- each rest ;;
                      inr ((if uri_unreserved cp then [cp]
                            else flat_map percent (utf8 cp)) ++ tail))%exc
                 end) cps) as [e|tail] eqn:E; cbn [ebind]; [discriminate|].
    intros [= <-]. apply Forall_app. split; [|exact (IH _ eq_refl)].
    destruct (uri_unreserved cp) eqn:U.
    + constructor; [|constructor].
      unfold query_safe. repeat split; intros ->; discriminate U.
    + apply Forall_flat_map_safe. apply percent_safe.
  - discriminate.
Qed.

Lemma occurrences_toString (c : ascii) (q : URLSearchParams) :
  occurrences c (URLSearchParams_toString q)
  = pred (List.length q) * occurrences c (lit "&")
    + List.length q * occurrences c (lit "=")
    + fold_right (fun entry n =>
                    occurrences c (form_encode (fst entry))
                    + occurrences c (form_encode (snd entry)) + n) 0 q.
Proof.
  unfold URLSearchParams_toString.
  induction q as [|entry q IH]; [reflexivity|].
  destruct q as [|entry' q].
  - cbn [map join List.length pred fold_right]. rewrite !occurrences_app. lia.
  - change (join (lit "&") (map ?f (entry :: entry' :: q)))
      with (f entry ++ lit "&" ++ join (lit "&") (map f (entry' :: q))).
    rewrite !occurrences_app, IH. cbn [List.length pred fold_right]. lia.
Qed.

Lemma encoded_entries_safe (c : ascii) (q : URLSearchParams) :
  ~ query_safe (N_of_ascii c) ->
  fold_right (fun entry n =>
                occurrences c (form_encode (fst entry))
                + occurrences c (form_encode (snd entry)) + n) 0 q = 0.
Proof.
  intros Hc. induction q as [|entry q IH]; [reflexivity|].
  cbn [fold_right]. rewrite IH, !(occurrences_safe c _ Hc (form_encode_safe _)).
  reflexivity.
Qed.

Section Address.

Variable String_error : js_error -> jstring.
Variable env : environment.

(** X28. Whatever the caller passes as a filter, and whatever the configured
    key and resource id hold, the address of the crop-price call has one [?],
    no [#], one [=] per query entry and one [&] between two entries: no input
    adds an entry to the query or cuts it short. *)
Theorem price_address_is_unambiguous
        (params : value) (rq : outbound) (k : reply -> M value) :
  cropPriceHandler String_error env params = Fetch rq k ->
  exists q,
    outbound_query env params rq q
    /\ 4 <= List.length q <= 7
    /\ occurrences "?" (out_url rq) = 1
    /\ occurrences "#" (out_url rq) = 0
    /\ occurrences "=" (out_url rq) = List.length q
    /\ occurrences "&" (out_url rq) = pred (List.length q).
Proof.
  intros H.
  destruct (price_fetch_inv String_error env _ _ _ H)
    as (key & i & resource & q & K & I & R & Q & -> & _).
  exists q. split; [now exists key, i, resource|].
  pose proof (encodeURIComponent_safe _ _ R) as Safe.
  assert (Len : 4 <= List.length q <= 7).
  { destruct (cropPrice_urlParams_names _ _ _ Q) as (Names & _).
    rewrite <- (length_map fst), Names, !length_app.
    destruct (truthy (state i)), (truthy (district i)), (truthy (commodity i));
      cbn; lia. }
  split; [exact Len|]. unfold price_request. cbn [out_url].
  assert (Hq : forall c, ~ query_safe (N_of_ascii c) ->
           occurrences c ((lit "https://api.data.gov.in/resource/" ++ resource)
                            ++ lit "?" ++ URLSearchParams_toString q)
           = occurrences c (lit "https://api.data.gov.in/resource/")
             + occurrences c (lit "?")
             + pred (List.length q) * occurrences c (lit "&")
             + List.length q * occurrences c (lit "=")).
  { intros c Hc.
    rewrite !occurrences_app, occurrences_toString, (encoded_entries_safe c q Hc),
      (occurrences_safe c resource Hc Safe). lia. }
  assert (Unsafe : forall c, In c ["?"; "#"; "="; "&"]%char -> ~ query_safe (N_of_ascii c)).
  { intros c [<-|[<-|[<-|[<-|[]]]]] (A & B & C & D);
      first [now apply A | now apply B | now apply C | now apply D]. }
  repeat split.
  - rewrite (Hq "?"%char) by (apply Unsafe; cbn; tauto).
    change (occurrences "?" (lit "https://api.data.gov.in/resource/")) with 0.
    change (occurrences "?" (lit "?")) with 1.
    change (occurrences "?" (lit "&")) with 0.
    change (occurrences "?" (lit "=")) with 0. lia.
  - rewrite (Hq "#"%char) by (apply Unsafe; cbn; tauto).
    change (occurrences "#" (lit "https://api.data.gov.in/resource/")) with 0.
    change (occurrences "#" (lit "?")) with 0.
    change (occurrences "#" (lit "&")) with 0.
    change (occurrences "#" (lit "=")) with 0. lia.
  - rewrite (Hq "="%char) by (apply Unsafe; cbn; tauto).
    change (occurrences "=" (lit "https://api.data.gov.in/resource/")) with 0.
    change (occurrences "=" (lit "?")) with 0.
    change (occurrences "=" (lit "&")) with 0.
    change (occurrences "=" (lit "=")) with 1. lia.
  - rewrite (Hq "&"%char) by (apply Unsafe; cbn; tauto).
    change (occurrences "&" (lit "https://api.data.gov.in/resource/")) with 0.
    change (occurrences "&" (lit "?")) with 0.
    change (occurrences "&" (lit "&")) with 1.
    change (occurrences "&" (lit "=")) with 0. lia.
Qed.

End Address.

(** * What is advertised and what is checked *)

Section Advertised.

Variable String_error : js_error -> jstring.
Variable env : environment.

Local Notation rpc := (handleMCPRequest String_error env).
Local Notation search := (searchHandler String_error env).
Local Notation registry := (toolHandlers String_error env).

(** X29. [tools/list] advertises the registry: the answer carries the id
    of the request and one descriptor for each registered tool, under the
    name it is registered with, each with an [inputSchema] of type
    [object]; so every advertised tool can be called and every tool that
    can be called is advertised. *)
Theorem tools_list_advertises_the_registry (request : value) :
  get request (lit "method") = inr (str "tools/list") ->
  exists descriptors,
    rpc request
    = Ret (inr (rpc_result (field request "id") (obj [("tools" ~> VArr descriptors)])))
    /\ List.length descriptors = List.length registry
    /\ (forall name, In name (map (fun d => field d "name") descriptors)
                     <-> exists handler, Map_get name registry = Some handler)
    /\ Forall (fun d => field (field d "inputSchema") "type" = str "object") descriptors.
Proof.
  intros G. pose proof (get_ok_not_nullish _ _ _ G) as N.
  unfold handleMCPRequest. rewrite G. cbn [mbind lift io_bind try_catch].
  change (is_string (str "tools/list") (lit "initialize")) with false.
  change (is_string (str "tools/list") (lit "tools/list")) with true.
  cbn iota. rewrite (get_field request "id" N). cbn [io_bind].
  unfold mcpTools. eexists. split; [reflexivity|]. split; [reflexivity|].
  split; [|repeat constructor].
  intros name. split.
  - intros [<-|[<-|[]]]; eexists; reflexivity.
  - intros (handler & H).
    destruct name as [| |b|n|name|items|props]; try discriminate H.
    destruct (registered_cases String_error env _ _ H) as [[-> _]|[-> _]];
      [left|right; left]; reflexivity.
Qed.

(** X30. The search handler checks nothing but its key and that it was
    given arguments at all: it issues its call exactly when the key is set to
    a non-empty string and the arguments are not [null] or [undefined], so
    also without the [query] that the advertised schema requires. *)
Theorem search_validates_nothing (params : value) :
  (exists rq k, search params = Fetch rq k)
  <-> configured (EXA_API_KEY env) = true /\ nullish params = false.
Proof.
  pose proof (searchHandler_cases String_error env params) as C.
  unfold configured. split.
  - intros (rq & k & H).
    destruct (EXA_API_KEY env) as [[|c key]|]; try (rewrite C in H; discriminate H).
    split; [reflexivity|].
    unfold search_read, destructurable in C.
    destruct (nullish params); [rewrite C in H; discriminate H|reflexivity].
  - intros [K N].
    destruct (EXA_API_KEY env) as [[|c key]|]; try discriminate K.
    unfold search_read, destructurable in C. rewrite N in C. cbn [ebind] in C.
    rewrite !(get_field params) in C by assumption. cbn [ebind] in C.
    destruct C as (k & E & _). eauto.
Qed.

End Advertised.

(** * Instances *)

Lemma sample_search_run_fetches :
  sample_search_run = Fetch sample_search_request (continuation sample_search_run).
Proof. vm_compute. reflexivity. Qed.

Lemma sample_search_run_succeeds :
  run sample_search_upstream sample_search_run
  = (inr (Success sample_search_data), [sample_search_request]).
Proof. vm_compute. reflexivity. Qed.

Lemma sample_price_run_succeeds :
  run sample_upstream sample_price_run
  = (inr (Success sample_price_data), [price_request sample_price_url]).
Proof. vm_compute. reflexivity. Qed.

Lemma long_search_text_parses : JSON_parse long_search_text = inr long_search_json.
Proof. vm_compute. reflexivity. Qed.

Lemma search_truncates_text_witness :
  sample_search_run = Fetch sample_search_request (continuation sample_search_run)
  /\ ok 200 = true
  /\ JSON_parse long_search_text = inr long_search_json
  /\ field long_search_json "results" = VArr [long_entry; untitled_entry]
  /\ forallb renderable [long_entry; untitled_entry] = true
  /\ nth_error [long_entry; untitled_entry] 0 = Some long_entry
  /\ get long_entry (lit "text") = inr (VStr (repeat 120%N 501))
  /\ exists mapped,
       continuation sample_search_run (Response 200 long_search_text)
       = Ret (inr (Success
                     (VObj [(lit "results", VArr mapped);
                            (lit "total_results", VInt 2);
                            (lit "query", str "wheat prices")])))
       /\ List.length mapped = 2
       /\ exists shown_entry shown,
            nth_error mapped 0 = Some shown_entry
            /\ get shown_entry (lit "text") = inr (VStr shown)
            /\ shown = repeat 120%N 500 ++ lit "..."
            /\ List.length shown = 503.
Proof.
  split; [exact sample_search_run_fetches|]. split; [reflexivity|].
  split; [exact long_search_text_parses|]. split; [reflexivity|].
  split; [reflexivity|]. split; [reflexivity|]. split; [reflexivity|].
  destruct (search_truncates_text sample_String_error sample_env sample_search_args
              sample_search_request (continuation sample_search_run)
              200 long_search_text long_search_json [long_entry; untitled_entry]
              sample_search_run_fetches eq_refl long_search_text_parses
              eq_refl eq_refl)
    as (mapped & E & L & T).
  exists mapped. split; [exact E|]. split; [exact L|].
  destruct (T 0 long_entry (repeat 120%N 501) eq_refl eq_refl)
    as (shown_entry & shown & Hn & Ht & _ & _ & Long).
  exists shown_entry, shown. split; [exact Hn|]. split; [exact Ht|].
  exact (Long ltac:(vm_compute; lia)).
Defined.

Lemma search_absent_text_is_undefined_string_witness :
  sample_search_run = Fetch sample_search_request (continuation sample_search_run)
  /\ ok 200 = true
  /\ JSON_parse long_search_text = inr long_search_json
  /\ field long_search_json "results" = VArr [long_entry; untitled_entry]
  /\ forallb renderable [long_entry; untitled_entry] = true
  /\ nth_error [long_entry; untitled_entry] 1 = Some untitled_entry
  /\ get untitled_entry (lit "text") = inr VUndefined
  /\ exists mapped,
       continuation sample_search_run (Response 200 long_search_text)
       = Ret (inr (Success
                     (VObj [(lit "results", VArr mapped);
                            (lit "total_results", VInt 2);
                            (lit "query", str "wheat prices")])))
       /\ exists shown_entry,
            nth_error mapped 1 = Some shown_entry
            /\ get shown_entry (lit "text") = inr (VStr (lit "undefined")).
Proof.
  split; [exact sample_search_run_fetches|]. split; [reflexivity|].
  split; [exact long_search_text_parses|]. split; [reflexivity|].
  split; [reflexivity|]. split; [reflexivity|]. split; [reflexivity|].
  destruct (search_absent_text_is_undefined_string sample_String_error sample_env
              sample_search_args sample_search_request
              (continuation sample_search_run)
              200 long_search_text long_search_json [long_entry; untitled_entry]
              sample_search_run_fetches eq_refl long_search_text_parses
              eq_refl eq_refl)
    as (mapped & E & T).
  exists mapped. split; [exact E|].
  destruct (T 1 untitled_entry eq_refl eq_refl) as (shown_entry & Hn & Ht & _).
  exists shown_entry. split; [exact Hn|exact Ht].
Defined.

Lemma upstream_status_is_reported_witness :
  ok 503 = false
  /\ continuation sample_price_run (Response 503 (lit "busy"))
     = Ret (inr (Failure (lit "HTTP 503 fetching data.gov.in: busy")))
  /\ continuation sample_search_run (Response 503 (lit "busy"))
     = Ret (inr (Failure (lit "HTTP 503 fetching EXA API: busy"))).
Proof.
  split; [reflexivity|]. split.
  - exact (proj1 (upstream_status_is_reported sample_String_error sample_env sample_args
                    (price_request sample_price_url) (continuation sample_price_run)
                    503 (lit "busy") eq_refl)
                 sample_price_run_fetches).
  - exact (proj2 (upstream_status_is_reported sample_String_error sample_env
                    sample_search_args sample_search_request
                    (continuation sample_search_run) 503 (lit "busy") eq_refl)
                 sample_search_run_fetches).
Defined.

Lemma upstream_garbage_is_reported_witness :
  ok 200 = true
  /\ JSON_parse (lit "<html>") = inl (SyntaxError_JSON (lit "<html>"))
  /\ continuation sample_price_run (Response 200 (lit "<html>"))
     = Ret (inr (Failure (lit "Invalid JSON response: <html>")))
  /\ continuation sample_search_run (Response 200 (lit "<html>"))
     = Ret (inr (Failure (lit "Invalid JSON response from EXA: <html>"))).
Proof.
  split; [reflexivity|]. split; [reflexivity|]. split.
  - exact (proj1 (upstream_garbage_is_reported sample_String_error sample_env sample_args
                    (price_request sample_price_url) (continuation sample_price_run)
                    200 (lit "<html>") (SyntaxError_JSON (lit "<html>"))
                    eq_refl eq_refl)
                 sample_price_run_fetches).
  - exact (proj2 (upstream_garbage_is_reported sample_String_error sample_env
                    sample_search_args sample_search_request
                    (continuation sample_search_run)
                    200 (lit "<html>") (SyntaxError_JSON (lit "<html>"))
                    eq_refl eq_refl)
                 sample_search_run_fetches).
Defined.

Lemma rejected_call_is_a_server_error_witness :
  sample_search_run = Fetch sample_search_request (continuation sample_search_run)
  /\ continuation sample_search_run (Rejected unreachable)
     = Ret (inr (Failure (lit "Server error: " ++ sample_String_error unreachable))).
Proof.
  split; [exact sample_search_run_fetches|].
  exact (rejected_call_is_a_server_error sample_String_error sample_env
           sample_search_args sample_search_request (continuation sample_search_run)
           unreachable (or_intror sample_search_run_fetches)).
Defined.

Lemma empty_key_is_missing_witness :
  DATAGOVIN_API_KEY empty_keys = Some []
  /\ EXA_API_KEY empty_keys = Some []
  /\ cropPriceHandler sample_String_error empty_keys sample_args
     = Ret (inr (Failure price_configuration_error))
  /\ searchHandler sample_String_error empty_keys sample_search_args
     = Ret (inr (Failure search_configuration_error)).
Proof.
  split; [reflexivity|]. split; [reflexivity|]. split.
  - exact (proj1 (empty_key_is_missing sample_String_error empty_keys sample_args)
                 eq_refl).
  - exact (proj2 (empty_key_is_missing sample_String_error empty_keys sample_search_args)
                 eq_refl).
Defined.

Lemma nullish_params_fail_without_call_witness :
  nullish VNull = true
  /\ DATAGOVIN_API_KEY sample_env = Some (lit "price-key")
  /\ cropPriceHandler sample_String_error sample_env VNull
     = Ret (inr (Failure (lit "Server error: "
                            ++ sample_String_error (TypeError_destructure VNull)))).
Proof.
  split; [reflexivity|]. split; [reflexivity|].
  exact (proj1 (nullish_params_fail_without_call sample_String_error sample_env VNull
                  112%N (lit "rice-key") eq_refl)
               eq_refl).
Defined.

Lemma success_comes_from_upstream_witness :
  run sample_upstream sample_price_run
  = (inr (Success sample_price_data), [price_request sample_price_url])
  /\ run sample_search_upstream sample_search_run
     = (inr (Success sample_search_data), [sample_search_request])
  /\ (exists rq status text json,
        [price_request sample_price_url] = [rq]
        /\ sample_upstream rq = Response status text
        /\ ok status = true
        /\ JSON_parse text = inr json
        /\ out_method rq = lit "GET"
        /\ has_prefix "https://api.data.gov.in/resource/" (out_url rq))
  /\ exists rq status text json,
       [sample_search_request] = [rq]
       /\ sample_search_upstream rq = Response status text
       /\ ok status = true
       /\ JSON_parse text = inr json
       /\ out_method rq = lit "POST"
       /\ out_url rq = lit "https://api.exa.ai/search".
Proof.
  split; [exact sample_price_run_succeeds|].
  split; [exact sample_search_run_succeeds|]. split.
  - exact (proj1 (success_comes_from_upstream sample_String_error sample_env
                    sample_upstream sample_args sample_price_data
                    [price_request sample_price_url])
                 sample_price_run_succeeds).
  - exact (proj2 (success_comes_from_upstream sample_String_error sample_env
                    sample_search_upstream sample_search_args sample_search_data
                    [sample_search_request])
                 sample_search_run_succeeds).
Defined.

Lemma failures_are_of_four_kinds_witness :
  run busy_upstream sample_price_run
  = (inr (Failure (lit "HTTP 503 fetching data.gov.in: busy")),
     [price_request sample_price_url])
  /\ (lit "HTTP 503 fetching data.gov.in: busy" = price_configuration_error
      /\ [price_request sample_price_url] = []
      \/ has_prefix "Server error: " (lit "HTTP 503 fetching data.gov.in: busy")
      \/ has_prefix "HTTP " (lit "HTTP 503 fetching data.gov.in: busy")
         /\ List.length [price_request sample_price_url] = 1
      \/ has_prefix "Invalid JSON response: " (lit "HTTP 503 fetching data.gov.in: busy")
         /\ List.length [price_request sample_price_url] = 1).
Proof.
  assert (E : run busy_upstream sample_price_run
              = (inr (Failure (lit "HTTP 503 fetching data.gov.in: busy")),
                 [price_request sample_price_url]))
    by (vm_compute; reflexivity).
  split; [exact E|].
  exact (proj1 (failures_are_of_four_kinds sample_String_error sample_env busy_upstream
                  sample_args (lit "HTTP 503 fetching data.gov.in: busy")
                  [price_request sample_price_url])
               E).
Defined.

Lemma price_query_layout_witness :
  sample_price_run
  = Fetch (price_request sample_price_url) (continuation sample_price_run)
  /\ exists q,
       outbound_query sample_env sample_args (price_request sample_price_url) q
       /\ map fst q
          = [lit "api-key"; lit "format"; lit "limit"; lit "offset"]
              ++ (if truthy (field sample_args "state") then [lit "filters[State]"] else [])
              ++ (if truthy (field sample_args "district")
                  then [lit "filters[District]"] else [])
              ++ (if truthy (field sample_args "commodity")
                  then [lit "filters[Commodity]"] else [])
       /\ get_param (lit "api-key") q = DATAGOVIN_API_KEY sample_env
       /\ get_param (lit "format") q = Some (lit "json")
       /\ NoDup (map fst q)
       /\ out_method (price_request sample_price_url) = lit "GET"
       /\ out_body (price_request sample_price_url) = None.
Proof.
  split; [exact sample_price_run_fetches|].
  exact (price_query_layout sample_String_error sample_env sample_args
           (price_request sample_price_url) (continuation sample_price_run)
           sample_price_run_fetches).
Defined.

Lemma price_success_echoes_query_witness :
  sample_price_run
  = Fetch (price_request sample_price_url) (continuation sample_price_run)
  /\ continuation sample_price_run (Response 200 sample_price_text)
     = Ret (inr (Success sample_price_data))
  /\ field sample_price_data "query"
     = VObj [(lit "state", str "Punjab"); (lit "district", VUndefined);
             (lit "commodity", str "Wheat")].
Proof.
  assert (E : continuation sample_price_run (Response 200 sample_price_text)
              = Ret (inr (Success sample_price_data)))
    by (vm_compute; reflexivity).
  split; [exact sample_price_run_fetches|]. split; [exact E|].
  exact (price_success_echoes_query sample_String_error sample_env sample_args
           (price_request sample_price_url) (continuation sample_price_run)
           (Response 200 sample_price_text) sample_price_data
           sample_price_run_fetches E).
Defined.

Lemma search_request_layout_witness :
  sample_search_run = Fetch sample_search_request (continuation sample_search_run)
  /\ exists props,
       out_url sample_search_request = lit "https://api.exa.ai/search"
       /\ out_method sample_search_request = lit "POST"
       /\ out_headers sample_search_request
          = [(lit "Content-Type", lit "application/json");
             (lit "x-api-key", exa_key_of sample_env)]
       /\ out_body sample_search_request = JSON_stringify (VObj props)
       /\ lookup (lit "query") props = Some (field sample_search_args "query")
       /\ lookup (lit "use_autoprompt") props = Some (VBool true)
       /\ lookup (lit "contents") props = Some (VObj [(lit "text", VBool true)])
       /\ forall name,
           In name search_optional ->
           lookup (lit name) props
           = if truthy (field sample_search_args name)
             then Some (field sample_search_args name) else None.
Proof.
  split; [exact sample_search_run_fetches|].
  exact (search_request_layout sample_String_error sample_env sample_search_args
           sample_search_request (continuation sample_search_run)
           sample_search_run_fetches).
Defined.

Lemma num_results_defaults_only_when_absent_witness :
  sample_search_run = Fetch sample_search_request (continuation sample_search_run)
  /\ field sample_search_args "num_results" = VUndefined
  /\ exists props,
       out_body sample_search_request = JSON_stringify (VObj props)
       /\ lookup (lit "num_results") props = Some (VInt 5).
Proof.
  split; [exact sample_search_run_fetches|]. split; [reflexivity|].
  destruct (num_results_defaults_only_when_absent sample_String_error sample_env
              sample_search_args sample_search_request
              (continuation sample_search_run) sample_search_run_fetches)
    as (props & B & Absent & _).
  exists props. split; [exact B|exact (Absent eq_refl)].
Defined.

Lemma search_success_maps_every_entry_witness :
  sample_search_run = Fetch sample_search_request (continuation sample_search_run)
  /\ continuation sample_search_run (Response 200 sample_search_text)
     = Ret (inr (Success sample_search_data))
  /\ exists status text json entries mapped,
       Response 200 sample_search_text = Response status text
       /\ JSON_parse text = inr json
       /\ or_else (field json "results") (VArr []) = VArr entries
       /\ field sample_search_data "results" = VArr mapped
       /\ Forall2 (fun entry shown => mapResult entry = inr shown) entries mapped
       /\ List.length mapped = List.length entries
       /\ field sample_search_data "total_results" = VNum (of_nat (List.length entries))
       /\ field sample_search_data "query" = field sample_search_args "query".
Proof.
  assert (E : continuation sample_search_run (Response 200 sample_search_text)
              = Ret (inr (Success sample_search_data)))
    by (vm_compute; reflexivity).
  split; [exact sample_search_run_fetches|]. split; [exact E|].
  exact (search_success_maps_every_entry sample_String_error sample_env
           sample_search_args sample_search_request (continuation sample_search_run)
           (Response 200 sample_search_text) sample_search_data
           sample_search_run_fetches E).
Defined.

Lemma one_bad_entry_fails_the_search_witness :
  sample_search_run = Fetch sample_search_request (continuation sample_search_run)
  /\ ok 200 = true
  /\ JSON_parse null_entry_text = inr null_entry_json
  /\ field null_entry_json "results" = VArr [VObj [("title" ~> str "T")]; VNull]
  /\ In VNull [VObj [("title" ~> str "T")]; VNull]
  /\ nullish VNull = true
  /\ exists e,
       continuation sample_search_run (Response 200 null_entry_text)
       = Ret (inr (Failure (lit "Server error: " ++ sample_String_error e))).
Proof.
  assert (P : JSON_parse null_entry_text = inr null_entry_json)
    by (vm_compute; reflexivity).
  assert (I : In VNull [VObj [("title" ~> str "T")]; VNull])
    by (right; left; reflexivity).
  split; [exact sample_search_run_fetches|]. split; [reflexivity|].
  split; [exact P|]. split; [reflexivity|]. split; [exact I|]. split; [reflexivity|].
  exact (one_bad_entry_fails_the_search sample_String_error sample_env
           sample_search_args sample_search_request (continuation sample_search_run)
           200 null_entry_text null_entry_json
           [VObj [("title" ~> str "T")]; VNull] VNull
           sample_search_run_fetches eq_refl P eq_refl I (or_introl eq_refl)).
Defined.

Lemma search_results_must_be_a_sequence_witness :
  sample_search_run = Fetch sample_search_request (continuation sample_search_run)
  /\ ok 200 = true
  /\ JSON_parse (lit "{}") = inr (VObj [])
  /\ VObj [] <> VNull
  /\ truthy (field (VObj []) "results") = false
  /\ continuation sample_search_run (Response 200 (lit "{}"))
     = Ret (inr (Success (VObj [(lit "results", VArr []);
                                (lit "total_results", VInt 0);
                                (lit "query", field sample_search_args "query")]))).
Proof.
  assert (P : JSON_parse (lit "{}") = inr (VObj [])) by (vm_compute; reflexivity).
  assert (N : VObj [] <> VNull) by discriminate.
  split; [exact sample_search_run_fetches|]. split; [reflexivity|].
  split; [exact P|]. split; [exact N|]. split; [reflexivity|].
  exact (proj1 (search_results_must_be_a_sequence sample_String_error sample_env
                  sample_search_args sample_search_request
                  (continuation sample_search_run) 200 (lit "{}") (VObj [])
                  sample_search_run_fetches eq_refl P N)
               eq_refl).
Defined.

Lemma only_tools_call_fetches_witness :
  get list_request (lit "method") = inr (str "tools/list")
  /\ is_string (str "tools/list") (lit "tools/call") = false
  /\ exists answer, handleMCPRequest sample_String_error sample_env list_request = Ret answer.
Proof.
  split; [reflexivity|]. split; [reflexivity|].
  apply (only_tools_call_fetches sample_String_error sample_env list_request).
  intros m H. injection H as <-. reflexivity.
Defined.

Lemma unknown_method_is_reported_witness :
  get ping_request (lit "method") = inr (str "ping")
  /\ known_method (str "ping") = false
  /\ ToString (str "ping") = inr (lit "ping")
  /\ handleMCPRequest sample_String_error sample_env ping_request
     = Ret (inr (rpc_error (VInt 3)
                   [("code" ~> VInt (-32601));
                    ("message" ~> VStr (lit "Method 'ping' not found"))])).
Proof.
  split; [reflexivity|]. split; [reflexivity|]. split; [reflexivity|].
  exact (unknown_method_is_reported sample_String_error sample_env ping_request
           (str "ping") (lit "ping") eq_refl eq_refl eq_refl).
Defined.

Lemma null_request_is_a_parse_error_witness :
  JSON_parse (lit "null") = inr VNull
  /\ httpServer sample_String_error sample_env sample_now (POST (lit "/mcp") (lit "null"))
     = Ret (json_response 400
              (rpc_error (VInt 0)
                 [("code" ~> VInt (-32700));
                  ("message" ~>
                   VStr (lit "Parse error: "
                           ++ sample_String_error (TypeError_read VNull (lit "id"))))])).
Proof.
  assert (P : JSON_parse (lit "null") = inr VNull) by (vm_compute; reflexivity).
  split; [exact P|].
  exact (null_request_is_a_parse_error sample_String_error sample_env sample_now
           (lit "null") P).
Defined.

Lemma every_request_gets_an_envelope_witness :
  JSON_parse sample_envelope = inr sample_call
  /\ sample_call <> VNull
  /\ exists answer calls,
       run sample_upstream (handleMCPRequest sample_String_error sample_env sample_call)
       = (inr answer, calls)
       /\ envelope_for (field sample_call "id") answer
       /\ field answer "jsonrpc" = str "2.0"
       /\ field answer "id" = field sample_call "id"
       /\ List.length calls <= 1
       /\ run sample_upstream
              (httpServer sample_String_error sample_env sample_now
                          (POST (lit "/mcp") sample_envelope))
          = (json_response 200 answer, calls).
Proof.
  assert (P : JSON_parse sample_envelope = inr sample_call) by (vm_compute; reflexivity).
  assert (N : sample_call <> VNull) by discriminate.
  split; [exact P|]. split; [exact N|].
  exact (every_request_gets_an_envelope sample_String_error sample_env sample_now
           sample_upstream sample_envelope sample_call P N).
Defined.

Lemma call_without_arguments_is_an_error_witness :
  get argless_call (lit "method") = inr (str "tools/call")
  /\ get argless_call (lit "params") = inr argless_params
  /\ get argless_params (lit "name") = inr (VStr (lit "search"))
  /\ get argless_params (lit "arguments") = inr VUndefined
  /\ Map_get (VStr (lit "search")) (toolHandlers sample_String_error sample_env)
     = Some (searchHandler sample_String_error sample_env)
  /\ nullish VUndefined = true
  /\ exists message,
       handleMCPRequest sample_String_error sample_env argless_call
       = Ret (inr (rpc_error (field argless_call "id")
                     [("code" ~> VInt (-32603)); ("message" ~> VStr message)]))
       /\ (has_prefix "Configuration error: " message
           \/ message = lit "Server error: "
                          ++ sample_String_error (TypeError_destructure VUndefined)).
Proof.
  split; [reflexivity|]. split; [reflexivity|]. split; [reflexivity|].
  split; [reflexivity|]. split; [reflexivity|]. split; [reflexivity|].
  exact (call_without_arguments_is_an_error sample_String_error sample_env
           argless_call argless_params VUndefined (lit "search")
           (searchHandler sample_String_error sample_env)
           eq_refl eq_refl eq_refl eq_refl eq_refl eq_refl).
Defined.

Lemma only_post_reaches_the_tools_witness :
  jstring_eqb (req_method get_search) (lit "POST") = false
  /\ httpServer sample_String_error sample_env sample_now get_search
     = Ret (json_response 404 (obj [("error" ~> str "Not found")])).
Proof.
  split; [reflexivity|].
  destruct (only_post_reaches_the_tools sample_String_error sample_env sample_now
              get_search eq_refl) as (response & E & _ & Other).
  rewrite E, (Other eq_refl eq_refl eq_refl). reflexivity.
Defined.

Lemma health_shows_presence_only_witness :
  jstring_eqb (lit "GET") (lit "OPTIONS") = false
  /\ configured (DATAGOVIN_API_KEY sample_env) = configured (DATAGOVIN_API_KEY other_keys)
  /\ configured (EXA_API_KEY sample_env) = configured (EXA_API_KEY other_keys)
  /\ PORT sample_env = PORT other_keys
  /\ httpServer sample_String_error sample_env sample_now
                (HttpRequest (lit "GET") (lit "/health") [])
     = Ret (json_response 200 (health_document sample_env sample_now))
  /\ health_document sample_env sample_now = health_document other_keys sample_now.
Proof.
  split; [reflexivity|]. split; [reflexivity|]. split; [reflexivity|].
  split; [reflexivity|].
  destruct (health_shows_presence_only sample_String_error sample_env other_keys
              sample_now (lit "GET") [] eq_refl eq_refl eq_refl eq_refl)
    as (A & B & _).
  split; [exact A|exact B].
Defined.

Lemma price_address_is_unambiguous_witness :
  sample_price_run
  = Fetch (price_request sample_price_url) (continuation sample_price_run)
  /\ exists q,
       outbound_query sample_env sample_args (price_request sample_price_url) q
       /\ 4 <= List.length q <= 7
       /\ occurrences "?" sample_price_url = 1
       /\ occurrences "#" sample_price_url = 0
       /\ occurrences "=" sample_price_url = List.length q
       /\ occurrences "&" sample_price_url = pred (List.length q).
Proof.
  split; [exact sample_price_run_fetches|].
  exact (price_address_is_unambiguous sample_String_error sample_env sample_args
           (price_request sample_price_url) (continuation sample_price_run)
           sample_price_run_fetches).
Defined.

Lemma tools_list_advertises_the_registry_witness :
  get list_request (lit "method") = inr (str "tools/list")
  /\ exists descriptors,
       handleMCPRequest sample_String_error sample_env list_request
       = Ret (inr (rpc_result (field list_request "id")
                     (obj [("tools" ~> VArr descriptors)])))
       /\ List.length descriptors
          = List.length (toolHandlers sample_String_error sample_env)
       /\ (forall name,
              In name (map (fun d => field d "name") descriptors)
              <-> exists handler,
                  Map_get name (toolHandlers sample_String_error sample_env)
                  = Some handler)
       /\ Forall (fun d => field (field d "inputSchema") "type" = str "object")
                 descriptors.
Proof.
  split; [reflexivity|].
  exact (tools_list_advertises_the_registry sample_String_error sample_env list_request
           eq_refl).
Defined.
